(** * Apex Arc: the home-run prediction pipeline

    A shallow embedding of the four stages of the daily batch
    (models/top30_hr_predictor.py, models/parlay_stack_builder.py,
    trackers/hr_tracker.py, trackers/shadow_diagnostics.py) and of the two
    data sources of utils/data_fetcher.py, together with the small part of
    pandas, numpy and itertools they rely on.

    Conventions of the embedding:
    - float64 and int64 cells are read as exact rationals ([Q]); rounding
      and overflow of IEEE arithmetic are outside the model, the missing
      value NaN is a cell of its own; the confidence bonus, where the
      specification asks for an exact float, is also computed in binary64;
    - a Python exception is a value of [exn], a computation that may raise
      has type [result A];
    - a CSV file holds a table: [read_csv] after [to_csv] gives the table
      back;
    - the clock ([date.today()]), the draws of the random generator, the
      four overlays and the answers of the outcome feed are inputs; the
      Predictor takes its player data source as a parameter. *)

From Stdlib Require Import QArith Qround String List Sorted Permutation Lia Lqa.
From Stdlib Require Import SpecFloat.
From stdpp Require Import gmap strings list pretty.

Open Scope string_scope.
Open Scope Q_scope.

(** ** Python values, exceptions *)

Inductive cell : Type :=
| Num (q : Q)
| NaN
| Str (s : string)
| Bool (b : bool).

Inductive exn : Type :=
| KeyError (key : cell)
| TypeError
| IndexError
| ZeroDivisionError
| ValueError
| FileNotFoundError (path : string).

(** [type(e).__name__] *)
Definition exn_name (e : exn) : string :=
  match e with
  | KeyError _ => "KeyError"
  | TypeError => "TypeError"
  | IndexError => "IndexError"
  | ZeroDivisionError => "ZeroDivisionError"
  | ValueError => "ValueError"
  | FileNotFoundError _ => "FileNotFoundError"
  end.

Inductive result (A : Type) : Type :=
| Ok (a : A)
| Raise (e : exn).
Arguments Ok {A} a.
Arguments Raise {A} e.

#[global] Instance result_ret : MRet result := fun A a => Ok a.
#[global] Instance result_bind : MBind result := fun A B f m =>
  match m with
  | Ok a => f a
  | Raise e => Raise e
  end.

(** [a == b] on two scalars. NaN is equal to nothing, itself included;
    [True] and [False] compare as 1 and 0. *)
Definition py_eq (a b : cell) : bool :=
  match a, b with
  | Num x, Num y => Qeq_bool x y
  | Str s, Str t => String.eqb s t
  | Bool x, Bool y => Bool.eqb x y
  | Bool x, Num y => Qeq_bool (if x then 1 else 0) y
  | Num x, Bool y => Qeq_bool x (if y then 1 else 0)
  | _, _ => false
  end.

(** The float a cell stands for in arithmetic: [None] is NaN, a string
    makes the operation raise. *)
Definition to_float (c : cell) : result (option Q) :=
  match c with
  | Num q => Ok (Some q)
  | NaN => Ok None
  | Bool b => Ok (Some (if b then 1 else 0))
  | Str _ => Raise TypeError
  end.

Definition of_float (o : option Q) : cell :=
  match o with
  | Some q => Num q
  | None => NaN
  end.

Definition float_mul (a b : cell) : result cell :=
  x ← to_float a; y ← to_float b;
  mret (of_float (match x, y with Some p, Some q => Some (p * q) | _, _ => None end)).

Definition float_add (a b : cell) : result cell :=
  x ← to_float a; y ← to_float b;
  mret (of_float (match x, y with Some p, Some q => Some (p + q) | _, _ => None end)).

(** [a >= b] and [a > b] on floats: false as soon as one side is NaN. *)
Definition float_ge (a b : cell) : bool :=
  match a, b with
  | Num x, Num y => Qle_bool y x
  | _, _ => false
  end.

Definition float_gt (a b : cell) : result bool :=
  x ← to_float a; y ← to_float b;
  mret (match x, y with Some p, Some q => negb (Qle_bool p q) | _, _ => false end).

(** ** pandas: Series and DataFrame *)

(** A row handed out by [iloc] or [iterrows], and a dict of a record list:
    labels with their values. *)
Definition Series : Type := list (string * cell).

Fixpoint assoc (k : string) (s : Series) : option cell :=
  match s with
  | [] => None
  | (k', v) :: s' => if String.eqb k k' then Some v else assoc k s'
  end.

(** [k in s] *)
Definition series_in (k : string) (s : Series) : bool :=
  match assoc k s with Some _ => true | None => false end.

(** [s[k]] *)
Definition getitem (s : Series) (k : string) : result cell :=
  match assoc k s with
  | Some v => Ok v
  | None => Raise (KeyError (Str k))
  end.

Fixpoint series_set (k : string) (v : cell) (s : Series) : Series :=
  match s with
  | [] => [(k, v)]
  | (k', v') :: s' =>
      if String.eqb k k' then (k, v) :: s' else (k', v') :: series_set k v s'
  end.

Record DataFrame : Type := mkDataFrame {
  columns : list string;
  rows : list Series
}.

Definition has_column (df : DataFrame) (c : string) : bool :=
  bool_decide (c ∈ columns df).

(** The value of a row under a column; a row that lacks the label holds
    the missing value there. *)
Definition cell_at (c : string) (r : Series) : cell :=
  match assoc c r with Some v => v | None => NaN end.

(** [len(df)] *)
Definition len (df : DataFrame) : nat := length (rows df).

(** [df[c]] *)
Definition column (df : DataFrame) (c : string) : result (list cell) :=
  if has_column df c then Ok (map (cell_at c) (rows df))
  else Raise (KeyError (Str c)).

(** [df[c] = values], for a value list as long as the frame (every use
    below computes it from the frame's own columns). *)
Definition set_column (df : DataFrame) (c : string) (values : list cell) : DataFrame :=
  {| columns := if has_column df c then columns df else (columns df ++ [c])%list;
     rows := zip_with (series_set c) values (rows df) |}.

(** A row seen through the frame's columns. *)
Definition reindex (cols : list string) (r : Series) : Series :=
  map (fun c => (c, cell_at c r)) cols.

(** [df.iterrows()] and [df.iloc[i]] *)
Definition iterrows (df : DataFrame) : list Series :=
  map (reindex (columns df)) (rows df).

Definition iloc (df : DataFrame) (i : nat) : result Series :=
  match rows df !! i with
  | Some r => Ok (reindex (columns df) r)
  | None => Raise IndexError
  end.

(** [df.head(n)] *)
Definition head (n : nat) (df : DataFrame) : DataFrame :=
  {| columns := columns df; rows := firstn n (rows df) |}.

(** [df[mask]] with the mask computed row by row. *)
Definition select_rows (p : Series -> bool) (df : DataFrame) : DataFrame :=
  {| columns := columns df; rows := List.filter p (rows df) |}.

(** [df[cols]] *)
Definition project (df : DataFrame) (cols : list string) : result DataFrame :=
  match List.find (fun c => negb (has_column df c)) cols with
  | Some c => Raise (KeyError (Str c))
  | None => Ok {| columns := cols; rows := map (reindex cols) (rows df) |}
  end.

(** [pd.DataFrame(records)]: the columns are the keys of the dicts in the
    order they first appear. *)
Definition keys (s : Series) : list string := map fst s.

Definition union_columns (acc new : list string) : list string :=
  (acc ++ List.filter (fun c => negb (bool_decide (c ∈ acc))) new)%list.

Definition DataFrame_of_records (records : list Series) : DataFrame :=
  {| columns := foldl (fun acc r => union_columns acc (keys r)) [] records;
     rows := records |}.

(** [pd.concat([a, b], ignore_index=True)] *)
Definition concat (a b : DataFrame) : DataFrame :=
  {| columns := union_columns (columns a) (columns b);
     rows := (rows a ++ rows b)%list |}.

(** *** Sorting

    [df.sort_values(by, ascending=False)]: numbers from the largest to the
    smallest, missing values last. The sort below keeps rows with equal
    keys in their input order; pandas does not promise that order, and no
    statement below depends on it. *)
Definition sorts_before (a b : cell) : bool :=
  match a, b with
  | Num x, Num y => negb (Qle_bool x y)
  | Num _, _ => true
  | _, _ => false
  end.

Fixpoint insert_desc (by_ : string) (r : Series) (l : list Series) : list Series :=
  match l with
  | [] => [r]
  | x :: l' =>
      if sorts_before (cell_at by_ x) (cell_at by_ r)
      then x :: insert_desc by_ r l'
      else r :: x :: l'
  end.

Definition sort_desc (by_ : string) (l : list Series) : list Series :=
  foldr (insert_desc by_) [] l.

Definition sort_values_desc (df : DataFrame) (by_ : string) : result DataFrame :=
  if has_column df by_
  then Ok {| columns := columns df; rows := sort_desc by_ (rows df) |}
  else Raise (KeyError (Str by_)).

(** ** numpy *)

Fixpoint insert_asc (x : Q) (l : list Q) : list Q :=
  match l with
  | [] => [x]
  | y :: l' => if Qle_bool x y then x :: y :: l' else y :: insert_asc x l'
  end.

Definition sort_asc (l : list Q) : list Q := foldr insert_asc [] l.

(** The floats of a column, [None] as soon as one of them is not a
    number. *)
Fixpoint all_numbers (l : list cell) : option (list Q) :=
  match l with
  | [] => Some []
  | Num q :: l' => match all_numbers l' with Some qs => Some (q :: qs) | None => None end
  | _ :: _ => None
  end.

(** [np.percentile(a, q)] for one [q], method 'linear': the virtual index
    [(n-1) * q/100] falls between two order statistics, the result is
    interpolated between them. One NaN in [a] makes every result NaN; an
    empty [a] raises. *)
Definition lerp (a b t : Q) : Q :=
  if Qle_bool (1 # 2) t then b - (b - a) * (1 - t) else a + (b - a) * t.

Definition percentile_sorted (s : list Q) (q : Q) : Q :=
  let n := length s in
  let virtual_index := inject_Z (Z.of_nat (n - 1)) * (q / 100) in
  let previous := Z.to_nat (Qfloor virtual_index) in
  let next := Nat.min (S previous) (n - 1) in
  let gamma := virtual_index - inject_Z (Z.of_nat previous) in
  lerp (nth previous s 0) (nth next s 0) gamma.

Definition percentile (a : list cell) (qs : list Q) : result (list cell) :=
  match a with
  | [] => Raise IndexError
  | _ =>
      match all_numbers a with
      | Some xs => Ok (map (fun q => Num (percentile_sorted (sort_asc xs) q)) qs)
      | None => Ok (map (fun _ => NaN) qs)
      end
  end.

(** [np.select(conditions, choices, default)] at one position: the choice
    of the first condition that holds. *)
Fixpoint select1 (conds : list bool) (choices : list string) (default : string) : string :=
  match conds, choices with
  | c :: conds', ch :: choices' => if c then ch else select1 conds' choices' default
  | _, _ => default
  end.

(** ** The Predictor: [generate_top30_predictions], steps 3 to 5 *)

(** [k * df[c]] and [s + df[c]] *)
Definition scaled (k : Q) (col : list cell) : result (list cell) :=
  mapM (float_mul (Num k)) col.

Definition added (a b : list cell) : result (list cell) :=
  mapM (fun p => float_add (fst p) (snd p)) (zip a b).

(** The right-hand side of step 3, evaluated from left to right. *)
Definition hr_score_column (player_df : DataFrame) : result (list cell) :=
  barrel ← column player_df "Barrel%";
  t1 ← scaled 0.4 barrel;
  sweet ← column player_df "LaunchAngleSweetSpot%";
  t2 ← scaled 0.3 sweet;
  s2 ← added t1 t2;
  xiso ← column player_df "xISO";
  t3 ← scaled 0.2 xiso;
  s3 ← added s2 t3;
  weather ← column player_df "WeatherBoost";
  t4 ← scaled 0.1 weather;
  s4 ← added s3 t4;
  park ← column player_df "ParkFactorBoost";
  s5 ← added s4 park;
  pitcher ← column player_df "PitcherHRBoost";
  s6 ← added s5 pitcher;
  hot ← column player_df "HotStreakBoost";
  added s6 hot.

(** Step 5: [conditions] and [np.select] at one row. *)
Definition tag_confidence (score_cutoffs : list cell) (score : cell) : cell :=
  Str (select1 (map (float_ge score) score_cutoffs) ["A+"; "A"; "A-"] "B+").

(** Steps 4 and 5: rank, keep 30, tag. *)
Definition rank_and_tag (player_df : DataFrame) : result DataFrame :=
  sorted ← sort_values_desc player_df "HR_Score";
  let top30 := head 30 sorted in
  scores ← column top30 "HR_Score";
  score_cutoffs ← percentile scores [90; 75; 60];
  mret (set_column top30 "Confidence" (map (tag_confidence score_cutoffs) scores)).

(** Step 3: [player_df['HR_Score'] = ...] *)
Definition score_players (player_df : DataFrame) : result DataFrame :=
  hr ← hr_score_column player_df;
  mret (set_column player_df "HR_Score" hr).

(** The table the function returns, from the overlaid player table. *)
Definition top30_predictions (player_df : DataFrame) : result DataFrame :=
  scored ← score_players player_df;
  rank_and_tag scored.

(** *** Joining two tables

    [pd.merge(left, right, on=key, how=..., indicator=...)]. A column the
    two tables share, the key apart, is renamed with the suffixes [_x]
    (left) and [_y] (right). Every left row is paired with every right row
    of the same key, in order; with [how='left'] a left row without a
    partner is kept, its right-hand columns missing. *)

Inductive how : Type := Inner | Left.

(** Key equality of the join: like [==], except that two missing keys
    match each other. *)
Definition key_eq (a b : cell) : bool :=
  match a, b with
  | NaN, NaN => true
  | _, _ => py_eq a b
  end.

(** The names of the left and of the right columns in the joined table. *)
Definition left_name (right_cols : list string) (key c : string) : string :=
  if String.eqb c key then c
  else if bool_decide (c ∈ right_cols) then c ++ "_x" else c.

Definition right_name (left_cols : list string) (c : string) : string :=
  if bool_decide (c ∈ left_cols) then c ++ "_y" else c.

Definition right_columns (right_cols : list string) (key : string) : list string :=
  List.filter (fun c => negb (String.eqb c key)) right_cols.

Definition merged_columns (lc rc : list string) (key : string) (indicator : bool) : list string :=
  (map (left_name rc key) lc ++ map (right_name lc) (right_columns rc key)
   ++ (if indicator then ["_merge"] else []))%list.

Definition merged_row (lc rc : list string) (key : string) (indicator : bool)
    (l : Series) (r : option Series) : Series :=
  (map (fun c => (left_name rc key c, cell_at c l)) lc
   ++ map (fun c => (right_name lc c,
                     match r with Some r' => cell_at c r' | None => NaN end))
          (right_columns rc key)
   ++ (if indicator
       then [("_merge", Str (match r with Some _ => "both" | None => "left_only" end))]
       else []))%list.

(** The right rows a left row is paired with. *)
Definition partners (key : string) (l : Series) (right : DataFrame) : list Series :=
  List.filter (fun r => key_eq (cell_at key l) (cell_at key r)) (rows right).

Definition merge (left right : DataFrame) (key : string) (h : how) (indicator : bool)
    : result DataFrame :=
  if negb (has_column left key && has_column right key)
  then Raise (KeyError (Str key))
  else if indicator && (has_column left "_merge" || has_column right "_merge")
  then Raise ValueError
  else
    let lc := columns left in
    let rc := columns right in
    Ok {| columns := merged_columns lc rc key indicator;
          rows := flat_map
            (fun l =>
               match partners key l right, h with
               | [], Left => [merged_row lc rc key indicator l None]
               | ps, _ => map (fun r => merged_row lc rc key indicator l (Some r)) ps
               end)
            (rows left) |}.

Definition left_only (r : Series) : bool :=
  py_eq (cell_at "_merge" r) (Str "left_only").

(** ** The world of a run: files, directories, console *)

(** A printed line: plain text, or a text with two rates that the f-string
    formats to two decimals. *)
Inductive line : Type :=
| Text (s : string)
| Rates (text : string) (first second : Q).

Record World : Type := mkWorld {
  files : gmap string DataFrame;
  dirs : gset string;
  stdout : list line
}.

(** A stage of the batch: it may raise, and it leaves a world behind in
    either case. *)
Definition IO (A : Type) : Type := World -> result A * World.

#[global] Instance IO_ret : MRet IO := fun A a w => (Ok a, w).
#[global] Instance IO_bind : MBind IO := fun A B f m w =>
  match m w with
  | (Ok a, w') => f a w'
  | (Raise e, w') => (Raise e, w')
  end.

Definition lift {A : Type} (r : result A) : IO A := fun w => (r, w).

Definition print (l : line) : IO unit := fun w =>
  (Ok tt, {| files := files w; dirs := dirs w; stdout := (stdout w ++ [l])%list |}).

Definition makedirs (d : string) : IO unit := fun w =>
  (Ok tt, {| files := files w; dirs := {[d]} ∪ dirs w; stdout := stdout w |}).

(** A file or a directory of that path is there. *)
Definition available (w : World) (p : string) : bool :=
  bool_decide (is_Some (files w !! p)) || bool_decide (p ∈ dirs w).

(** [os.path.exists(p)] *)
Definition path_exists (p : string) : IO bool := fun w => (Ok (available w p), w).

Definition to_csv (p : string) (df : DataFrame) : IO unit := fun w =>
  (Ok tt, {| files := <[p := df]> (files w); dirs := dirs w; stdout := stdout w |}).

Definition read_csv (p : string) : IO DataFrame := fun w =>
  match files w !! p with
  | Some df => (Ok df, w)
  | None => (Raise (FileNotFoundError p), w)
  end.

(** ** The Parlay Builder: [build_parlay_stacks] *)

(** [itertools.combinations(xs, 2)] *)
Fixpoint combinations2 {A : Type} (xs : list A) : list (A * A) :=
  match xs with
  | [] => []
  | x :: xs' => (map (pair x) xs' ++ combinations2 xs')%list
  end.

Definition confidence_value : gmap string Q :=
  <["A+" := 0.15]> (<["A" := 0.10]> (<["A-" := 0.05]> (<["B+" := 0.0]> ∅))).

(** [d[k]] for a dict with string keys. *)
Definition dict_get (d : gmap string Q) (k : cell) : result Q :=
  match k with
  | Str s => match d !! s with Some v => Ok v | None => Raise (KeyError k) end
  | _ => Raise (KeyError k)
  end.

(** [player1['Team'] == player2['Team']] *)
Definition same_team (player1 player2 : Series) : result bool :=
  team1 ← getitem player1 "Team";
  team2 ← getitem player2 "Team";
  mret (py_eq team1 team2).

(** [combo_score] after the confidence bonus. *)
Definition combined_score (player1 player2 : Series) : result cell :=
  score1 ← getitem player1 "HR_Score";
  score2 ← getitem player2 "HR_Score";
  combo_score ← float_mul score1 score2;
  confidence1 ← getitem player1 "Confidence";
  bonus1 ← dict_get confidence_value confidence1;
  confidence2 ← getitem player2 "Confidence";
  bonus2 ← dict_get confidence_value confidence2;
  float_mul combo_score (Num (1 + bonus1 + bonus2)).

(** The same two lines on IEEE doubles ([prec] 53, [emax] 1024): a decimal
    literal is the correctly rounded quotient it denotes, the int [1] is
    exact, sums and products round to nearest even. *)
Definition binary64_of_Z (z : Z) : spec_float := binary_normalize 53 1024 z 0 false.

Definition binary64_literal (q : Q) : spec_float :=
  SFdiv 53 1024 (binary64_of_Z (Qnum q)) (binary64_of_Z (Zpos (Qden q))).

Definition combined_score_binary64 (score1 score2 : spec_float) (tier1 tier2 : string)
    : option spec_float :=
  match confidence_value !! tier1, confidence_value !! tier2 with
  | Some bonus1, Some bonus2 =>
      let combo_score := SFmul 53 1024 score1 score2 in
      Some (SFmul 53 1024 combo_score
              (SFadd 53 1024
                 (SFadd 53 1024 (binary64_of_Z 1) (binary64_literal bonus1))
                 (binary64_literal bonus2)))
  | _, _ => None
  end.

(** The dict appended to [stacks]. *)
Definition stack_entry (player1 player2 : Series) (combo_score : cell) : result Series :=
  name1 ← getitem player1 "Player";
  team1 ← getitem player1 "Team";
  name2 ← getitem player2 "Player";
  team2 ← getitem player2 "Team";
  confidence1 ← getitem player1 "Confidence";
  confidence2 ← getitem player2 "Confidence";
  mret [("Player1", name1); ("Team1", team1);
        ("Player2", name2); ("Team2", team2);
        ("Combined_Score", combo_score);
        ("Player1_Confidence", confidence1);
        ("Player2_Confidence", confidence2)].

(** The body of the loop over the pairs: [None] is [continue], [Some]
    the dict appended to [stacks]. *)
Definition stack_of (top20 : DataFrame) (combo : nat * nat) : result (option Series) :=
  player1 ← iloc top20 (fst combo);
  player2 ← iloc top20 (snd combo);
  skip ← same_team player1 player2;
  if (skip : bool) then mret None
  else
    combo_score ← combined_score player1 player2;
    entry ← stack_entry player1 player2 combo_score;
    mret (Some entry).

Fixpoint collect_stacks (top20 : DataFrame) (player_combos : list (nat * nat))
    : result (list Series) :=
  match player_combos with
  | [] => Ok []
  | combo :: rest =>
      entry ← stack_of top20 combo;
      stacks ← collect_stacks top20 rest;
      mret (match entry with Some s => s :: stacks | None => stacks end)
  end.

Definition player_combos (top20 : DataFrame) : list (nat * nat) :=
  combinations2 (seq 0 (len top20)).

(** From the table read to the table written. *)
Definition parlay_stacks (top30 : DataFrame) : result DataFrame :=
  let top20 := head 20 top30 in
  stacks ← collect_stacks top20 (player_combos top20);
  stacks_df ← sort_values_desc (DataFrame_of_records stacks) "Combined_Score";
  mret (head 15 stacks_df).

Definition build_parlay_stacks (today : string) : IO (option DataFrame) :=
  _ ← print (Text ">> Building HR Parlay Stacks...");
  let output_dir := "data/output" in
  let input_file := output_dir ++ "/apex_top30_full_" ++ today ++ ".csv" in
  found ← path_exists input_file;
  if negb found
  then
    _ ← print (Text ("ERROR: Prediction file " ++ input_file ++ " not found."));
    mret None
  else
    top30 ← read_csv input_file;
    top_stacks ← lift (parlay_stacks top30);
    _ ← makedirs output_dir;
    _ ← to_csv (output_dir ++ "/apex_parlays_" ++ today ++ ".csv") top_stacks;
    _ ← to_csv (output_dir ++ "/apex_parlays_latest.csv") top_stacks;
    _ ← print (Text (">> Top Parlay Stacks saved to " ++ output_dir
                     ++ "/apex_parlays_" ++ today ++ ".csv"));
    mret (Some top_stacks).

(** ** The outcome feed: [get_actual_hr_data]

    The cached file of the date is used when there is one. Otherwise the
    (simulated) remote source is asked up to three times; [feed d k] is
    what attempt [k] for the date [d] gives: the table, or the message of
    the exception it raised. *)

Section Tracker.

Variable feed : string -> nat -> string + DataFrame.

Fixpoint fetch_attempts (target_date data_path : string) (attempt remaining : nat)
    : IO (option DataFrame) :=
  match remaining with
  | O => mret None
  | S remaining' =>
      match feed target_date attempt with
      | inr hr_df =>
          _ ← to_csv data_path hr_df;
          _ ← print (Text (">> Retrieved " ++ pretty (len hr_df)
                           ++ " home runs for " ++ target_date));
          mret (Some hr_df)
      | inl e =>
          _ ← print (Text ("ERROR: Failed to fetch HR data (attempt "
                           ++ pretty (S attempt) ++ "/3): " ++ e));
          _ ← (if bool_decide (attempt < 2)%nat
               then print (Text "Retrying in 5 seconds...")
               else mret tt);
          fetch_attempts target_date data_path (S attempt) remaining'
      end
  end.

Definition get_actual_hr_data (target_date : string) : IO (option DataFrame) :=
  _ ← print (Text (">> Fetching Actual HR Data for " ++ target_date ++ "..."));
  let data_dir := "data/actual" in
  _ ← makedirs data_dir;
  let data_path := data_dir ++ "/actual_hr_" ++ target_date ++ ".csv" in
  cached ← path_exists data_path;
  if (cached : bool)
  then
    hr_df ← read_csv data_path;
    _ ← print (Text (">> Loaded actual HR data: " ++ pretty (len hr_df) ++ " home runs"));
    mret (Some hr_df)
  else
    _ ← print (Text ">> No cached HR data found. Attempting to fetch from MLB API...");
    found ← fetch_attempts target_date data_path 0 3;
    match found with
    | Some hr_df => mret (Some hr_df)
    | None =>
        _ ← print (Text "ERROR: Failed to fetch actual HR data after multiple attempts");
        mret None
    end.

(** ** The Outcome Tracker: [track_home_runs] *)

(** [a / b] *)
Definition py_div (a b : Q) : result Q :=
  if Qeq_bool b 0 then Raise ZeroDivisionError else Ok (a / b).

Definition of_nat (n : nat) : Q := inject_Z (Z.of_nat n).

Definition hit_record (yesterday : string) (hit : Series) : result Series :=
  player ← getitem hit "Player";
  team ← getitem hit "Team_x";
  hr_score ← getitem hit "HR_Score";
  confidence ← getitem hit "Confidence";
  actual_hr ← getitem hit "HR_Count";
  hr_count ← getitem hit "HR_Count";
  multiple ← float_gt hr_count (Num 1);
  mret [("Date", Str yesterday); ("Player", player); ("Team", team);
        ("HR_Score", hr_score); ("Confidence", confidence);
        ("Actual_HR", actual_hr); ("Result", Str "Hit");
        ("Multiple_HR", Bool multiple)].

Definition miss_record (yesterday : string) (miss : Series) : result Series :=
  player ← getitem miss "Player";
  team ← (if series_in "Team" miss then getitem miss "Team" else mret (Str "Unknown"));
  hr_score ← (if series_in "HR_Score" miss then getitem miss "HR_Score" else mret (Num 0));
  confidence ← (if series_in "Confidence" miss then getitem miss "Confidence"
                else mret (Str "None"));
  mret [("Date", Str yesterday); ("Player", player); ("Team", team);
        ("HR_Score", hr_score); ("Confidence", confidence);
        ("Actual_HR", Num 0); ("Result", Str "Miss");
        ("Multiple_HR", Bool false)].

Definition surprise_record (yesterday : string) (surprise : Series) : result Series :=
  let team_col := if series_in "Team_x" surprise then "Team_x" else "Team" in
  player ← getitem surprise "Player";
  team ← (if series_in team_col surprise then getitem surprise team_col
          else mret (Str "Unknown"));
  actual_hr ← (if series_in "HR_Count" surprise then getitem surprise "HR_Count"
               else mret (Num 1));
  multiple ← (if series_in "HR_Count" surprise
              then hr_count ← getitem surprise "HR_Count"; float_gt hr_count (Num 1)
              else mret false);
  mret [("Date", Str yesterday); ("Player", player); ("Team", team);
        ("HR_Score", Num 0); ("Confidence", Str "None");
        ("Actual_HR", actual_hr); ("Result", Str "Surprise");
        ("Multiple_HR", Bool multiple)].

(** The three joins of the reconciliation. *)
Definition hits_of (predictions actual_hr_data : DataFrame) : result DataFrame :=
  merge predictions actual_hr_data "Player" Inner false.

Definition misses_of (predictions actual_hr_data : DataFrame) : result DataFrame :=
  misses ← merge predictions actual_hr_data "Player" Left true;
  mret (select_rows left_only misses).

Definition surprises_of (predictions actual_hr_data : DataFrame) : result DataFrame :=
  surprises ← merge actual_hr_data predictions "Player" Left true;
  mret (select_rows left_only surprises).

(** The three tables and [tracking_results] after the three loops. *)
Record Reconciliation : Type := mkReconciliation {
  hits : DataFrame;
  misses : DataFrame;
  surprises : DataFrame;
  tracking_results : list Series
}.

Definition reconciliation (yesterday : string) (predictions actual_hr_data : DataFrame)
    : result Reconciliation :=
  hits ← hits_of predictions actual_hr_data;
  hit_records ← mapM (hit_record yesterday) (iterrows hits);
  misses ← misses_of predictions actual_hr_data;
  miss_records ← mapM (miss_record yesterday) (iterrows misses);
  surprises ← surprises_of predictions actual_hr_data;
  surprise_records ← mapM (surprise_record yesterday) (iterrows surprises);
  mret {| hits := hits; misses := misses; surprises := surprises;
          tracking_results := (hit_records ++ miss_records ++ surprise_records)%list |}.

(** The summary printed at the end. *)
Definition tracker_rates (predictions hits surprises : DataFrame) : result (Q * Q) :=
  hit_rate ← (if bool_decide (0 < len predictions)%nat
              then py_div (of_nat (len hits)) (of_nat (len predictions))
              else mret 0);
  surprise_rate ← (if bool_decide (0 < len hits + len surprises)%nat
                   then py_div (of_nat (len surprises)) (of_nat (len hits + len surprises))
                   else mret 0);
  mret (hit_rate, surprise_rate).

Definition reconcile (yesterday tracking_dir : string) (predictions actual_hr_data : DataFrame)
    : IO (option DataFrame) :=
  rec ← lift (reconciliation yesterday predictions actual_hr_data);
  let tracking_df := DataFrame_of_records (tracking_results rec) in
  _ ← to_csv (tracking_dir ++ "/tracking_" ++ yesterday ++ ".csv") tracking_df;
  let cumulative_file := tracking_dir ++ "/cumulative_tracking.csv" in
  seen ← path_exists cumulative_file;
  cumulative_df ← (if (seen : bool)
                   then cumulative_df ← read_csv cumulative_file;
                        mret (concat cumulative_df tracking_df)
                   else mret tracking_df);
  _ ← to_csv cumulative_file cumulative_df;
  rates ← lift (tracker_rates predictions (hits rec) (surprises rec));
  _ ← print (Rates ">> Tracking Complete: Hit Rate = {:.2f}, Surprise Rate = {:.2f}"
                   (fst rates) (snd rates));
  _ ← print (Text (">> Results saved to " ++ tracking_dir ++ "/tracking_"
                   ++ yesterday ++ ".csv"));
  mret (Some tracking_df).

Definition track_home_runs (yesterday : string) : IO (option DataFrame) :=
  _ ← print (Text ">> Tracking Today's Home Runs...");
  let output_dir := "data/output" in
  let prediction_file := output_dir ++ "/apex_top30_" ++ yesterday ++ ".csv" in
  let tracking_dir := output_dir ++ "/tracking" in
  _ ← makedirs tracking_dir;
  dated ← path_exists prediction_file;
  chosen ← (if (dated : bool) then mret (Some prediction_file)
            else
              _ ← print (Text ("WARNING: Prediction file " ++ prediction_file
                               ++ " not found. Trying latest predictions..."));
              let prediction_file := output_dir ++ "/apex_top30_latest.csv" in
              latest ← path_exists prediction_file;
              if (latest : bool) then mret (Some prediction_file)
              else
                _ ← print (Text "ERROR: No prediction file found. Cannot track home runs.");
                mret None);
  match chosen with
  | None => mret None
  | Some prediction_file =>
      predictions ← read_csv prediction_file;
      actual_hr_data ← get_actual_hr_data yesterday;
      match actual_hr_data with
      | Some actual_hr_data =>
          if bool_decide (len actual_hr_data = 0)%nat
          then
            _ ← print (Text ("WARNING: No actual HR data available for " ++ yesterday));
            mret None
          else reconcile yesterday tracking_dir predictions actual_hr_data
      | None =>
          _ ← print (Text ("WARNING: No actual HR data available for " ++ yesterday));
          mret None
      end
  end.

End Tracker.

(** ** Diagnostics: [run_shadow_diagnostics], the window and its rates *)

(** The tracking files of the last seven days that exist, in order. *)
Fixpoint load_tracking (tracking_files : list string) : IO (list DataFrame) :=
  match tracking_files with
  | [] => mret []
  | file :: rest =>
      found ← path_exists file;
      if (found : bool)
      then df ← read_csv file; dfs ← load_tracking rest; mret (df :: dfs)
      else load_tracking rest
  end.

(** [pd.concat(tracking_data, ignore_index=True)] of a list that is not
    empty. *)
Definition concat_all (first : DataFrame) (others : list DataFrame) : DataFrame :=
  foldl concat first others.

Definition diagnostic_window (last_week : list string) : IO (option DataFrame) :=
  _ ← print (Text ">> Running Shadow Diagnostics...");
  let tracking_dir := "data/output/tracking" in
  found ← path_exists tracking_dir;
  if negb found
  then
    _ ← print (Text ("ERROR: Tracking directory " ++ tracking_dir ++ " not found."));
    mret None
  else
    tracking_data ← load_tracking
      (map (fun day => tracking_dir ++ "/tracking_" ++ day ++ ".csv") last_week);
    match tracking_data with
    | [] =>
        _ ← print (Text "WARNING: No tracking data found for the past week.");
        mret None
    | df :: dfs => mret (Some (concat_all df dfs))
    end.

(** [len(combined_df[combined_df['Result'] == label])] *)
Definition count_result (combined_df : DataFrame) (label : string) : result nat :=
  results ← column combined_df "Result";
  mret (length (List.filter (fun c => py_eq c (Str label)) results)).

(** The fields of the report that are computed from the three counts. *)
Record DiagnosticRates : Type := mkDiagnosticRates {
  Total_Predictions : nat;
  Hit_Count : nat;
  Miss_Count : nat;
  Surprise_Count : nat;
  Hit_Rate : Q;
  Surprise_Rate : Q;
  Hit_Rate_Alert : bool;
  Surprise_Rate_Alert : bool
}.

Definition hit_rate_threshold : Q := 0.20.
Definition surprise_rate_threshold : Q := 0.50.

Definition diagnostic_rates (combined_df : DataFrame) : result DiagnosticRates :=
  hit_count ← count_result combined_df "Hit";
  miss_count ← count_result combined_df "Miss";
  surprise_count ← count_result combined_df "Surprise";
  let total_predictions := (hit_count + miss_count)%nat in
  let total_hrs := (hit_count + surprise_count)%nat in
  hit_rate ← (if bool_decide (0 < total_predictions)%nat
              then py_div (of_nat hit_count) (of_nat total_predictions)
              else mret 0);
  surprise_rate ← (if bool_decide (0 < total_hrs)%nat
                   then py_div (of_nat surprise_count) (of_nat total_hrs)
                   else mret 0);
  mret {| Total_Predictions := total_predictions;
          Hit_Count := hit_count;
          Miss_Count := miss_count;
          Surprise_Count := surprise_count;
          Hit_Rate := hit_rate;
          Surprise_Rate := surprise_rate;
          Hit_Rate_Alert := negb (Qle_bool hit_rate_threshold hit_rate);
          Surprise_Rate_Alert := negb (Qle_bool surprise_rate surprise_rate_threshold) |}.

(** ** The Predictor with its files: [generate_top30_predictions]

    The player data source and the four overlays are collaborators of the
    Predictor: each overlay takes the player table and gives it back with
    its boost column (or raises). *)

Section Predictor.

Variable get_raw_player_data : IO DataFrame.
Variables apply_weather_overlay apply_park_factor_overlay
          apply_pitcher_overlay apply_batter_overlay : DataFrame -> result DataFrame.

Definition generate_top30_predictions (today : string) : IO DataFrame :=
  _ ← print (Text ">> Generating Top 30 HR Predictions...");
  player_df ← get_raw_player_data;
  player_df ← lift (apply_weather_overlay player_df);
  player_df ← lift (apply_park_factor_overlay player_df);
  player_df ← lift (apply_pitcher_overlay player_df);
  player_df ← lift (apply_batter_overlay player_df);
  top30 ← lift (top30_predictions player_df);
  let output_dir := "data/output" in
  _ ← makedirs output_dir;
  _ ← to_csv (output_dir ++ "/apex_top30_full_" ++ today ++ ".csv") top30;
  simple ← lift (project top30 ["Player"; "Team"; "Opponent"; "HR_Score"; "Confidence"]);
  _ ← to_csv (output_dir ++ "/apex_top30_" ++ today ++ ".csv") simple;
  latest ← lift (project top30 ["Player"; "Team"; "Opponent"; "HR_Score"; "Confidence"]);
  _ ← to_csv (output_dir ++ "/apex_top30_latest.csv") latest;
  _ ← print (Text (">> Top 30 HR Predictions saved to " ++ output_dir
                   ++ "/apex_top30_" ++ today ++ ".csv"));
  mret top30.

End Predictor.

(** ** The player data source: [get_raw_player_data]

    The draws of numpy's random generator are an input: [draw c i] is the
    value drawn for the column [c] at the row [i]. *)

Section PlayerData.

Variable draw : string -> nat -> cell.

(** [np.random....(..., n)] for a column, [range(1, n + 1)] and
    [[f"{prefix}{i}" for i in range(1, n + 1)]] *)
Definition drawn (c : string) (n : nat) : list cell := map (draw c) (seq 0 n).

Definition counted (n : nat) : list cell :=
  map (fun i => Num (inject_Z (Z.of_nat i))) (seq 1 n).

Definition numbered_names (prefix : string) (n : nat) : list cell :=
  map (fun i => Str (prefix ++ pretty i)) (seq 1 n).

(** [pd.DataFrame(player_data)]: fifty players, the columns in the order of
    the dict. *)
Definition minimal_player_row (i : nat) : Series :=
  [("PlayerID", Num (inject_Z (Z.of_nat (S i))));
   ("Player", Str ("Player " ++ pretty (S i)));
   ("Team", draw "Team" i);
   ("Position", draw "Position" i);
   ("Barrel%", draw "Barrel%" i);
   ("LaunchAngleSweetSpot%", draw "LaunchAngleSweetSpot%" i);
   ("xISO", draw "xISO" i);
   ("HR_Season", draw "HR_Season" i);
   ("Stadium", draw "Stadium" i);
   ("OpposingPitcher", Str ("Pitcher " ++ pretty (S i)));
   ("PitcherID", draw "PitcherID" i);
   ("Opponent", draw "Opponent" i);
   ("IsHome", draw "IsHome" i);
   ("Temperature", draw "Temperature" i);
   ("WindSpeed", draw "WindSpeed" i);
   ("WindDirection", draw "WindDirection" i);
   ("Humidity", draw "Humidity" i)].

Definition minimal_player_data : DataFrame :=
  {| columns := keys (minimal_player_row 0);
     rows := map minimal_player_row (seq 0 50) |}.

Definition required_columns : list string :=
  ["PlayerID"; "Player"; "Team"; "Position"; "Barrel%"; "LaunchAngleSweetSpot%";
   "xISO"; "HR_Season"; "Stadium"; "OpposingPitcher"; "PitcherID"; "Opponent";
   "IsHome"; "Temperature"; "WindSpeed"; "WindDirection"; "Humidity"].

(** The [if ... elif ...] chain of the default values; [None] when no
    branch takes the column. *)
Definition default_values (col : string) (n : nat) : option (list cell) :=
  if String.eqb col "PlayerID" then Some (counted n)
  else if String.eqb col "Player" then Some (numbered_names "Player " n)
  else if String.eqb col "Team" || String.eqb col "Opponent" then Some (drawn col n)
  else if String.eqb col "Position" then Some (drawn col n)
  else if String.eqb col "Barrel%" || String.eqb col "LaunchAngleSweetSpot%"
       then Some (drawn col n)
  else if String.eqb col "xISO" then Some (drawn col n)
  else if String.eqb col "HR_Season" then Some (drawn col n)
  else if String.eqb col "Stadium" then Some (drawn col n)
  else if String.eqb col "OpposingPitcher" then Some (numbered_names "Pitcher " n)
  else if String.eqb col "PitcherID" then Some (drawn col n)
  else if String.eqb col "IsHome" then Some (drawn col n)
  else if String.eqb col "Temperature" then Some (drawn col n)
  else if String.eqb col "WindSpeed" then Some (drawn col n)
  else if String.eqb col "WindDirection" then Some (drawn col n)
  else if String.eqb col "Humidity" then Some (drawn col n)
  else None.

(** The loop over [required_columns]. *)
Fixpoint add_missing (cols : list string) (player_df : DataFrame) : IO DataFrame :=
  match cols with
  | [] => mret player_df
  | col :: rest =>
      if has_column player_df col then add_missing rest player_df
      else
        _ ← print (Text ("WARNING: Missing column " ++ col
                         ++ " in player data. Adding default values."));
        add_missing rest
          (match default_values col (len player_df) with
           | Some values => set_column player_df col values
           | None => player_df
           end)
  end.

Definition get_raw_player_data : IO DataFrame :=
  _ ← print (Text ">> Fetching Raw Player Data...");
  let data_path := "data/raw_player_stats.csv" in
  found ← path_exists data_path;
  player_df ← (if (found : bool)
               then
                 player_df ← read_csv data_path;
                 _ ← print (Text (">> Loaded player data: " ++ pretty (len player_df)
                                  ++ " players"));
                 mret player_df
               else
                 _ ← makedirs "data";
                 _ ← print (Text
                   ">> No player data found. Creating minimal dataset for demonstration.");
                 let player_df := minimal_player_data in
                 _ ← to_csv data_path player_df;
                 _ ← print (Text (">> Created minimal player dataset: "
                                  ++ pretty (len player_df) ++ " players"));
                 mret player_df);
  add_missing required_columns player_df.

End PlayerData.

(** ** Vocabulary of the statements *)

(** The metric and boost columns the score is computed from. *)
Definition metric_columns : list string :=
  ["Barrel%"; "LaunchAngleSweetSpot%"; "xISO"; "WeatherBoost";
   "ParkFactorBoost"; "PitcherHRBoost"; "HotStreakBoost"].

Definition is_number (c : cell) : bool :=
  match c with Num _ => true | _ => false end.

(** Every metric and boost column is there and holds numbers only. *)
Definition numeric_inputs (df : DataFrame) : bool :=
  forallb (fun c => has_column df c && forallb (fun r => is_number (cell_at c r)) (rows df))
          metric_columns.

Definition number_at (c : string) (r : Series) : Q :=
  match cell_at c r with Num q => q | _ => 0 end.

(** The score as the specification writes it. *)
Definition weighted_sum (r : Series) : Q :=
  0.4 * number_at "Barrel%" r + 0.3 * number_at "LaunchAngleSweetSpot%" r
  + 0.2 * number_at "xISO" r + 0.1 * number_at "WeatherBoost" r
  + number_at "ParkFactorBoost" r + number_at "PitcherHRBoost" r
  + number_at "HotStreakBoost" r.

(** [r1] may stand before [r2] in a descending order on a column: its
    number is not smaller. *)
Definition not_smaller (by_ : string) (r1 r2 : Series) : Prop :=
  number_at by_ r2 <= number_at by_ r1.

Definition numbered (by_ : string) (r : Series) : Prop :=
  is_number (cell_at by_ r) = true.

(** The rows that are ranked and tagged, and what the tagging makes of
    them. *)
Definition ranked (scored : DataFrame) : list Series :=
  firstn 30 (sort_desc "HR_Score" (rows scored)).

Definition tagged (cutoffs : list cell) (r : Series) : Series :=
  series_set "Confidence" (tag_confidence cutoffs (cell_at "HR_Score" r)) r.

(** The tier of a player is one the bonus table knows. *)
Definition valid_tier (player : Series) : bool :=
  match getitem player "Confidence" with
  | Ok (Str t) => bool_decide (is_Some (confidence_value !! t))
  | _ => false
  end.

Definition is_text (c : cell) : bool :=
  match c with Str _ => true | _ => false end.

(** How many rows carry a label in a column. *)
Definition count_label (c label : string) (l : list Series) : nat :=
  length (List.filter (fun r => py_eq (cell_at c r) (Str label)) l).

(** No two entries of a column are equal ([==]), resp. match as join keys. *)
Fixpoint pairwise_ne (l : list cell) : bool :=
  match l with
  | [] => true
  | x :: l' => forallb (fun y => negb (py_eq x y)) l' && pairwise_ne l'
  end.

Fixpoint is_unique (l : list cell) : bool :=
  match l with
  | [] => true
  | x :: l' => forallb (fun y => negb (key_eq x y)) l' && is_unique l'
  end.

(** The place of a tier on the scale, the best first. *)
Definition tier_rank (c : cell) : nat :=
  match c with
  | Str "A+" => 0
  | Str "A" => 1
  | Str "A-" => 2
  | _ => 3
  end.

(** The columns of the prediction file the Tracker reads and of the
    outcome table of the feed. *)
Definition prediction_columns : list string :=
  ["Player"; "Team"; "Opponent"; "HR_Score"; "Confidence"].

Definition outcome_columns : list string := ["Player"; "Team"; "Date"; "HR_Count"].

(** [r1] may stand before [r2] in a table sorted on a column from the
    largest to the smallest, missing values last: [r2] does not sort
    before [r1]. *)
Definition in_descending_order (by_ : string) (r1 r2 : Series) : Prop :=
  sorts_before (cell_at by_ r2) (cell_at by_ r1) = false.

(** The two rows of a pair of positions are of different teams. *)
Definition cross_team (top20 : DataFrame) (combo : nat * nat) : bool :=
  match rows top20 !! fst combo, rows top20 !! snd combo with
  | Some player1, Some player2 =>
      negb (py_eq (cell_at "Team" player1) (cell_at "Team" player2))
  | _, _ => false
  end.

(** ** Sample data *)

Definition sample_player (n : nat) : Series :=
  [("Player", Str ("Player " ++ pretty n));
   ("Team", Str ("Team " ++ pretty (n mod 10)%nat));
   ("Opponent", Str "BOS");
   ("Barrel%", Num (inject_Z (Z.of_nat (n * 7 mod 11))));
   ("LaunchAngleSweetSpot%", Num 30);
   ("xISO", Num 0.2);
   ("WeatherBoost", Num 0.1);
   ("ParkFactorBoost", Num 0.01);
   ("PitcherHRBoost", Num 0);
   ("HotStreakBoost", Num 0.02)].

Definition sample_players : DataFrame :=
  {| columns := keys (sample_player 0); rows := map sample_player (seq 0 33) |}.

Definition sample_scored (tier : string) (n : nat) : Series :=
  [("Player", Str ("Player " ++ pretty n));
   ("Team", Str ("Team " ++ pretty n));
   ("Opponent", Str "BOS");
   ("HR_Score", Num (inject_Z (Z.of_nat (40 - n)) / 2));
   ("Confidence", Str tier)].

(** Thirty scored players of thirty teams. *)
Definition sample_top30 : DataFrame :=
  {| columns := keys (sample_scored "A" 0);
     rows := (map (sample_scored "A+") (seq 0 3) ++ map (sample_scored "A") (seq 3 5)
              ++ map (sample_scored "A-") (seq 8 4)
              ++ map (sample_scored "B+") (seq 12 18))%list |}.

(** Two players of two teams, the first with a tier off the scale. *)
Definition off_scale_top30 : DataFrame :=
  {| columns := keys (sample_scored "C" 0);
     rows := [sample_scored "C" 0; sample_scored "A" 1] |}.

(** Three scored players of one team. *)
Definition one_team_top30 : DataFrame :=
  {| columns := keys (sample_scored "A" 0);
     rows := map (fun n => series_set "Team" (Str "NYY") (sample_scored "A" n)) (seq 0 3) |}.

(** The predictions and the outcomes of the end-to-end scenario. *)
Definition sample_predictions : DataFrame :=
  {| columns := ["Player"; "Team"; "Opponent"; "HR_Score"; "Confidence"];
     rows := [[("Player", Str "A"); ("Team", Str "NYY"); ("Opponent", Str "BOS");
               ("HR_Score", Num 0.9); ("Confidence", Str "A+")];
              [("Player", Str "B"); ("Team", Str "BOS"); ("Opponent", Str "NYY");
               ("HR_Score", Num 0.5); ("Confidence", Str "B+")]] |}.

Definition sample_outcomes : DataFrame :=
  {| columns := ["Player"; "Team"; "HR_Count"; "Date"];
     rows := [[("Player", Str "A"); ("Team", Str "NYY"); ("HR_Count", Num 1);
               ("Date", Str "2024-06-01")];
              [("Player", Str "C"); ("Team", Str "LAD"); ("HR_Count", Num 2);
               ("Date", Str "2024-06-01")]] |}.

(** Outcomes as the feed groups them. *)
Definition grouped_outcomes : DataFrame :=
  {| columns := outcome_columns;
     rows := [[("Player", Str "A"); ("Team", Str "LAD"); ("Date", Str "2024-06-01");
               ("HR_Count", Num 2)];
              [("Player", Str "C"); ("Team", Str "LAD"); ("Date", Str "2024-06-01");
               ("HR_Count", Num 1)]] |}.

(** One predicted player, and outcomes in which that name comes twice. *)
Definition one_prediction : DataFrame :=
  {| columns := ["Player"; "Team"; "Opponent"; "HR_Score"; "Confidence"];
     rows := [[("Player", Str "A"); ("Team", Str "NYY"); ("Opponent", Str "BOS");
               ("HR_Score", Num 0.9); ("Confidence", Str "A+")]] |}.

Definition twice_named_outcomes : DataFrame :=
  {| columns := ["Player"; "Team"; "HR_Count"; "Date"];
     rows := [[("Player", Str "A"); ("Team", Str "NYY"); ("HR_Count", Num 1);
               ("Date", Str "2024-06-01")];
              [("Player", Str "A"); ("Team", Str "LAD"); ("HR_Count", Num 1);
               ("Date", Str "2024-06-01")]] |}.

(** A feed that answers at once, and a world that holds nothing but the
    latest copy of the predictions. *)
Definition sample_feed : string -> nat -> string + DataFrame :=
  fun _ _ => inr sample_outcomes.

Definition latest_only : World :=
  {| files := {[ "data/output/apex_top30_latest.csv" := sample_predictions ]};
     dirs := ∅;
     stdout := [] |}.

Definition empty_world : World := {| files := ∅; dirs := ∅; stdout := [] |}.

(** A feed that fails twice before it answers. *)
Definition flaky_feed : string -> nat -> string + DataFrame :=
  fun _ attempt => if (attempt <? 2)%nat then inl "timed out" else inr grouped_outcomes.

(** Draws of the generator, and a world whose player file has two of the
    required columns only. *)
Definition sample_draw : string -> nat -> cell :=
  fun c i => if String.eqb c "Team" then Str "NYY" else Num (inject_Z (Z.of_nat i)).

Definition partial_player_file : DataFrame :=
  {| columns := ["Player"; "Barrel%"];
     rows := [[("Player", Str "Aaron Judge"); ("Barrel%", Num 12)];
              [("Player", Str "Juan Soto"); ("Barrel%", Num 9)]] |}.

Definition partial_world : World :=
  {| files := {[ "data/raw_player_stats.csv" := partial_player_file ]};
     dirs := ∅;
     stdout := [] |}.

(** A player source that hands out [sample_players], whose boost columns
    the overlays leave as they are. *)
Definition sample_source : IO DataFrame := fun w => (Ok sample_players, w).

Definition sample_predictor : string -> IO DataFrame :=
  generate_top30_predictions sample_source Ok Ok Ok Ok.

(** * Properties *)

(** ** The error monad *)

Lemma bind_Ok {A B : Type} (m : result A) (f : A -> result B) (b : B) :
  m ≫= f = Ok b -> exists a, m = Ok a /\ f a = Ok b.
Proof. destruct m as [a|e]; simpl; [eauto | discriminate]. Qed.

Lemma bind_Raise {A B : Type} (m : result A) (f : A -> result B) (e : exn) :
  m ≫= f = Raise e -> m = Raise e \/ exists a, m = Ok a /\ f a = Raise e.
Proof. destruct m as [a|e']; simpl; [eauto | intros [= ->]; auto]. Qed.

Ltac bind_inv H :=
  let a := fresh "v" in
  let Ha := fresh "E" in
  apply bind_Ok in H; destruct H as (a & Ha & H).

Lemma mapM_Ok_length {A B : Type} (f : A -> result B) (l : list A) (k : list B) :
  mapM f l = Ok k -> length k = length l.
Proof.
  revert k; induction l as [|x l IH]; intros k H; simpl in H.
  - injection H as <-. reflexivity.
  - bind_inv H. bind_inv H. injection H as <-. simpl. f_equal. auto.
Qed.

Lemma mapM_Ok_Forall2 {A B : Type} (f : A -> result B) (l : list A) (k : list B) :
  mapM f l = Ok k -> Forall2 (fun x y => f x = Ok y) l k.
Proof.
  revert k; induction l as [|x l IH]; intros k H; simpl in H.
  - injection H as <-. constructor.
  - bind_inv H. bind_inv H. injection H as <-. constructor; auto.
Qed.

(** ** Rows and columns *)

Lemma assoc_series_set_eq k v s : assoc k (series_set k v s) = Some v.
Proof.
  induction s as [|[k' v'] s IH]; simpl.
  - rewrite String.eqb_refl. reflexivity.
  - destruct (String.eqb k k') eqn:E; simpl; rewrite ?String.eqb_refl, ?E; auto.
Qed.

Lemma assoc_series_set_ne k c v s : c <> k -> assoc c (series_set k v s) = assoc c s.
Proof.
  intros Hne. induction s as [|[k' v'] s IH]; simpl.
  - apply String.eqb_neq in Hne. rewrite Hne. reflexivity.
  - destruct (String.eqb k k') eqn:E; simpl.
    + apply String.eqb_eq in E; subst k'.
      apply String.eqb_neq in Hne. rewrite Hne. reflexivity.
    + destruct (String.eqb c k'); auto.
Qed.

Lemma cell_at_series_set_eq k v s : cell_at k (series_set k v s) = v.
Proof. unfold cell_at. rewrite assoc_series_set_eq. reflexivity. Qed.

Lemma cell_at_series_set_ne k c v s : c <> k -> cell_at c (series_set k v s) = cell_at c s.
Proof. intros H. unfold cell_at. rewrite assoc_series_set_ne by exact H. reflexivity. Qed.

Lemma assoc_reindex cols c r :
  assoc c (reindex cols r) = if bool_decide (c ∈ cols) then Some (cell_at c r) else None.
Proof.
  induction cols as [|c' cols IH].
  - reflexivity.
  - unfold reindex in *. cbn [map assoc].
    destruct (String.eqb c c') eqn:E.
    + apply String.eqb_eq in E; subst c'.
      rewrite bool_decide_eq_true_2; [reflexivity | apply list_elem_of_here].
    + rewrite IH. apply String.eqb_neq in E.
      destruct (decide (c ∈ cols)) as [D|D].
      * rewrite !bool_decide_eq_true_2; [reflexivity | apply list_elem_of_further; exact D | exact D].
      * rewrite !bool_decide_eq_false_2; [reflexivity | | exact D].
        intros H. apply elem_of_cons in H. destruct H; [congruence | contradiction].
Qed.

Lemma series_in_reindex cols c r : series_in c (reindex cols r) = bool_decide (c ∈ cols).
Proof. unfold series_in. rewrite assoc_reindex. destruct (bool_decide _); reflexivity. Qed.

Lemma getitem_reindex cols c r :
  getitem (reindex cols r) c =
  if bool_decide (c ∈ cols) then Ok (cell_at c r) else Raise (KeyError (Str c)).
Proof. unfold getitem. rewrite assoc_reindex. destruct (bool_decide _); reflexivity. Qed.

Lemma zip_with_map_same {A B C : Type} (f : B -> A -> C) (g : A -> B) (l : list A) :
  zip_with f (map g l) l = map (fun x => f (g x) x) l.
Proof. induction l as [|x l IH]; simpl; [reflexivity | f_equal; exact IH]. Qed.

(** ** The score, row by row *)

Lemma scaled_numbers (k : Q) (f : Series -> Q) (l : list Series) :
  scaled k (map (fun r => Num (f r)) l) = Ok (map (fun r => Num (k * f r)) l).
Proof.
  unfold scaled. induction l as [|r l IH]; simpl; [reflexivity|].
  rewrite IH. reflexivity.
Qed.

Lemma added_numbers (f g : Series -> Q) (l : list Series) :
  added (map (fun r => Num (f r)) l) (map (fun r => Num (g r)) l)
  = Ok (map (fun r => Num (f r + g r)) l).
Proof.
  unfold added. induction l as [|r l IH]; simpl; [reflexivity|].
  simpl in IH. rewrite IH. reflexivity.
Qed.

Lemma numeric_inputs_column df c :
  numeric_inputs df = true -> In c metric_columns ->
  column df c = Ok (map (fun r => Num (number_at c r)) (rows df)).
Proof.
  unfold numeric_inputs. rewrite forallb_forall. intros H Hc.
  specialize (H c Hc). apply andb_true_iff in H as [Hcol Hnum].
  unfold column. rewrite Hcol. f_equal.
  apply map_ext_in. intros r Hr.
  rewrite forallb_forall in Hnum. specialize (Hnum r Hr).
  unfold number_at. destruct (cell_at c r); simpl in Hnum; congruence.
Qed.

Lemma hr_score_column_numbers df :
  numeric_inputs df = true ->
  hr_score_column df = Ok (map (fun r => Num (weighted_sum r)) (rows df)).
Proof.
  intros H. unfold hr_score_column.
  rewrite !(numeric_inputs_column df _ H) by (simpl; tauto).
  repeat first [ rewrite (numeric_inputs_column df _ H) by (simpl; tauto)
               | rewrite scaled_numbers
               | rewrite added_numbers
               | progress simpl ].
  reflexivity.
Qed.

Lemma score_players_rows df :
  numeric_inputs df = true ->
  score_players df =
  Ok {| columns := if has_column df "HR_Score" then columns df
                   else (columns df ++ ["HR_Score"])%list;
        rows := map (fun r => series_set "HR_Score" (Num (weighted_sum r)) r) (rows df) |}.
Proof.
  intros H. unfold score_players. rewrite (hr_score_column_numbers df H). simpl.
  unfold set_column. rewrite zip_with_map_same. reflexivity.
Qed.

Lemma lookup_map {A B : Type} (f : A -> B) (l : list A) (i : nat) :
  map f l !! i = match l !! i with Some x => Some (f x) | None => None end.
Proof.
  revert i; induction l as [|x l IH]; intros [|i]; simpl; auto.
Qed.

Lemma In_firstn_In {A : Type} (n : nat) (l : list A) (x : A) :
  In x (firstn n l) -> In x l.
Proof.
  intros H. rewrite <- (firstn_skipn n l). apply in_or_app. left. exact H.
Qed.

(** ** Sorting *)

Section Sorting.

Variable by_ : string.

#[local] Abbreviation not_smaller := (not_smaller by_).
#[local] Abbreviation numbered := (numbered by_).

Lemma insert_desc_perm r l : Permutation (insert_desc by_ r l) (r :: l).
Proof.
  induction l as [|x l IH]; simpl; [reflexivity|].
  destruct (sorts_before _ _); [|reflexivity].
  rewrite IH. apply perm_swap.
Qed.

Lemma sort_desc_perm l : Permutation (sort_desc by_ l) l.
Proof.
  induction l as [|x l IH]; simpl; [reflexivity|].
  rewrite insert_desc_perm. constructor. exact IH.
Qed.

Lemma sorts_before_numbers r1 r2 :
  numbered r1 -> numbered r2 ->
  sorts_before (cell_at by_ r1) (cell_at by_ r2)
  = negb (Qle_bool (number_at by_ r1) (number_at by_ r2)).
Proof.
  unfold numbered, number_at.
  destruct (cell_at by_ r1), (cell_at by_ r2); simpl; congruence.
Qed.

Lemma insert_desc_sorted r l :
  numbered r -> Forall numbered l ->
  StronglySorted not_smaller l -> StronglySorted not_smaller (insert_desc by_ r l).
Proof.
  intros Hr Hl Hs. induction Hs as [|x l Hs IH Hx]; simpl.
  - repeat constructor.
  - apply Forall_cons in Hl as [Hnx Hl].
    rewrite (sorts_before_numbers x r Hnx Hr).
    destruct (Qle_bool (number_at by_ x) (number_at by_ r)) eqn:E; simpl.
    + apply Qle_bool_iff in E.
      constructor; [constructor; assumption|].
      constructor; [exact E|].
      eapply Forall_impl; [exact Hx|]. unfold not_smaller. simpl.
      intros y Hy. eapply Qle_trans; eassumption.
    + constructor; [auto|].
      eapply Permutation_Forall; [symmetry; apply insert_desc_perm|].
      constructor; [|exact Hx].
      unfold not_smaller. apply Qlt_le_weak, Qnot_le_lt.
      intros H. apply Qle_bool_iff in H. congruence.
Qed.

Lemma sort_desc_sorted l :
  Forall numbered l -> StronglySorted not_smaller (sort_desc by_ l).
Proof.
  induction l as [|x l IH]; intros H; simpl; [constructor|].
  apply Forall_cons in H as [Hx Hl].
  apply insert_desc_sorted; auto.
  eapply Permutation_Forall; [symmetry; apply sort_desc_perm | exact Hl].
Qed.

Lemma StronglySorted_firstn {A : Type} (R : A -> A -> Prop) (n : nat) (l : list A) :
  StronglySorted R l -> StronglySorted R (firstn n l).
Proof.
  intros H; revert n; induction H as [|x l Hs IH Hx]; intros [|n]; simpl;
    try constructor; auto.
  apply Forall_take. exact Hx.
Qed.

Lemma StronglySorted_numbers (l : list Series) :
  StronglySorted not_smaller l ->
  StronglySorted (fun a b => b <= a) (map (number_at by_) l).
Proof.
  induction 1 as [|x l Hs IH Hx]; simpl; constructor; auto.
  apply Forall_map. exact Hx.
Qed.

End Sorting.

(** ** The Predictor *)

Lemma percentile_three a q1 q2 q3 cutoffs :
  percentile a [q1; q2; q3] = Ok cutoffs ->
  exists c1 c2 c3, cutoffs = [c1; c2; c3].
Proof.
  unfold percentile. destruct a as [|x a]; [discriminate|].
  destruct (all_numbers (x :: a)); intros [= <-]; simpl; eauto.
Qed.

Lemma percentile_nonempty a qs : a <> [] -> exists cutoffs, percentile a qs = Ok cutoffs.
Proof.
  unfold percentile. destruct a as [|x a]; [congruence|].
  intros _. destruct (all_numbers (x :: a)); eauto.
Qed.

Lemma tag_confidence_label c90 c75 c60 score :
  In (tag_confidence [c90; c75; c60] score) [Str "A+"; Str "A"; Str "A-"; Str "B+"].
Proof.
  unfold tag_confidence. simpl.
  destruct (float_ge score c90), (float_ge score c75), (float_ge score c60);
    simpl; tauto.
Qed.

Lemma tag_confidence_top c90 c75 c60 score :
  float_ge score c90 = true -> tag_confidence [c90; c75; c60] score = Str "A+".
Proof. intros H. unfold tag_confidence. simpl. rewrite H. reflexivity. Qed.

Lemma count_labels_partition (l : list Series) :
  (forall r, In r l ->
     In (cell_at "Confidence" r) [Str "A+"; Str "A"; Str "A-"; Str "B+"]) ->
  (count_label "Confidence" "A+" l + count_label "Confidence" "A" l
   + count_label "Confidence" "A-" l + count_label "Confidence" "B+" l
   = length l)%nat.
Proof.
  unfold count_label. induction l as [|r l IH]; intros H; [reflexivity|].
  specialize (IH (fun r' Hr' => H r' (or_intror Hr'))).
  specialize (H r (or_introl eq_refl)). simpl in H. cbn [List.filter].
  destruct H as [H|[H|[H|[H|[]]]]]; rewrite <- H; simpl; lia.
Qed.

Lemma rank_and_tag_Ok scored top30 :
  rank_and_tag scored = Ok top30 ->
  exists cutoffs,
    has_column scored "HR_Score" = true /\
    percentile (map (cell_at "HR_Score") (ranked scored)) [90; 75; 60] = Ok cutoffs /\
    rows top30 = map (tagged cutoffs) (ranked scored) /\
    column top30 "HR_Score" = Ok (map (cell_at "HR_Score") (ranked scored)).
Proof.
  unfold rank_and_tag, sort_values_desc. intros H.
  destruct (has_column scored "HR_Score") eqn:Hcol; [|discriminate]. simpl in H.
  unfold column at 1 in H. unfold has_column at 1 in H. simpl in H.
  fold (has_column scored "HR_Score") in H. rewrite Hcol in H. simpl in H.
  fold (ranked scored) in H.
  bind_inv H. injection H as <-. exists v. split; [reflexivity|]. split; [exact E|].
  assert (Hrows : rows (set_column
            (head 30 {| columns := columns scored;
                        rows := sort_desc "HR_Score" (rows scored) |})
            "Confidence"
            (map (tag_confidence v) (map (cell_at "HR_Score") (ranked scored))))
          = map (tagged v) (ranked scored)).
  { unfold set_column. simpl. fold (ranked scored).
    rewrite map_map. apply (zip_with_map_same (series_set "Confidence")). }
  split; [exact Hrows|].
  unfold column. rewrite Hrows.
  assert (Hhas : has_column (set_column
            (head 30 {| columns := columns scored;
                        rows := sort_desc "HR_Score" (rows scored) |})
            "Confidence"
            (map (tag_confidence v) (map (cell_at "HR_Score") (ranked scored))))
            "HR_Score" = true).
  { unfold has_column, set_column. simpl. apply bool_decide_eq_true.
    apply bool_decide_eq_true in Hcol.
    destruct (has_column _ "Confidence");
      [exact Hcol | apply elem_of_app; left; exact Hcol]. }
  rewrite Hhas. f_equal. rewrite map_map. apply map_ext. intros r.
  unfold tagged. apply cell_at_series_set_ne. discriminate.
Qed.

Lemma rank_and_tag_total scored :
  has_column scored "HR_Score" = true -> rows scored <> [] ->
  exists top30, rank_and_tag scored = Ok top30.
Proof.
  intros Hcol Hne. unfold rank_and_tag, sort_values_desc. rewrite Hcol. simpl.
  unfold column at 1. unfold has_column at 1. simpl.
  fold (has_column scored "HR_Score"). rewrite Hcol. simpl. fold (ranked scored).
  destruct (percentile_nonempty (map (cell_at "HR_Score") (ranked scored)) [90; 75; 60])
    as [cutoffs Hc].
  - unfold ranked. intros H. apply map_eq_nil in H.
    assert (L : length (firstn 30 (sort_desc "HR_Score" (rows scored))) = 0%nat)
      by (rewrite H; reflexivity).
    rewrite length_firstn, (Permutation_length (sort_desc_perm _ _)) in L.
    destruct (rows scored); [congruence | simpl in L; lia].
  - rewrite Hc. simpl. eauto.
Qed.

Lemma length_ranked scored : length (ranked scored) = Nat.min 30 (len scored).
Proof.
  unfold ranked, len.
  rewrite length_firstn, (Permutation_length (sort_desc_perm _ _)). reflexivity.
Qed.

Lemma ranked_subset scored r : In r (ranked scored) -> In r (rows scored).
Proof.
  unfold ranked. intros H. apply In_firstn_In in H.
  eapply Permutation_in; [apply sort_desc_perm | exact H].
Qed.

Lemma scored_rows_numbered df r :
  In r (map (fun r => series_set "HR_Score" (Num (weighted_sum r)) r) (rows df)) ->
  numbered "HR_Score" r.
Proof.
  intros H. apply in_map_iff in H as (r0 & <- & _).
  unfold numbered. rewrite cell_at_series_set_eq. reflexivity.
Qed.

Lemma weighted_sum_ext r r' :
  (forall c, In c metric_columns -> cell_at c r' = cell_at c r) ->
  weighted_sum r' = weighted_sum r.
Proof.
  intros H. unfold weighted_sum, number_at.
  rewrite !H by (simpl; tauto). reflexivity.
Qed.

Lemma metric_column_names c :
  In c metric_columns -> c <> "HR_Score" /\ c <> "Confidence".
Proof.
  simpl. intros H.
  repeat (destruct H as [<-|H]; [split; discriminate|]). destruct H.
Qed.

(** C2. With numeric metric and boost columns, scoring succeeds, keeps
    every row in its place and gives row [i] the score
    0.4*Barrel% + 0.3*LaunchAngleSweetSpot% + 0.2*xISO + 0.1*WeatherBoost
    + ParkFactorBoost + PitcherHRBoost + HotStreakBoost of the input row
    [i], the other cells unchanged; the rows of the returned top 30 carry
    the score of their own metrics. *)
Theorem hr_score_is_weighted_sum (player_df : DataFrame) :
  numeric_inputs player_df = true ->
  (exists scored,
      score_players player_df = Ok scored /\
      len scored = len player_df /\
      forall i r, rows player_df !! i = Some r ->
        exists r', rows scored !! i = Some r' /\
          cell_at "HR_Score" r' = Num (weighted_sum r) /\
          forall c, c <> "HR_Score" -> cell_at c r' = cell_at c r) /\
  (forall top30 r, top30_predictions player_df = Ok top30 -> In r (rows top30) ->
      cell_at "HR_Score" r = Num (weighted_sum r)).
Proof.
  intros Hnum. split.
  - eexists. split; [apply score_players_rows; exact Hnum|].
    split; [unfold len; simpl; apply length_map|].
    intros i r Hi. simpl. rewrite lookup_map, Hi.
    eexists. split; [reflexivity|]. split.
    + apply cell_at_series_set_eq.
    + intros c Hc. apply cell_at_series_set_ne. exact Hc.
  - intros top30 r Htop Hr. unfold top30_predictions in Htop.
    rewrite (score_players_rows _ Hnum) in Htop. simpl in Htop.
    apply rank_and_tag_Ok in Htop as (cutoffs & _ & _ & Hrows & _).
    rewrite Hrows in Hr. apply in_map_iff in Hr as (r1 & <- & Hr1).
    apply ranked_subset in Hr1. simpl in Hr1.
    apply in_map_iff in Hr1 as (r0 & <- & _).
    unfold tagged. rewrite cell_at_series_set_ne by discriminate.
    rewrite !cell_at_series_set_eq. f_equal. symmetry.
    apply weighted_sum_ext. intros c Hc.
    destruct (metric_column_names c Hc) as [H1 H2].
    rewrite !cell_at_series_set_ne by assumption. reflexivity.
Qed.

Lemma hr_score_is_weighted_sum_witness :
  numeric_inputs sample_players = true /\
  (exists scored,
      score_players sample_players = Ok scored /\
      len scored = len sample_players /\
      forall i r, rows sample_players !! i = Some r ->
        exists r', rows scored !! i = Some r' /\
          cell_at "HR_Score" r' = Num (weighted_sum r) /\
          forall c, c <> "HR_Score" -> cell_at c r' = cell_at c r) /\
  (forall top30 r, top30_predictions sample_players = Ok top30 -> In r (rows top30) ->
      cell_at "HR_Score" r = Num (weighted_sum r)).
Proof.
  split; [vm_compute; reflexivity|].
  apply (hr_score_is_weighted_sum sample_players). vm_compute. reflexivity.
Defined.

(** C1. A player table of at least 30 rows whose metric and boost columns
    are numeric gives a table of exactly 30 rows, and the HR_Score column
    of that table never increases from one row to a later one. *)
Theorem top30_sorted_by_score (player_df : DataFrame) :
  numeric_inputs player_df = true ->
  (30 <= len player_df)%nat ->
  exists top30 scores,
    top30_predictions player_df = Ok top30 /\
    len top30 = 30%nat /\
    column top30 "HR_Score" = Ok (map Num scores) /\
    StronglySorted (fun a b => b <= a) scores.
Proof.
  intros Hnum Hlen. unfold top30_predictions.
  rewrite (score_players_rows _ Hnum). simpl.
  set (scored := {| columns := _; rows := _ |}).
  assert (Hcol : has_column scored "HR_Score" = true).
  { unfold has_column, scored. simpl. apply bool_decide_eq_true.
    destruct (has_column player_df "HR_Score") eqn:E.
    - apply bool_decide_eq_true in E. exact E.
    - apply elem_of_app. right. apply list_elem_of_here. }
  assert (Hlen' : len scored = len player_df) by (unfold len, scored; simpl; apply length_map).
  destruct (rank_and_tag_total scored Hcol) as [top30 Htop].
  { intros H. unfold len in *. rewrite H in Hlen'. simpl in Hlen'. lia. }
  exists top30, (map (number_at "HR_Score") (ranked scored)).
  split; [exact Htop|].
  apply rank_and_tag_Ok in Htop as (cutoffs & _ & _ & Hrows & Hscores).
  assert (Hnumbered : Forall (numbered "HR_Score") (rows scored)).
  { apply List.Forall_forall. intros r Hr. eapply scored_rows_numbered. exact Hr. }
  split; [|split].
  - unfold len. rewrite Hrows, length_map, length_ranked. lia.
  - rewrite Hscores. f_equal. rewrite map_map. apply map_ext_in.
    intros r Hr. apply ranked_subset in Hr.
    rewrite List.Forall_forall in Hnumbered. specialize (Hnumbered r Hr).
    unfold numbered, number_at in *.
    destruct (cell_at "HR_Score" r); simpl in Hnumbered; congruence.
  - apply StronglySorted_numbers. unfold ranked.
    apply StronglySorted_firstn. apply sort_desc_sorted. exact Hnumbered.
Qed.

Lemma top30_sorted_by_score_witness :
  numeric_inputs sample_players = true /\
  (30 <= len sample_players)%nat /\
  exists top30 scores,
    top30_predictions sample_players = Ok top30 /\
    len top30 = 30%nat /\
    column top30 "HR_Score" = Ok (map Num scores) /\
    StronglySorted (fun a b => b <= a) scores.
Proof.
  split; [vm_compute; reflexivity|].
  split; [vm_compute; lia|].
  apply (top30_sorted_by_score sample_players); [vm_compute; reflexivity | vm_compute; lia].
Defined.

Lemma predictions_tagged player_df top30 :
  top30_predictions player_df = Ok top30 ->
  exists scores cutoffs,
    (len top30 <= 30)%nat /\
    column top30 "HR_Score" = Ok scores /\
    percentile scores [90; 75; 60] = Ok cutoffs /\
    forall r, In r (rows top30) ->
      cell_at "Confidence" r = tag_confidence cutoffs (cell_at "HR_Score" r).
Proof.
  intros H. unfold top30_predictions in H. bind_inv H. clear E.
  apply rank_and_tag_Ok in H as (cutoffs & _ & Hcut & Hrows & Hscores).
  exists (map (cell_at "HR_Score") (ranked v)), cutoffs.
  split; [unfold len; rewrite Hrows, length_map, length_ranked; lia|].
  split; [exact Hscores|]. split; [exact Hcut|].
  intros r Hr. rewrite Hrows in Hr. apply in_map_iff in Hr as (r0 & <- & _).
  unfold tagged. rewrite cell_at_series_set_eq.
  rewrite cell_at_series_set_ne by discriminate. reflexivity.
Qed.

(** C3. Whenever the Predictor returns a table, every row of it carries
    exactly one of the labels A+, A, A-, B+ (the four label classes add up
    to the table), the label is the one chosen by the 90th, 75th and 60th
    percentile of the HR_Score column of that returned table (at most 30
    rows, not the input table), and a row whose score reaches the 90th
    percentile cutoff is labelled A+; any other input whose returned table
    has the same HR_Score column is tagged by the same three cutoffs. *)
Theorem confidence_tiers (player_df top30 : DataFrame) :
  top30_predictions player_df = Ok top30 ->
  exists scores c90 c75 c60,
    (len top30 <= 30)%nat /\
    column top30 "HR_Score" = Ok scores /\
    percentile scores [90; 75; 60] = Ok [c90; c75; c60] /\
    (forall r, In r (rows top30) ->
       cell_at "Confidence" r
       = tag_confidence [c90; c75; c60] (cell_at "HR_Score" r)) /\
    (forall r, In r (rows top30) ->
       In (cell_at "Confidence" r) [Str "A+"; Str "A"; Str "A-"; Str "B+"]) /\
    (count_label "Confidence" "A+" (rows top30)
     + count_label "Confidence" "A" (rows top30)
     + count_label "Confidence" "A-" (rows top30)
     + count_label "Confidence" "B+" (rows top30) = len top30)%nat /\
    (forall r, In r (rows top30) ->
       float_ge (cell_at "HR_Score" r) c90 = true ->
       cell_at "Confidence" r = Str "A+") /\
    (forall other top30',
       top30_predictions other = Ok top30' ->
       column top30' "HR_Score" = Ok scores ->
       forall r, In r (rows top30') ->
         cell_at "Confidence" r
         = tag_confidence [c90; c75; c60] (cell_at "HR_Score" r)).
Proof.
  intros H.
  apply predictions_tagged in H as (scores & cutoffs & Hlen & Hscores & Hcut & Htag).
  destruct (percentile_three _ _ _ _ _ Hcut) as (c90 & c75 & c60 & ->).
  assert (Hlab : forall r, In r (rows top30) ->
            In (cell_at "Confidence" r) [Str "A+"; Str "A"; Str "A-"; Str "B+"]).
  { intros r Hr. rewrite (Htag r Hr). apply tag_confidence_label. }
  exists scores, c90, c75, c60.
  split; [exact Hlen|]. split; [exact Hscores|]. split; [exact Hcut|].
  split; [exact Htag|]. split; [exact Hlab|].
  split; [apply count_labels_partition; exact Hlab|]. split.
  - intros r Hr Hge. rewrite (Htag r Hr). apply tag_confidence_top. exact Hge.
  - intros other top30' Hother Hsame r Hr.
    apply predictions_tagged in Hother as (scores' & cutoffs' & _ & Hs' & Hc' & Ht').
    rewrite Hsame in Hs'. injection Hs' as <-.
    rewrite Hcut in Hc'. injection Hc' as <-.
    exact (Ht' r Hr).
Qed.

Lemma confidence_tiers_witness :
  exists top30,
    top30_predictions sample_players = Ok top30 /\
    exists scores c90 c75 c60,
      (len top30 <= 30)%nat /\
      column top30 "HR_Score" = Ok scores /\
      percentile scores [90; 75; 60] = Ok [c90; c75; c60] /\
      (forall r, In r (rows top30) ->
         cell_at "Confidence" r
         = tag_confidence [c90; c75; c60] (cell_at "HR_Score" r)) /\
      (forall r, In r (rows top30) ->
         In (cell_at "Confidence" r) [Str "A+"; Str "A"; Str "A-"; Str "B+"]) /\
      (count_label "Confidence" "A+" (rows top30)
       + count_label "Confidence" "A" (rows top30)
       + count_label "Confidence" "A-" (rows top30)
       + count_label "Confidence" "B+" (rows top30) = len top30)%nat /\
      (forall r, In r (rows top30) ->
         float_ge (cell_at "HR_Score" r) c90 = true ->
         cell_at "Confidence" r = Str "A+") /\
      (forall other top30',
         top30_predictions other = Ok top30' ->
         column top30' "HR_Score" = Ok scores ->
         forall r, In r (rows top30') ->
           cell_at "Confidence" r
           = tag_confidence [c90; c75; c60] (cell_at "HR_Score" r)).
Proof.
  destruct (top30_predictions sample_players) as [top30|e] eqn:E.
  - exists top30. split; [reflexivity|].
    apply (confidence_tiers sample_players top30 E).
  - vm_compute in E. discriminate E.
Defined.

(** ** Equality of cells *)

Ltac cell_cases :=
  simpl in *; try discriminate; try reflexivity;
  repeat match goal with
         | b : bool |- _ => destruct b; simpl in *; try discriminate; try reflexivity
         end;
  repeat match goal with
         | H : Qeq_bool _ _ = true |- _ => apply Qeq_bool_iff in H
         | H : String.eqb _ _ = true |- _ => apply String.eqb_eq in H; subst
         end;
  try (apply Qeq_bool_iff); try (apply String.eqb_refl);
  try lra; try (exfalso; lra).

Lemma py_eq_sym a b : py_eq a b = true -> py_eq b a = true.
Proof. destruct a, b; intros H; cell_cases. Qed.

Lemma py_eq_trans a b c : py_eq a b = true -> py_eq b c = true -> py_eq a c = true.
Proof. destruct a, b, c; intros H1 H2; cell_cases. Qed.

Lemma key_eq_sym a b : key_eq a b = true -> key_eq b a = true.
Proof. destruct a, b; intros H; cell_cases. Qed.

Lemma key_eq_trans a b c : key_eq a b = true -> key_eq b c = true -> key_eq a c = true.
Proof. destruct a, b, c; intros H1 H2; cell_cases. Qed.

(** ** Pairs *)

Lemma in_combinations2_seq (s n a b : nat) :
  In (a, b) (combinations2 (seq s n)) <-> (s <= a < b /\ b < s + n)%nat.
Proof.
  revert s; induction n as [|n IH]; intros s; simpl.
  - split; [tauto | lia].
  - rewrite in_app_iff, in_map_iff, IH. split.
    + intros [(y & [= <- <-] & Hy)|H]; [apply in_seq in Hy|]; lia.
    + intros H. destruct (Nat.eq_dec a s) as [->|Hne].
      * left. exists b. split; [reflexivity | apply in_seq; lia].
      * right. lia.
Qed.

Lemma length_combinations2 {A : Type} (l : list A) :
  (2 * length (combinations2 l) = length l * (length l - 1))%nat.
Proof.
  induction l as [|x l IH]; simpl; [reflexivity|].
  rewrite length_app, length_map. nia.
Qed.

Lemma pairwise_ne_sorted (l : list cell) :
  pairwise_ne l = true -> StronglySorted (fun a b => py_eq a b = false) l.
Proof.
  induction l as [|x l IH]; simpl; intros H; constructor;
    apply andb_true_iff in H as [Hx Hl]; auto.
  apply List.Forall_forall. intros y Hy.
  rewrite forallb_forall in Hx. specialize (Hx y Hy).
  apply negb_true_iff in Hx. exact Hx.
Qed.

(** ** The Parlay Builder *)

Lemma iloc_Ok df k p :
  iloc df k = Ok p -> exists r, rows df !! k = Some r /\ p = reindex (columns df) r.
Proof.
  unfold iloc. destruct (rows df !! k) as [r|]; [|discriminate].
  intros [= <-]. eauto.
Qed.

Lemma iloc_in_range df k :
  (k < len df)%nat ->
  exists r, rows df !! k = Some r /\ iloc df k = Ok (reindex (columns df) r).
Proof.
  intros H. destruct (lookup_lt_is_Some_2 (rows df) k H) as [r Hr].
  exists r. split; [exact Hr|]. unfold iloc. rewrite Hr. reflexivity.
Qed.

Lemma same_team_reindex cols r1 r2 :
  same_team (reindex cols r1) (reindex cols r2)
  = if bool_decide ("Team" ∈ cols)
    then Ok (py_eq (cell_at "Team" r1) (cell_at "Team" r2))
    else Raise (KeyError (Str "Team")).
Proof.
  unfold same_team. rewrite !getitem_reindex.
  destruct (bool_decide ("Team" ∈ cols)); reflexivity.
Qed.

Lemma stack_of_Some top20 c s :
  stack_of top20 c = Ok (Some s) ->
  exists p1 p2 score,
    iloc top20 (fst c) = Ok p1 /\ iloc top20 (snd c) = Ok p2 /\
    same_team p1 p2 = Ok false /\
    combined_score p1 p2 = Ok score /\
    stack_entry p1 p2 score = Ok s.
Proof.
  unfold stack_of. intros H.
  bind_inv H. bind_inv H. bind_inv H.
  destruct v1; [discriminate|].
  bind_inv H. bind_inv H. injection H as <-.
  eauto 10.
Qed.

Lemma stack_of_None top20 c :
  stack_of top20 c = Ok None ->
  exists p1 p2,
    iloc top20 (fst c) = Ok p1 /\ iloc top20 (snd c) = Ok p2 /\
    same_team p1 p2 = Ok true.
Proof.
  unfold stack_of. intros H.
  bind_inv H. bind_inv H. bind_inv H.
  destruct v1; [eauto 10|].
  bind_inv H. bind_inv H. discriminate.
Qed.

Lemma dict_get_Ok d k v :
  dict_get d k = Ok v -> exists t, k = Str t /\ d !! t = Some v.
Proof.
  unfold dict_get. destruct k as [| |t|]; try discriminate.
  destruct (d !! t) eqn:E; [|discriminate]. intros [= <-]. eauto.
Qed.

Lemma combined_score_Ok p1 p2 score :
  combined_score p1 p2 = Ok score ->
  exists h1 h2 base t1 t2 v1 v2,
    getitem p1 "HR_Score" = Ok h1 /\ getitem p2 "HR_Score" = Ok h2 /\
    float_mul h1 h2 = Ok base /\
    getitem p1 "Confidence" = Ok (Str t1) /\ confidence_value !! t1 = Some v1 /\
    getitem p2 "Confidence" = Ok (Str t2) /\ confidence_value !! t2 = Some v2 /\
    float_mul base (Num (1 + v1 + v2)) = Ok score.
Proof.
  unfold combined_score. intros H.
  do 7 bind_inv H.
  apply dict_get_Ok in E3 as (t1 & -> & Ht1).
  apply dict_get_Ok in E5 as (t2 & -> & Ht2).
  eauto 20.
Qed.

Lemma combined_score_valid p1 p2 score :
  combined_score p1 p2 = Ok score -> valid_tier p1 = true /\ valid_tier p2 = true.
Proof.
  intros H.
  apply combined_score_Ok in H
    as (h1 & h2 & base & t1 & t2 & v1 & v2 & _ & _ & _ & H1 & L1 & H2 & L2 & _).
  unfold valid_tier. rewrite H1, H2, L1, L2. split; reflexivity.
Qed.

Lemma stack_entry_Ok p1 p2 score s :
  stack_entry p1 p2 score = Ok s ->
  exists t1 t2,
    getitem p1 "Team" = Ok t1 /\ getitem p2 "Team" = Ok t2 /\
    cell_at "Team1" s = t1 /\ cell_at "Team2" s = t2 /\
    getitem s "Combined_Score" = Ok score.
Proof.
  unfold stack_entry. intros H. do 6 bind_inv H. injection H as <-.
  exists v0, v2. repeat split; assumption.
Qed.

Lemma collect_stacks_In top20 combos stacks s :
  collect_stacks top20 combos = Ok stacks -> In s stacks ->
  exists c, In c combos /\ stack_of top20 c = Ok (Some s).
Proof.
  revert stacks; induction combos as [|c combos IH]; intros stacks H Hs; simpl in H.
  - injection H as <-. destruct Hs.
  - bind_inv H. bind_inv H. injection H as <-.
    destruct v as [s'|].
    + destruct Hs as [<-|Hs]; [exists c; split; [left; reflexivity | exact E]|].
      destruct (IH _ E0 Hs) as (c' & Hc' & Hs'). exists c'. split; [right|]; assumption.
    + destruct (IH _ E0 Hs) as (c' & Hc' & Hs'). exists c'. split; [right|]; assumption.
Qed.

Lemma collect_stacks_each top20 combos stacks c :
  collect_stacks top20 combos = Ok stacks -> In c combos ->
  exists o, stack_of top20 c = Ok o.
Proof.
  revert stacks; induction combos as [|c' combos IH]; intros stacks H Hc; simpl in H.
  - destruct Hc.
  - bind_inv H. bind_inv H. destruct Hc as [->|Hc]; eauto.
Qed.

Lemma collect_stacks_skipped top20 combos :
  (forall c, In c combos -> stack_of top20 c = Ok None) ->
  collect_stacks top20 combos = Ok [].
Proof.
  induction combos as [|c combos IH]; intros H; simpl; [reflexivity|].
  rewrite (H c) by (left; reflexivity). simpl.
  rewrite IH by (intros c' Hc'; apply H; right; exact Hc'). reflexivity.
Qed.

Lemma collect_stacks_kept top20 combos stacks :
  collect_stacks top20 combos = Ok stacks ->
  (forall c, In c combos -> stack_of top20 c <> Ok None) ->
  length stacks = length combos.
Proof.
  revert stacks; induction combos as [|c combos IH]; intros stacks H Hk; simpl in H.
  - injection H as <-. reflexivity.
  - bind_inv H. bind_inv H. injection H as <-.
    destruct v as [s|]; [|exfalso; apply (Hk c); [left; reflexivity | exact E]].
    simpl. f_equal. apply IH; [exact E0|].
    intros c' Hc'. apply Hk. right. exact Hc'.
Qed.

Lemma collect_stacks_Raise top20 combos e :
  collect_stacks top20 combos = Raise e ->
  exists c, In c combos /\ stack_of top20 c = Raise e.
Proof.
  induction combos as [|c combos IH]; simpl; intros H; [discriminate|].
  apply bind_Raise in H as [H|(o & Ho & H)].
  - exists c. split; [left; reflexivity | exact H].
  - apply bind_Raise in H as [H|(k & Hk & H)]; [|discriminate].
    destruct (IH H) as (c' & Hc' & He). exists c'. split; [right|]; assumption.
Qed.

Lemma parlay_stacks_Ok top30 out :
  parlay_stacks top30 = Ok out ->
  exists stacks,
    collect_stacks (head 20 top30) (player_combos (head 20 top30)) = Ok stacks /\
    (len out <= 15)%nat /\
    forall r, In r (rows out) -> In r stacks.
Proof.
  unfold parlay_stacks. intros H. bind_inv H. bind_inv H. injection H as <-.
  exists v. split; [exact E|].
  unfold sort_values_desc in E0.
  destruct (has_column _ _); [|discriminate]. injection E0 as <-.
  unfold len. simpl. split; [rewrite length_firstn; lia|].
  intros r Hr. apply In_firstn_In in Hr.
  eapply Permutation_in; [apply sort_desc_perm | exact Hr].
Qed.

Lemma build_parlay_stacks_Some today w out w' :
  build_parlay_stacks today w = (Ok (Some out), w') ->
  exists top30,
    files w !! ("data/output/apex_top30_full_" ++ today ++ ".csv") = Some top30 /\
    parlay_stacks top30 = Ok out.
Proof.
  unfold build_parlay_stacks, mbind, IO_bind, mret, IO_ret, print, path_exists,
    read_csv, lift, makedirs, to_csv.
  cbn [fst snd files dirs stdout].
  change ("data/output" ++ "/apex_top30_full_" ++ today ++ ".csv")
    with ("data/output/apex_top30_full_" ++ today ++ ".csv").
  destruct (available _ _); cbn [negb fst snd files dirs stdout]; [|discriminate].
  destruct (files w !! _) as [top30|]; [|discriminate].
  destruct (parlay_stacks top30) as [d|e] eqn:E; [|discriminate].
  intros [= <- _]. exists top30. split; [reflexivity | exact E].
Qed.

Lemma StronglySorted_lookup {A : Type} (R : A -> A -> Prop) (l : list A) a b x y :
  StronglySorted R l -> l !! a = Some x -> l !! b = Some y -> (a < b)%nat -> R x y.
Proof.
  intros H; revert a b; induction H as [|z l Hs IH Hz]; intros a b Ha Hb Hlt.
  - discriminate.
  - destruct b as [|b]; [lia|]. simpl in Hb.
    destruct a as [|a]; simpl in Ha.
    + injection Ha as ->. rewrite List.Forall_forall in Hz. apply Hz.
      apply list_elem_of_In. eapply list_elem_of_lookup_2. exact Hb.
    + apply (IH a b); [assumption | assumption | lia].
Qed.

Lemma distinct_teams_cross df a b ra rb :
  pairwise_ne (map (cell_at "Team") (rows df)) = true ->
  rows df !! a = Some ra -> rows df !! b = Some rb -> (a < b)%nat ->
  py_eq (cell_at "Team" ra) (cell_at "Team" rb) = false.
Proof.
  intros Hd Ha Hb Hlt. apply pairwise_ne_sorted in Hd.
  apply (StronglySorted_lookup _ _ a b _ _ Hd); [| |exact Hlt].
  - rewrite lookup_map, Ha. reflexivity.
  - rewrite lookup_map, Hb. reflexivity.
Qed.

(** C4. No row of the table the Parlay Builder returns (and writes) pairs
    two players of one team, whatever the world, the day and the
    prediction table it reads; and when the table has at least 20 rows
    whose first 20 teams are pairwise different, 190 pairs are enumerated,
    the same-team test lets every one of them through, and the loop
    appends 190 entries. *)
Theorem parlay_pairs_cross_team (top30 : DataFrame) :
  (forall today w out w' r,
     build_parlay_stacks today w = (Ok (Some out), w') -> In r (rows out) ->
     py_eq (cell_at "Team1" r) (cell_at "Team2" r) = false /\
     forall s, cell_at "Team1" r = Str s -> cell_at "Team2" r <> Str s) /\
  (forall out r, parlay_stacks top30 = Ok out -> In r (rows out) ->
     py_eq (cell_at "Team1" r) (cell_at "Team2" r) = false /\
     forall s, cell_at "Team1" r = Str s -> cell_at "Team2" r <> Str s) /\
  ((20 <= len top30)%nat ->
   has_column top30 "Team" = true ->
   pairwise_ne (map (cell_at "Team") (rows (head 20 top30))) = true ->
   length (player_combos (head 20 top30)) = 190%nat /\
   (forall c, In c (player_combos (head 20 top30)) ->
      exists p1 p2,
        iloc (head 20 top30) (fst c) = Ok p1 /\
        iloc (head 20 top30) (snd c) = Ok p2 /\
        same_team p1 p2 = Ok false) /\
   (forall stacks,
      collect_stacks (head 20 top30) (player_combos (head 20 top30)) = Ok stacks ->
      length stacks = 190%nat)).
Proof.
  assert (Hemit : forall table out r, parlay_stacks table = Ok out -> In r (rows out) ->
            py_eq (cell_at "Team1" r) (cell_at "Team2" r) = false /\
            forall s, cell_at "Team1" r = Str s -> cell_at "Team2" r <> Str s).
  { intros table out r Hout Hr.
    apply parlay_stacks_Ok in Hout as (stacks & Hst & _ & Hsub).
    destruct (collect_stacks_In _ _ _ _ Hst (Hsub r Hr)) as (c & _ & Hc).
    apply stack_of_Some in Hc as (p1 & p2 & score & _ & _ & Hteam & _ & Hentry).
    apply stack_entry_Ok in Hentry as (t1 & t2 & H1 & H2 & <- & <- & _).
    unfold same_team in Hteam. rewrite H1, H2 in Hteam. simpl in Hteam.
    injection Hteam as Hteam. split; [exact Hteam|].
    intros s Hs Hs'. rewrite Hs, Hs' in Hteam. simpl in Hteam.
    rewrite String.eqb_refl in Hteam. discriminate. }
  split; [|split].
  - intros today w out w' r Hrun Hr.
    apply build_parlay_stacks_Some in Hrun as (table & _ & Hout).
    exact (Hemit table out r Hout Hr).
  - apply Hemit.
  - intros Hlen Hcol Hd.
    set (top20 := head 20 top30) in *.
    assert (Hlen20 : len top20 = 20%nat).
    { unfold len, top20. simpl. rewrite length_firstn. unfold len in Hlen. lia. }
    assert (Hcombos : length (player_combos top20) = 190%nat).
    { unfold player_combos. rewrite Hlen20.
      pose proof (length_combinations2 (seq 0 20)) as Hc.
      rewrite length_seq in Hc. lia. }
    assert (Hpass : forall c, In c (player_combos top20) ->
              exists p1 p2, iloc top20 (fst c) = Ok p1 /\ iloc top20 (snd c) = Ok p2 /\
                            same_team p1 p2 = Ok false).
    { intros [a b] Hc. unfold player_combos in Hc.
      apply in_combinations2_seq in Hc. simpl fst. simpl snd.
      destruct (iloc_in_range top20 a) as (ra & Hra & Ha); [lia|].
      destruct (iloc_in_range top20 b) as (rb & Hrb & Hb); [lia|].
      exists (reindex (columns top20) ra), (reindex (columns top20) rb).
      split; [exact Ha|]. split; [exact Hb|].
      rewrite same_team_reindex. unfold has_column in Hcol. simpl. rewrite Hcol.
      f_equal. apply (distinct_teams_cross top20 a b); [exact Hd | | | lia]; assumption. }
    split; [exact Hcombos|]. split; [exact Hpass|].
    intros stacks Hst. rewrite <- Hcombos.
    apply (collect_stacks_kept _ _ _ Hst).
    intros c Hc Hnone.
    destruct (Hpass c Hc) as (p1 & p2 & H1 & H2 & Hfalse).
    apply stack_of_None in Hnone as (q1 & q2 & G1 & G2 & Htrue).
    rewrite H1 in G1. rewrite H2 in G2.
    injection G1 as <-. injection G2 as <-. congruence.
Qed.

Lemma parlay_pairs_cross_team_witness :
  (exists out, parlay_stacks sample_top30 = Ok out /\
     forall r, In r (rows out) ->
       py_eq (cell_at "Team1" r) (cell_at "Team2" r) = false /\
       forall s, cell_at "Team1" r = Str s -> cell_at "Team2" r <> Str s) /\
  (20 <= len sample_top30)%nat /\
  has_column sample_top30 "Team" = true /\
  pairwise_ne (map (cell_at "Team") (rows (head 20 sample_top30))) = true /\
  length (player_combos (head 20 sample_top30)) = 190%nat /\
  (forall c, In c (player_combos (head 20 sample_top30)) ->
     exists p1 p2,
       iloc (head 20 sample_top30) (fst c) = Ok p1 /\
       iloc (head 20 sample_top30) (snd c) = Ok p2 /\
       same_team p1 p2 = Ok false) /\
  (forall stacks,
     collect_stacks (head 20 sample_top30) (player_combos (head 20 sample_top30))
     = Ok stacks ->
     length stacks = 190%nat).
Proof.
  destruct (parlay_pairs_cross_team sample_top30) as (_ & Hout & Hpairs).
  split.
  - destruct (parlay_stacks sample_top30) as [out|e] eqn:E.
    + exists out. split; [reflexivity|]. intros r Hr. exact (Hout out r eq_refl Hr).
    + vm_compute in E. discriminate E.
  - split; [vm_compute; lia|].
    split; [vm_compute; reflexivity|].
    split; [vm_compute; reflexivity|].
    apply Hpairs; [vm_compute; lia | vm_compute; reflexivity | vm_compute; reflexivity].
Defined.

(** C5. The bonus table maps A+ to 0.15, A to 0.10, A- to 0.05 and B+ to
    0.0; an entry appended for a cross-team pair holds, for numeric
    scores [h1] and [h2] and tiers [t1] and [t2] of bonus [v1] and [v2],
    the Combined_Score h1 * h2 * (1 + v1 + v2), which for the tiers A+ and
    B+ is the number h1 * h2 * 1.15; on doubles too the factor 1 + 0.15 +
    0.0 is the double 1.15, so that the float computed is that of
    HR_Score_1 * HR_Score_2 * 1.15. *)
Theorem combined_score_formula (top20 : DataFrame) (combo : nat * nat) (s : Series) :
  stack_of top20 combo = Ok (Some s) ->
  (confidence_value !! "A+" = Some 0.15 /\ confidence_value !! "A" = Some 0.10 /\
   confidence_value !! "A-" = Some 0.05 /\ confidence_value !! "B+" = Some 0.0) /\
  (exists p1 p2 t1 t2 v1 v2 c,
    iloc top20 (fst combo) = Ok p1 /\ iloc top20 (snd combo) = Ok p2 /\
    same_team p1 p2 = Ok false /\
    getitem p1 "Confidence" = Ok (Str t1) /\ confidence_value !! t1 = Some v1 /\
    getitem p2 "Confidence" = Ok (Str t2) /\ confidence_value !! t2 = Some v2 /\
    getitem s "Combined_Score" = Ok c /\
    forall h1 h2,
      getitem p1 "HR_Score" = Ok (Num h1) -> getitem p2 "HR_Score" = Ok (Num h2) ->
      c = Num (h1 * h2 * (1 + v1 + v2)) /\
      (t1 = "A+" -> t2 = "B+" -> exists q, c = Num q /\ q == h1 * h2 * 1.15)) /\
  (forall x y : spec_float,
      combined_score_binary64 x y "A+" "B+"
      = Some (SFmul 53 1024 (SFmul 53 1024 x y) (binary64_literal 1.15))).
Proof.
  intros H. split; [repeat split; reflexivity|].
  split; [|intros x y; unfold combined_score_binary64;
           change (confidence_value !! "A+") with (Some 0.15);
           change (confidence_value !! "B+") with (Some 0.0);
           cbv beta iota zeta; do 2 f_equal; vm_compute; reflexivity].
  apply stack_of_Some in H as (p1 & p2 & score & Hp1 & Hp2 & Hteam & Hscore & Hentry).
  apply combined_score_Ok in Hscore
    as (c1 & c2 & base & t1 & t2 & v1 & v2 & Hc1 & Hc2 & Hbase & Ht1 & Hv1 & Ht2 & Hv2 & Hmul).
  apply stack_entry_Ok in Hentry as (_ & _ & _ & _ & _ & _ & Hcombined).
  exists p1, p2, t1, t2, v1, v2, score.
  repeat (split; [assumption|]).
  intros h1 h2 Hh1 Hh2.
  rewrite Hh1 in Hc1. injection Hc1 as <-.
  rewrite Hh2 in Hc2. injection Hc2 as <-.
  simpl in Hbase. injection Hbase as <-.
  simpl in Hmul. injection Hmul as <-.
  split; [reflexivity|].
  intros -> ->. eexists. split; [reflexivity|].
  vm_compute in Hv1. injection Hv1 as <-.
  vm_compute in Hv2. injection Hv2 as <-.
  ring.
Qed.

Lemma combined_score_formula_witness :
  exists s,
    stack_of (head 20 sample_top30) (0%nat, 12%nat) = Ok (Some s) /\
    (confidence_value !! "A+" = Some 0.15 /\ confidence_value !! "A" = Some 0.10 /\
     confidence_value !! "A-" = Some 0.05 /\ confidence_value !! "B+" = Some 0.0) /\
    (exists p1 p2 t1 t2 v1 v2 c,
      iloc (head 20 sample_top30) 0 = Ok p1 /\ iloc (head 20 sample_top30) 12 = Ok p2 /\
      same_team p1 p2 = Ok false /\
      getitem p1 "Confidence" = Ok (Str t1) /\ confidence_value !! t1 = Some v1 /\
      getitem p2 "Confidence" = Ok (Str t2) /\ confidence_value !! t2 = Some v2 /\
      getitem s "Combined_Score" = Ok c /\
      forall h1 h2,
        getitem p1 "HR_Score" = Ok (Num h1) -> getitem p2 "HR_Score" = Ok (Num h2) ->
        c = Num (h1 * h2 * (1 + v1 + v2)) /\
        (t1 = "A+" -> t2 = "B+" -> exists q, c = Num q /\ q == h1 * h2 * 1.15)) /\
    (forall x y : spec_float,
        combined_score_binary64 x y "A+" "B+"
        = Some (SFmul 53 1024 (SFmul 53 1024 x y) (binary64_literal 1.15))).
Proof.
  destruct (stack_of (head 20 sample_top30) (0%nat, 12%nat)) as [[s|]|e] eqn:E.
  - exists s. split; [reflexivity|].
    exact (combined_score_formula (head 20 sample_top30) (0%nat, 12%nat) s E).
  - vm_compute in E. discriminate E.
  - vm_compute in E. discriminate E.
Defined.

(** *** What the builder raises *)

Ltac raise_inv H :=
  let a := fresh "v" in
  let Ha := fresh "E" in
  apply bind_Raise in H; destruct H as [H|(a & Ha & H)].

Lemma getitem_Raise s k e : getitem s k = Raise e -> exn_name e = "KeyError".
Proof. unfold getitem. destruct (assoc k s); [discriminate|]. intros [= <-]. reflexivity. Qed.

Lemma dict_get_Raise d k e : dict_get d k = Raise e -> exn_name e = "KeyError".
Proof.
  unfold dict_get. destruct k as [| |t|]; try (intros [= <-]; reflexivity).
  destruct (d !! t); [discriminate|]. intros [= <-]. reflexivity.
Qed.

Lemma float_mul_Raise a b e :
  float_mul a b = Raise e -> is_text a = true \/ is_text b = true.
Proof. destruct a, b; simpl; intros H; try discriminate; auto. Qed.

Lemma float_mul_Ok a b c : float_mul a b = Ok c -> is_text c = false.
Proof.
  destruct a as [x| |s|[|]], b as [y| |t|[|]]; simpl; intros H; try discriminate;
    injection H as <-; reflexivity.
Qed.

Lemma getitem_reindex_Ok cols r k c :
  getitem (reindex cols r) k = Ok c -> c = cell_at k r.
Proof.
  rewrite getitem_reindex. destruct (bool_decide (k ∈ cols)); [|discriminate].
  intros [= <-]. reflexivity.
Qed.

Lemma combined_score_Raise cols r1 r2 e :
  is_text (cell_at "HR_Score" r1) = false ->
  is_text (cell_at "HR_Score" r2) = false ->
  combined_score (reindex cols r1) (reindex cols r2) = Raise e ->
  exn_name e = "KeyError".
Proof.
  intros N1 N2 H. unfold combined_score in H.
  raise_inv H; [eapply getitem_Raise; exact H|].
  raise_inv H; [eapply getitem_Raise; exact H|].
  apply getitem_reindex_Ok in E, E0. subst v v0.
  raise_inv H; [apply float_mul_Raise in H as [H|H]; congruence|].
  raise_inv H; [eapply getitem_Raise; exact H|].
  raise_inv H; [eapply dict_get_Raise; exact H|].
  raise_inv H; [eapply getitem_Raise; exact H|].
  raise_inv H; [eapply dict_get_Raise; exact H|].
  match goal with Hm : float_mul _ _ = Ok _ |- _ => apply float_mul_Ok in Hm end.
  apply float_mul_Raise in H as [H|H]; [congruence | discriminate].
Qed.

Lemma stack_entry_Raise p1 p2 score e :
  stack_entry p1 p2 score = Raise e -> exn_name e = "KeyError".
Proof.
  unfold stack_entry. intros H.
  do 6 (raise_inv H; [eapply getitem_Raise; exact H|]).
  discriminate.
Qed.

Lemma stack_of_Raise top20 a b e :
  (a < len top20)%nat -> (b < len top20)%nat ->
  Forall (fun r => is_text (cell_at "HR_Score" r) = false) (rows top20) ->
  stack_of top20 (a, b) = Raise e ->
  exn_name e = "KeyError".
Proof.
  intros Ha Hb Hnum H.
  destruct (iloc_in_range top20 a Ha) as (ra & Hra & Ia).
  destruct (iloc_in_range top20 b Hb) as (rb & Hrb & Ib).
  rewrite List.Forall_forall in Hnum.
  assert (Na := Hnum ra (proj1 (list_elem_of_In _ _) (list_elem_of_lookup_2 _ _ _ Hra))).
  assert (Nb := Hnum rb (proj1 (list_elem_of_In _ _) (list_elem_of_lookup_2 _ _ _ Hrb))).
  unfold stack_of in H. simpl fst in H. simpl snd in H.
  rewrite Ia, Ib in H. simpl in H.
  raise_inv H.
  - rewrite same_team_reindex in H.
    destruct (bool_decide _); [discriminate|].
    injection H as Heq. subst e. reflexivity.
  - destruct v; [discriminate|].
    raise_inv H; [exact (combined_score_Raise _ ra rb e Na Nb H)|].
    raise_inv H; [eapply stack_entry_Raise; exact H | discriminate].
Qed.

(** With a player of an unknown tier among the rows, the loop either
    raises or skips every pair. *)
Lemma unknown_tier_skips_all top20 x rx stacks :
  rows top20 !! x = Some rx ->
  valid_tier (reindex (columns top20) rx) = false ->
  (2 <= len top20)%nat ->
  collect_stacks top20 (player_combos top20) = Ok stacks ->
  stacks = [].
Proof.
  intros Hx Hbad Hlen Hst.
  assert (Hxlt : (x < len top20)%nat) by (eapply lookup_lt_Some; exact Hx).
  (* a pair that holds [x] is skipped *)
  assert (Hskip : forall a b, In (a, b) (player_combos top20) -> a = x \/ b = x ->
            stack_of top20 (a, b) = Ok None).
  { intros a b Hc Hab.
    destruct (collect_stacks_each _ _ _ _ Hst Hc) as [[s|] Ho]; [exfalso|exact Ho].
    apply stack_of_Some in Ho as (p1 & p2 & score & H1 & H2 & _ & Hscore & _).
    apply combined_score_valid in Hscore as [V1 V2].
    simpl in H1, H2. apply iloc_Ok in H1 as (r1 & L1 & ->).
    apply iloc_Ok in H2 as (r2 & L2 & ->).
    destruct Hab as [->| ->]; congruence. }
  (* so every other row has the team of [x] *)
  assert (Hteam : "Team" ∈ columns top20 /\
            forall k rk, rows top20 !! k = Some rk -> k <> x ->
              py_eq (cell_at "Team" rk) (cell_at "Team" rx) = true).
  { assert (Hpair : forall a b ra rb,
              rows top20 !! a = Some ra -> rows top20 !! b = Some rb -> (a < b)%nat ->
              a = x \/ b = x ->
              "Team" ∈ columns top20 /\
              py_eq (cell_at "Team" ra) (cell_at "Team" rb) = true).
    { intros a b ra rb La Lb Hlt Hab.
      assert (Hc : In (a, b) (player_combos top20)).
      { apply in_combinations2_seq. apply lookup_lt_Some in Lb. unfold len. lia. }
      specialize (Hskip a b Hc Hab). apply stack_of_None in Hskip as (p1 & p2 & H1 & H2 & Hs).
      simpl in H1, H2. apply iloc_Ok in H1 as (r1 & L1 & ->).
      apply iloc_Ok in H2 as (r2 & L2 & ->).
      rewrite La in L1. rewrite Lb in L2. injection L1 as <-. injection L2 as <-.
      rewrite same_team_reindex in Hs.
      destruct (decide ("Team" ∈ columns top20)) as [D|D].
      - rewrite bool_decide_eq_true_2 in Hs by exact D. injection Hs as Hs. auto.
      - rewrite bool_decide_eq_false_2 in Hs by exact D. discriminate. }
    split.
    - destruct (Nat.eq_dec x 0%nat) as [->|Hx0].
      + destruct (lookup_lt_is_Some_2 (rows top20) 1%nat) as [r1 L1];
          [unfold len in Hlen; lia|].
        apply (Hpair 0%nat 1%nat rx r1 Hx L1); [lia | auto].
      + destruct (lookup_lt_is_Some_2 (rows top20) 0%nat) as [r0 L0];
          [unfold len in Hlen; lia|].
        apply (Hpair 0%nat x r0 rx L0 Hx); [lia | auto].
    - intros k rk Lk Hk.
      destruct (Nat.lt_total k x) as [Hlt|[Heq|Hgt]]; [|contradiction|].
      + apply (Hpair k x rk rx Lk Hx Hlt). auto.
      + apply py_eq_sym. apply (Hpair x k rx rk Hx Lk Hgt). auto. }
  destruct Hteam as [Hcol Hteam].
  (* hence every pair is skipped *)
  assert (Hall : forall c, In c (player_combos top20) -> stack_of top20 c = Ok None).
  { intros [a b] Hc.
    destruct (Nat.eq_dec a x) as [Ha|Ha]; [apply Hskip; auto|].
    destruct (Nat.eq_dec b x) as [Hb|Hb]; [apply Hskip; auto|].
    apply in_combinations2_seq in Hc.
    destruct (iloc_in_range top20 a) as (ra & La & Ia); [lia|].
    destruct (iloc_in_range top20 b) as (rb & Lb & Ib); [lia|].
    unfold stack_of. simpl fst. simpl snd. rewrite Ia, Ib. simpl.
    rewrite same_team_reindex, bool_decide_eq_true_2 by exact Hcol. simpl.
    rewrite (py_eq_trans _ (cell_at "Team" rx) _ (Hteam a ra La Ha)
               (py_eq_sym _ _ (Hteam b rb Lb Hb))).
    reflexivity. }
  rewrite (collect_stacks_skipped _ _ Hall) in Hst. injection Hst as <-. reflexivity.
Qed.

(** C8, as the code has it. When a player of a candidate pair (one of the
    pairs enumerated from the first 20 rows) has a tier outside the bonus
    table, the Parlay Builder raises and returns no table; with HR_Score
    cells that are not text the exception is a KeyError, that of the
    failed lookup or of the sort of an empty result. *)
Theorem unknown_tier_raises (top30 : DataFrame) (i j : nat) (p : Series) :
  In (i, j) (player_combos (head 20 top30)) ->
  iloc (head 20 top30) i = Ok p \/ iloc (head 20 top30) j = Ok p ->
  valid_tier p = false ->
  exists e,
    parlay_stacks top30 = Raise e /\
    (Forall (fun r => is_text (cell_at "HR_Score" r) = false) (rows (head 20 top30)) ->
     exn_name e = "KeyError").
Proof.
  intros Hc Hp Hbad.
  set (top20 := head 20 top30) in *.
  pose proof Hc as Hij. apply in_combinations2_seq in Hij.
  assert (Hx : exists x rx, rows top20 !! x = Some rx /\
                            valid_tier (reindex (columns top20) rx) = false).
  { destruct Hp as [Hp|Hp]; apply iloc_Ok in Hp as (r & Hr & ->); eauto. }
  destruct Hx as (x & rx & Hx & Hbadx).
  unfold parlay_stacks. fold top20.
  destruct (collect_stacks top20 (player_combos top20)) as [stacks|e] eqn:Hst.
  - assert (stacks = []) as ->.
    { apply (unknown_tier_skips_all top20 x rx); [assumption | assumption | lia | assumption]. }
    exists (KeyError (Str "Combined_Score")). split; reflexivity.
  - exists e. split; [reflexivity|].
    intros Hnum. apply collect_stacks_Raise in Hst as ([a b] & Hab & He).
    apply in_combinations2_seq in Hab.
    apply (stack_of_Raise top20 a b e); [lia | lia | exact Hnum | exact He].
Qed.

Lemma unknown_tier_raises_witness :
  In (0%nat, 1%nat) (player_combos (head 20 off_scale_top30)) /\
  (exists p, iloc (head 20 off_scale_top30) 0 = Ok p /\ valid_tier p = false) /\
  exists e,
    parlay_stacks off_scale_top30 = Raise e /\
    (Forall (fun r => is_text (cell_at "HR_Score" r) = false)
            (rows (head 20 off_scale_top30)) ->
     exn_name e = "KeyError").
Proof.
  split; [vm_compute; auto|].
  split; [eexists; split; [vm_compute; reflexivity | vm_compute; reflexivity]|].
  eapply (unknown_tier_raises off_scale_top30 0 1).
  - vm_compute. auto.
  - left. vm_compute. reflexivity.
  - vm_compute. reflexivity.
Defined.

(** C8, as the specification words it, fails: the exception of the pair
    of [off_scale_top30], whose first player has the tier "C", is the
    KeyError of the dict lookup; no exception of the name ConfigError is
    raised. *)
Lemma unknown_tier_not_ConfigError :
  In (0%nat, 1%nat) (player_combos (head 20 off_scale_top30)) /\
  (exists p, iloc (head 20 off_scale_top30) 0 = Ok p /\ valid_tier p = false) /\
  parlay_stacks off_scale_top30 = Raise (KeyError (Str "C")) /\
  ~ (exists e, parlay_stacks off_scale_top30 = Raise e /\ exn_name e = "ConfigError").
Proof.
  split; [vm_compute; auto|].
  split; [eexists; split; vm_compute; reflexivity|].
  split; [vm_compute; reflexivity|].
  intros (e & He & Hname).
  assert (H : parlay_stacks off_scale_top30 = Raise (KeyError (Str "C")))
    by (vm_compute; reflexivity).
  rewrite H in He. injection He as <-. simpl in Hname. discriminate.
Qed.

(** ** Joins *)

Lemma ne_suffix_x_merge c : c ++ "_x" <> "_merge".
Proof.
  destruct c as [|a0 [|a1 [|a2 [|a3 [|a4 [|a5 [|a6 c]]]]]]]; simpl; discriminate.
Qed.

Lemma ne_suffix_y_merge c : c ++ "_y" <> "_merge".
Proof.
  destruct c as [|a0 [|a1 [|a2 [|a3 [|a4 [|a5 [|a6 c]]]]]]]; simpl; discriminate.
Qed.

Lemma ne_suffix_x_Team c : c ++ "_x" <> "Team".
Proof.
  destruct c as [|a0 [|a1 [|a2 [|a3 [|a4 c]]]]]; simpl; discriminate.
Qed.

Lemma ne_suffix_y_Team c : c ++ "_y" <> "Team".
Proof.
  destruct c as [|a0 [|a1 [|a2 [|a3 [|a4 c]]]]]; simpl; discriminate.
Qed.

Lemma assoc_app k (s1 s2 : Series) :
  assoc k (s1 ++ s2)%list = match assoc k s1 with Some v => Some v | None => assoc k s2 end.
Proof.
  induction s1 as [|[k' v] s1 IH]; simpl; [reflexivity|].
  destruct (String.eqb k k'); auto.
Qed.

Lemma assoc_map_None (k : string) (f : string -> string) (g : string -> cell) cols :
  (forall c, In c cols -> f c <> k) ->
  assoc k (map (fun c => (f c, g c)) cols) = None.
Proof.
  induction cols as [|c cols IH]; intros H; simpl; [reflexivity|].
  destruct (String.eqb k (f c)) eqn:E.
  - apply String.eqb_eq in E. exfalso. apply (H c); [left; reflexivity | congruence].
  - apply IH. intros c' Hc'. apply H. right. exact Hc'.
Qed.

Lemma left_name_ne_merge lc rc key c :
  "_merge" ∉ lc -> In c lc -> left_name rc key c <> "_merge".
Proof.
  intros Hm Hc. unfold left_name.
  assert (c <> "_merge") by (intros ->; apply Hm, list_elem_of_In, Hc).
  destruct (String.eqb c key); [assumption|].
  destruct (bool_decide (c ∈ rc)); [apply ne_suffix_x_merge | assumption].
Qed.

Lemma right_name_ne_merge lc rc key c :
  "_merge" ∉ rc -> In c (right_columns rc key) -> right_name lc c <> "_merge".
Proof.
  intros Hm Hc. unfold right_name. unfold right_columns in Hc.
  apply filter_In in Hc as [Hc _].
  assert (c <> "_merge") by (intros ->; apply Hm, list_elem_of_In, Hc).
  destruct (bool_decide (c ∈ lc)); [apply ne_suffix_y_merge | assumption].
Qed.

Lemma indicator_of_merged_row lc rc key l r :
  "_merge" ∉ lc -> "_merge" ∉ rc ->
  cell_at "_merge" (merged_row lc rc key true l r)
  = Str (match r with Some _ => "both" | None => "left_only" end).
Proof.
  intros Hl Hr. unfold cell_at, merged_row. rewrite !assoc_app.
  rewrite (assoc_map_None "_merge" (left_name rc key))
    by (intros c Hc; apply (left_name_ne_merge lc); assumption).
  rewrite (assoc_map_None "_merge" (right_name lc))
    by (intros c Hc; apply (right_name_ne_merge lc rc key); assumption).
  reflexivity.
Qed.

Lemma left_only_merged_row lc rc key l r :
  "_merge" ∉ lc -> "_merge" ∉ rc ->
  left_only (merged_row lc rc key true l r)
  = match r with Some _ => false | None => true end.
Proof.
  intros Hl Hr. unfold left_only. rewrite indicator_of_merged_row by assumption.
  destruct r; reflexivity.
Qed.

Lemma merge_Ok left right key h indicator d :
  merge left right key h indicator = Ok d ->
  (indicator = true -> ("_merge" ∉ columns left) /\ ("_merge" ∉ columns right)) /\
  columns d = merged_columns (columns left) (columns right) key indicator /\
  rows d = flat_map
    (fun l =>
       match partners key l right, h with
       | [], Left => [merged_row (columns left) (columns right) key indicator l None]
       | ps, _ => map (fun r => merged_row (columns left) (columns right) key indicator
                                           l (Some r)) ps
       end)
    (rows left).
Proof.
  unfold merge. destruct (negb _); [discriminate|].
  destruct (indicator && _) eqn:E; [discriminate|].
  intros [= <-]. split; [|split; reflexivity].
  intros ->. simpl in E. apply orb_false_iff in E as [E1 E2].
  unfold has_column in E1, E2.
  apply bool_decide_eq_false in E1, E2. split; assumption.
Qed.

Lemma key_eq_comm a b : key_eq a b = key_eq b a.
Proof.
  destruct (key_eq a b) eqn:E1, (key_eq b a) eqn:E2; try reflexivity.
  - apply key_eq_sym in E1. congruence.
  - apply key_eq_sym in E2. congruence.
Qed.

Lemma unique_partners key right l :
  is_unique (map (cell_at key) (rows right)) = true ->
  (length (partners key l right) <= 1)%nat.
Proof.
  unfold partners. generalize (cell_at key l) as c. generalize (rows right) as rs.
  induction rs as [|r rs IH]; intros c H; simpl in *; [lia|].
  apply andb_true_iff in H as [Hr Hrs].
  destruct (key_eq c (cell_at key r)) eqn:E; [|apply IH; exact Hrs].
  simpl. assert (Hnone : List.filter (fun r' => key_eq c (cell_at key r')) rs = []).
  { clear IH Hrs. induction rs as [|r' rs IH]; [reflexivity|]. simpl in *.
    apply andb_true_iff in Hr as [Hr' Hr]. apply negb_true_iff in Hr'.
    destruct (key_eq c (cell_at key r')) eqn:E'; [|apply IH; exact Hr].
    rewrite (key_eq_trans _ c _ (key_eq_sym _ _ E) E') in Hr'. discriminate. }
  rewrite Hnone. simpl. lia.
Qed.

Lemma length_flat_map_map {A B C : Type} (m : A -> list B) (g : A -> B -> C) (L : list A) :
  length (flat_map (fun l => map (g l) (m l)) L) = length (flat_map m L).
Proof.
  induction L as [|l L IH]; simpl; [reflexivity|].
  rewrite !length_app, length_map, IH. reflexivity.
Qed.

(** A left join with at most one partner per row: the paired rows and the
    rows left alone add up to the left table. *)
Lemma join_counts {A B : Type} (m : A -> list B) (alone : A -> Series)
    (paired : A -> B -> Series) (L : list A) :
  (forall l, (length (m l) <= 1)%nat) ->
  (forall l, left_only (alone l) = true) ->
  (forall l r, left_only (paired l r) = false) ->
  (length (flat_map m L)
   + length (List.filter left_only
       (flat_map (fun l => match m l with
                           | [] => [alone l]
                           | ps => map (paired l) ps
                           end) L))
   = length L)%nat.
Proof.
  intros Hone Halone Hpaired. induction L as [|l L IH]; simpl; [reflexivity|].
  rewrite List.filter_app, !length_app.
  specialize (Hone l). destruct (m l) as [|r [|r' ps]]; simpl in *; [| |lia].
  - rewrite Halone. simpl. lia.
  - rewrite Hpaired. simpl. lia.
Qed.

(** Matching pairs counted from the left and from the right. *)
Lemma pair_count_swap {A B : Type} (p : A -> B -> bool) (L : list A) (R : list B) :
  length (flat_map (fun l => List.filter (p l) R) L)
  = length (flat_map (fun r => List.filter (fun l => p l r) L) R).
Proof.
  induction L as [|l L IH]; simpl.
  - induction R as [|r R IHR]; simpl; auto.
  - rewrite length_app, IH. clear IH.
    induction R as [|r R IHR]; simpl; [reflexivity|].
    rewrite !length_app, <- IHR.
    destruct (p l r); simpl; lia.
Qed.

(** ** The Outcome Tracker *)

Lemma hits_of_len predictions actual hits :
  hits_of predictions actual = Ok hits ->
  len hits = length (flat_map (fun l => partners "Player" l actual) (rows predictions)).
Proof.
  unfold hits_of. intros H. apply merge_Ok in H as (_ & _ & Hrows).
  unfold len. rewrite Hrows.
  rewrite <- (length_flat_map_map (fun l => partners "Player" l actual)
                (fun l r => merged_row (columns predictions) (columns actual)
                                       "Player" false l (Some r))).
  f_equal. apply flat_map_ext. intros l.
  destruct (partners "Player" l actual); reflexivity.
Qed.

Lemma left_only_len left right d :
  merge left right "Player" Left true = Ok d ->
  is_unique (map (cell_at "Player") (rows right)) = true ->
  (length (flat_map (fun l => partners "Player" l right) (rows left))
   + len (select_rows left_only d) = len left)%nat.
Proof.
  intros H Hu. apply merge_Ok in H as (Hm & _ & Hrows).
  destruct (Hm eq_refl) as [Hl Hr].
  unfold len, select_rows. simpl. rewrite Hrows.
  apply (join_counts (fun l => partners "Player" l right)
           (fun l => merged_row (columns left) (columns right) "Player" true l None)
           (fun l r => merged_row (columns left) (columns right) "Player" true l (Some r))).
  - intros l. apply unique_partners. exact Hu.
  - intros l. rewrite left_only_merged_row by assumption. reflexivity.
  - intros l r. rewrite left_only_merged_row by assumption. reflexivity.
Qed.

Lemma predicted_split predictions actual hits misses :
  hits_of predictions actual = Ok hits ->
  misses_of predictions actual = Ok misses ->
  is_unique (map (cell_at "Player") (rows actual)) = true ->
  (len hits + len misses = len predictions)%nat.
Proof.
  intros Hh Hm Hu. rewrite (hits_of_len _ _ _ Hh).
  unfold misses_of in Hm. bind_inv Hm. injection Hm as <-.
  apply left_only_len; assumption.
Qed.

Lemma actual_split predictions actual hits surprises :
  hits_of predictions actual = Ok hits ->
  surprises_of predictions actual = Ok surprises ->
  is_unique (map (cell_at "Player") (rows predictions)) = true ->
  (len hits + len surprises = len actual)%nat.
Proof.
  intros Hh Hs Hu. rewrite (hits_of_len _ _ _ Hh).
  unfold surprises_of in Hs. bind_inv Hs. injection Hs as <-.
  rewrite <- (left_only_len actual predictions v E Hu). f_equal.
  unfold partners.
  rewrite (pair_count_swap
             (fun l r => key_eq (cell_at "Player" l) (cell_at "Player" r))).
  f_equal. apply flat_map_ext. intros o.
  apply List.filter_ext. intros l. apply key_eq_comm.
Qed.

Lemma hit_record_Result yesterday hit r :
  hit_record yesterday hit = Ok r -> cell_at "Result" r = Str "Hit".
Proof.
  unfold hit_record. intros H. do 7 bind_inv H. injection H as <-. reflexivity.
Qed.

Lemma miss_record_Ok yesterday miss r :
  miss_record yesterday miss = Ok r ->
  cell_at "Result" r = Str "Miss" /\
  (series_in "Team" miss = false -> cell_at "Team" r = Str "Unknown").
Proof.
  unfold miss_record. intros H. do 4 bind_inv H. injection H as <-.
  split; [reflexivity|]. intros Hin. rewrite Hin in E0.
  injection E0 as <-. reflexivity.
Qed.

Lemma surprise_record_Result yesterday surprise r :
  surprise_record yesterday surprise = Ok r -> cell_at "Result" r = Str "Surprise".
Proof.
  unfold surprise_record. intros H. do 4 bind_inv H. injection H as <-. reflexivity.
Qed.

Lemma mapM_Ok_In {A B : Type} (f : A -> result B) (l : list A) (k : list B) (y : B) :
  mapM f l = Ok k -> In y k -> exists x, In x l /\ f x = Ok y.
Proof.
  intros H. apply mapM_Ok_Forall2 in H. induction H as [|x y' l k Hxy _ IH].
  - intros [].
  - intros [<-|Hy]; [exists x; split; [left; reflexivity | exact Hxy]|].
    destruct (IH Hy) as (x' & Hx' & Hf). exists x'. split; [right|]; assumption.
Qed.

Lemma count_label_app c label (l1 l2 : list Series) :
  count_label c label (l1 ++ l2)%list
  = (count_label c label l1 + count_label c label l2)%nat.
Proof. unfold count_label. rewrite List.filter_app, length_app. reflexivity. Qed.

Lemma count_label_all c label (l : list Series) :
  (forall r, In r l -> cell_at c r = Str label) -> count_label c label l = length l.
Proof.
  unfold count_label. induction l as [|r l IH]; intros H; simpl; [reflexivity|].
  rewrite (H r) by (left; reflexivity). simpl. rewrite String.eqb_refl. simpl.
  f_equal. apply IH. intros r' Hr'. apply H. right. exact Hr'.
Qed.

Lemma count_label_none c label other (l : list Series) :
  (forall r, In r l -> cell_at c r = Str other) -> other <> label ->
  count_label c label l = 0%nat.
Proof.
  unfold count_label. intros H Hne. induction l as [|r l IH]; simpl; [reflexivity|].
  rewrite (H r) by (left; reflexivity). simpl.
  apply String.eqb_neq in Hne. rewrite Hne.
  apply IH. intros r' Hr'. apply H. right. exact Hr'.
Qed.

Lemma reconciliation_Ok yesterday predictions actual rec :
  reconciliation yesterday predictions actual = Ok rec ->
  exists hit_records miss_records surprise_records,
    hits_of predictions actual = Ok (hits rec) /\
    misses_of predictions actual = Ok (misses rec) /\
    surprises_of predictions actual = Ok (surprises rec) /\
    mapM (hit_record yesterday) (iterrows (hits rec)) = Ok hit_records /\
    mapM (miss_record yesterday) (iterrows (misses rec)) = Ok miss_records /\
    mapM (surprise_record yesterday) (iterrows (surprises rec)) = Ok surprise_records /\
    tracking_results rec = (hit_records ++ miss_records ++ surprise_records)%list.
Proof.
  unfold reconciliation. intros H. do 6 bind_inv H. injection H as <-. simpl.
  eauto 10.
Qed.

Lemma length_iterrows df : length (iterrows df) = len df.
Proof. unfold iterrows, len. apply length_map. Qed.

Lemma reconciliation_counts yesterday predictions actual rec :
  reconciliation yesterday predictions actual = Ok rec ->
  count_label "Result" "Hit" (tracking_results rec) = len (hits rec) /\
  count_label "Result" "Miss" (tracking_results rec) = len (misses rec) /\
  count_label "Result" "Surprise" (tracking_results rec) = len (surprises rec).
Proof.
  intros H.
  apply reconciliation_Ok in H as (hr & mr & sr & _ & _ & _ & Hh & Hm & Hs & ->).
  assert (Rh : forall r, In r hr -> cell_at "Result" r = Str "Hit").
  { intros r Hr. destruct (mapM_Ok_In _ _ _ _ Hh Hr) as (x & _ & Hx).
    eapply hit_record_Result. exact Hx. }
  assert (Rm : forall r, In r mr -> cell_at "Result" r = Str "Miss").
  { intros r Hr. destruct (mapM_Ok_In _ _ _ _ Hm Hr) as (x & _ & Hx).
    eapply miss_record_Ok. exact Hx. }
  assert (Rs : forall r, In r sr -> cell_at "Result" r = Str "Surprise").
  { intros r Hr. destruct (mapM_Ok_In _ _ _ _ Hs Hr) as (x & _ & Hx).
    eapply surprise_record_Result. exact Hx. }
  apply mapM_Ok_length in Hh, Hm, Hs. rewrite length_iterrows in Hh, Hm, Hs.
  rewrite !count_label_app.
  rewrite (count_label_all _ _ hr Rh), (count_label_all _ _ mr Rm),
    (count_label_all _ _ sr Rs).
  rewrite (count_label_none _ "Hit" _ mr Rm), (count_label_none _ "Hit" _ sr Rs)
    by discriminate.
  rewrite (count_label_none _ "Miss" _ hr Rh), (count_label_none _ "Miss" _ sr Rs)
    by discriminate.
  rewrite (count_label_none _ "Surprise" _ hr Rh), (count_label_none _ "Surprise" _ mr Rm)
    by discriminate.
  repeat split; lia.
Qed.

Lemma io_bind_Ok {A B : Type} (m : IO A) (f : A -> IO B) (w w' : World) (b : B) :
  (m ≫= f) w = (Ok b, w') ->
  exists a w1, m w = (Ok a, w1) /\ f a w1 = (Ok b, w').
Proof.
  unfold mbind, IO_bind. destruct (m w) as [[a|e] w1]; [eauto | discriminate].
Qed.

Ltac io_inv H :=
  let a := fresh "a" in
  let w := fresh "w" in
  let Ha := fresh "Hrun" in
  apply io_bind_Ok in H; destruct H as (a & w & Ha & H).

Lemma reconcile_Some yesterday tracking_dir predictions actual w tracking_df w' :
  reconcile yesterday tracking_dir predictions actual w = (Ok (Some tracking_df), w') ->
  exists rec,
    reconciliation yesterday predictions actual = Ok rec /\
    tracking_df = DataFrame_of_records (tracking_results rec).
Proof.
  unfold reconcile. intros H. io_inv H.
  unfold lift in Hrun. injection Hrun as Hrec _.
  do 6 io_inv H. injection H as <- _. eauto.
Qed.

(** What the Tracker returns is the table of the records of a
    reconciliation of the predictions it read, those of the date or else
    the latest copy, with the outcomes it got, which are not empty. *)
Lemma track_home_runs_Some feed yesterday w tracking_df w' :
  track_home_runs feed yesterday w = (Ok (Some tracking_df), w') ->
  exists predictions actual rec,
    (files w !! ("data/output/apex_top30_" ++ yesterday ++ ".csv") = Some predictions \/
     files w !! "data/output/apex_top30_latest.csv" = Some predictions) /\
    (0 < len actual)%nat /\
    reconciliation yesterday predictions actual = Ok rec /\
    tracking_df = DataFrame_of_records (tracking_results rec).
Proof.
  unfold track_home_runs. intros H. do 4 io_inv H.
  match type of H with
  | match ?chosen with _ => _ end _ = _ => destruct chosen as [prediction_file|]
  end; [|discriminate].
  do 2 io_inv H.
  match type of H with
  | match ?found with _ => _ end _ = _ => destruct found as [actual|]
  end; [|io_inv H; discriminate].
  destruct (bool_decide _) eqn:Hlen; [io_inv H; discriminate|].
  apply bool_decide_eq_false in Hlen.
  apply reconcile_Some in H as (rec & Hrec & ->).
  match goal with Hr : read_csv _ _ = _ |- _ => rename Hr into Hread end.
  exists a2, actual, rec. split; [|split; [lia | split; [exact Hrec | reflexivity]]].
  unfold print in Hrun. injection Hrun as _ <-.
  unfold makedirs in Hrun0. injection Hrun0 as _ <-.
  unfold path_exists in Hrun1. injection Hrun1 as <- <-.
  assert (Hfiles : files w3 = files w /\
            (prediction_file = "data/output/apex_top30_" ++ yesterday ++ ".csv" \/
             prediction_file = "data/output/apex_top30_latest.csv")).
  { destruct (available _ _).
    - injection Hrun2 as <- <-. split; [reflexivity | left; reflexivity].
    - do 2 io_inv Hrun2.
      unfold print in Hrun. injection Hrun as _ <-.
      unfold path_exists in Hrun0. injection Hrun0 as <- <-.
      destruct (available _ _).
      + injection Hrun2 as <- <-. split; [reflexivity | right; reflexivity].
      + io_inv Hrun2. discriminate. }
  destruct Hfiles as [Hfiles Hpath].
  unfold read_csv in Hread. rewrite Hfiles in Hread.
  destruct (files w !! prediction_file) as [df|] eqn:Hdf; [|discriminate].
  injection Hread as <- _.
  destruct Hpath as [-> | ->]; [left | right]; exact Hdf.
Qed.
(** C6, as the code has it. The records of a reconciliation that went
    through satisfy |Hit| + |Miss| = |P| when no player name comes twice
    in the outcome table, and |Hit| + |Surprise| = |O| when no player name
    comes twice in the prediction table, whatever the overlap of the two
    tables. *)
Theorem tracker_partition_counts (yesterday : string) (predictions actual : DataFrame)
    (rec : Reconciliation) :
  reconciliation yesterday predictions actual = Ok rec ->
  (is_unique (map (cell_at "Player") (rows actual)) = true ->
   (count_label "Result" "Hit" (tracking_results rec)
    + count_label "Result" "Miss" (tracking_results rec) = len predictions)%nat) /\
  (is_unique (map (cell_at "Player") (rows predictions)) = true ->
   (count_label "Result" "Hit" (tracking_results rec)
    + count_label "Result" "Surprise" (tracking_results rec) = len actual)%nat).
Proof.
  intros H.
  destruct (reconciliation_counts _ _ _ _ H) as (-> & -> & ->).
  apply reconciliation_Ok in H as (_ & _ & _ & Hh & Hm & Hs & _).
  split; intros Hu.
  - exact (predicted_split _ _ _ _ Hh Hm Hu).
  - exact (actual_split _ _ _ _ Hh Hs Hu).
Qed.

Lemma tracker_partition_counts_witness :
  exists rec,
    reconciliation "2024-06-01" sample_predictions sample_outcomes = Ok rec /\
    is_unique (map (cell_at "Player") (rows sample_outcomes)) = true /\
    is_unique (map (cell_at "Player") (rows sample_predictions)) = true /\
    (count_label "Result" "Hit" (tracking_results rec)
     + count_label "Result" "Miss" (tracking_results rec) = len sample_predictions)%nat /\
    (count_label "Result" "Hit" (tracking_results rec)
     + count_label "Result" "Surprise" (tracking_results rec) = len sample_outcomes)%nat.
Proof.
  destruct (reconciliation "2024-06-01" sample_predictions sample_outcomes)
    as [rec|e] eqn:E.
  - exists rec. split; [reflexivity|].
    destruct (tracker_partition_counts _ _ _ rec E) as [H1 H2].
    split; [vm_compute; reflexivity|]. split; [vm_compute; reflexivity|].
    split; [apply H1 | apply H2]; vm_compute; reflexivity.
  - vm_compute in E. discriminate E.
Defined.

(** C6, as the specification words it, fails: one predicted player "A"
    and an outcome table in which the name "A" comes twice give two Hit
    records and no Miss record for a prediction table of one row. *)
Lemma tracker_counts_repeated_name :
  exists rec,
    reconciliation "2024-06-01" one_prediction twice_named_outcomes = Ok rec /\
    count_label "Result" "Hit" (tracking_results rec) = 2%nat /\
    count_label "Result" "Miss" (tracking_results rec) = 0%nat /\
    len one_prediction = 1%nat /\
    (count_label "Result" "Hit" (tracking_results rec)
     + count_label "Result" "Miss" (tracking_results rec) <> len one_prediction)%nat.
Proof.
  destruct (reconciliation "2024-06-01" one_prediction twice_named_outcomes)
    as [rec|e] eqn:E; vm_compute in E; [|discriminate E].
  injection E as <-. eexists. split; [reflexivity|].
  vm_compute. repeat split; try reflexivity. discriminate.
Qed.

Lemma Team_not_merged lc rc indicator :
  In "Team" lc -> In "Team" rc ->
  ~ In "Team" (merged_columns lc rc "Player" indicator).
Proof.
  intros Hl Hr. unfold merged_columns. rewrite !in_app_iff, !in_map_iff.
  intros [(c & Hc & Hin)|[(c & Hc & Hin)|Hin]].
  - unfold left_name in Hc. destruct (String.eqb c "Player") eqn:E.
    + apply String.eqb_eq in E. congruence.
    + destruct (decide (c ∈ rc)) as [D|D].
      * rewrite bool_decide_eq_true_2 in Hc by exact D.
        exact (ne_suffix_x_Team c Hc).
      * rewrite bool_decide_eq_false_2 in Hc by exact D. subst c.
        apply D, list_elem_of_In, Hr.
  - unfold right_name in Hc. destruct (decide (c ∈ lc)) as [D|D].
    + rewrite bool_decide_eq_true_2 in Hc by exact D.
      exact (ne_suffix_y_Team c Hc).
    + rewrite bool_decide_eq_false_2 in Hc by exact D. subst c.
      apply D, list_elem_of_In, Hl.
  - destruct indicator; simpl in Hin; [destruct Hin as [Hin|[]]; discriminate | destruct Hin].
Qed.

(** C10. When the prediction table and the outcome table both have a
    Team column, every Miss record of the reconciliation has the Team
    "Unknown": the joined row holds Team_x and Team_y and no Team. *)
Theorem miss_team_is_unknown (yesterday : string) (predictions actual : DataFrame)
    (rec : Reconciliation) :
  has_column predictions "Team" = true ->
  has_column actual "Team" = true ->
  reconciliation yesterday predictions actual = Ok rec ->
  forall r, In r (tracking_results rec) ->
    cell_at "Result" r = Str "Miss" -> cell_at "Team" r = Str "Unknown".
Proof.
  intros Hp Ha H r Hr Hmiss.
  apply reconciliation_Ok in H as (hr & mr & sr & _ & Hmo & _ & Hh & Hm & Hs & Hres).
  rewrite Hres in Hr. apply in_app_iff in Hr as [Hr|Hr]; [|apply in_app_iff in Hr as [Hr|Hr]].
  - destruct (mapM_Ok_In _ _ _ _ Hh Hr) as (x & _ & Hx).
    apply hit_record_Result in Hx. congruence.
  - destruct (mapM_Ok_In _ _ _ _ Hm Hr) as (x & Hx & Hrec).
    apply miss_record_Ok in Hrec as [_ Hteam]. apply Hteam.
    unfold iterrows in Hx. apply in_map_iff in Hx as (row & <- & _).
    rewrite series_in_reindex. apply bool_decide_eq_false.
    unfold misses_of in Hmo. bind_inv Hmo. injection Hmo as Hmo. rewrite <- Hmo. simpl.
    apply merge_Ok in E as (_ & -> & _).
    intros Hin. apply list_elem_of_In in Hin. revert Hin. apply Team_not_merged.
    + apply list_elem_of_In. unfold has_column in Hp. apply bool_decide_eq_true in Hp. exact Hp.
    + apply list_elem_of_In. unfold has_column in Ha. apply bool_decide_eq_true in Ha. exact Ha.
  - destruct (mapM_Ok_In _ _ _ _ Hs Hr) as (x & _ & Hx).
    apply surprise_record_Result in Hx. congruence.
Qed.

Lemma miss_team_is_unknown_witness :
  has_column sample_predictions "Team" = true /\
  has_column sample_outcomes "Team" = true /\
  exists rec,
    reconciliation "2024-06-01" sample_predictions sample_outcomes = Ok rec /\
    (exists r, In r (tracking_results rec) /\ cell_at "Player" r = Str "B" /\
               cell_at "Result" r = Str "Miss") /\
    forall r, In r (tracking_results rec) ->
      cell_at "Result" r = Str "Miss" -> cell_at "Team" r = Str "Unknown".
Proof.
  split; [vm_compute; reflexivity|]. split; [vm_compute; reflexivity|].
  destruct (reconciliation "2024-06-01" sample_predictions sample_outcomes)
    as [rec|e] eqn:E.
  - exists rec. split; [reflexivity|]. split.
    + vm_compute in E. injection E as <-. eexists. split; [right; left; reflexivity|].
      split; reflexivity.
    + apply (miss_team_is_unknown "2024-06-01" sample_predictions sample_outcomes rec);
        [vm_compute; reflexivity | vm_compute; reflexivity | exact E].
  - vm_compute in E. discriminate E.
Defined.

Lemma available_makedirs w d p out :
  p <> d ->
  available {| files := files w; dirs := {[d]} ∪ dirs w; stdout := out |} p
  = available w p.
Proof.
  intros Hne. unfold available. simpl. f_equal.
  apply bool_decide_ext. rewrite elem_of_union, elem_of_singleton.
  split; [intros [H|H]; [congruence | exact H] | intros H; right; exact H].
Qed.

(** C7, as the code has it. When neither the prediction file of the
    target date nor the latest copy is there, the Tracker returns None,
    prints the warning (and the error line) and leaves every file as it
    was. *)
Theorem tracker_without_predictions (feed : string -> nat -> string + DataFrame)
    (yesterday : string) (w : World) :
  available w ("data/output/apex_top30_" ++ yesterday ++ ".csv") = false ->
  available w "data/output/apex_top30_latest.csv" = false ->
  exists w',
    track_home_runs feed yesterday w = (Ok None, w') /\
    files w' = files w /\
    stdout w' =
      (stdout w
       ++ [Text ">> Tracking Today's Home Runs...";
           Text ("WARNING: Prediction file "
                 ++ ("data/output/apex_top30_" ++ yesterday ++ ".csv")
                 ++ " not found. Trying latest predictions...");
           Text "ERROR: No prediction file found. Cannot track home runs."])%list.
Proof.
  intros Hdated Hlatest.
  unfold track_home_runs, mbind, IO_bind, mret, IO_ret, print, makedirs, path_exists.
  cbn [fst snd files dirs stdout].
  change ("data/output" ++ "/apex_top30_" ++ yesterday ++ ".csv")
    with ("data/output/apex_top30_" ++ yesterday ++ ".csv").
  change ("data/output" ++ "/apex_top30_latest.csv")
    with "data/output/apex_top30_latest.csv".
  rewrite available_makedirs by discriminate.
  rewrite Hdated. cbn [fst snd files dirs stdout].
  rewrite available_makedirs by discriminate.
  rewrite Hlatest.
  eexists. split; [reflexivity|]. split; [reflexivity|].
  cbn [stdout]. rewrite <- !app_assoc. reflexivity.
Qed.

Lemma tracker_without_predictions_witness :
  available empty_world ("data/output/apex_top30_" ++ "2024-06-01" ++ ".csv") = false /\
  available empty_world "data/output/apex_top30_latest.csv" = false /\
  exists w',
    track_home_runs sample_feed "2024-06-01" empty_world = (Ok None, w') /\
    files w' = files empty_world /\
    stdout w' =
      (stdout empty_world
       ++ [Text ">> Tracking Today's Home Runs...";
           Text ("WARNING: Prediction file "
                 ++ ("data/output/apex_top30_" ++ "2024-06-01" ++ ".csv")
                 ++ " not found. Trying latest predictions...");
           Text "ERROR: No prediction file found. Cannot track home runs."])%list.
Proof.
  split; [vm_compute; reflexivity|]. split; [vm_compute; reflexivity|].
  apply (tracker_without_predictions sample_feed "2024-06-01" empty_world);
    vm_compute; reflexivity.
Defined.

(** C7, as the specification words it, fails: in the world [latest_only]
    the prediction file of the target date is not there, and the Tracker
    goes on with the latest copy, returns the three records of the
    scenario and writes the tracking file of the date. *)
Lemma tracker_falls_back_to_latest :
  available latest_only "data/output/apex_top30_2024-06-01.csv" = false /\
  exists tracking_df w',
    track_home_runs sample_feed "2024-06-01" latest_only = (Ok (Some tracking_df), w') /\
    len tracking_df = 3%nat /\
    files w' !! "data/output/tracking/tracking_2024-06-01.csv" = Some tracking_df.
Proof.
  split; [vm_compute; reflexivity|].
  destruct (track_home_runs sample_feed "2024-06-01" latest_only) as [[[df|]|e] w'] eqn:E;
    vm_compute in E; try discriminate E.
  injection E as <- <-. do 2 eexists. split; [reflexivity|].
  split; vm_compute; reflexivity.
Qed.

(** ** Diagnostics *)

Lemma length_filter_map {A B : Type} (p : B -> bool) (f : A -> B) (l : list A) :
  length (List.filter p (map f l)) = length (List.filter (fun x => p (f x)) l).
Proof.
  induction l as [|x l IH]; simpl; [reflexivity|].
  destruct (p (f x)); simpl; rewrite IH; reflexivity.
Qed.

Lemma count_result_Ok combined_df label :
  has_column combined_df "Result" = true ->
  count_result combined_df label = Ok (count_label "Result" label (rows combined_df)).
Proof.
  intros H. unfold count_result, column. rewrite H. simpl.
  unfold count_label. rewrite length_filter_map. reflexivity.
Qed.

Lemma count_result_Raise combined_df label e :
  count_result combined_df label = Raise e -> e = KeyError (Str "Result").
Proof.
  unfold count_result, column. destruct (has_column combined_df "Result"); simpl.
  - discriminate.
  - intros [= <-]. reflexivity.
Qed.

Lemma py_div_positive (a : Q) (n : nat) :
  (0 < n)%nat -> py_div a (of_nat n) = Ok (a / of_nat n).
Proof.
  intros H. unfold py_div.
  destruct (Qeq_bool (of_nat n) 0) eqn:E; [|reflexivity].
  apply Qeq_bool_iff in E. unfold of_nat, Qeq in E. simpl in E. lia.
Qed.

Lemma guarded_rate (a : Q) (n : nat) :
  (if bool_decide (0 < n)%nat then py_div a (of_nat n) else mret 0)
  = Ok (if Nat.eqb n 0 then 0 else a / of_nat n).
Proof.
  destruct n as [|n].
  - reflexivity.
  - rewrite bool_decide_eq_true_2 by lia. rewrite py_div_positive by lia. reflexivity.
Qed.

(** C9. On a window with a Result column the rates are computed without
    any exception: hit_rate is hit_count / (hit_count + miss_count) and
    surprise_rate is surprise_count / (hit_count + surprise_count), each 0
    when its denominator is 0; and on no window at all is a division by
    zero raised. *)
Theorem diagnostic_rates_total (combined_df : DataFrame) :
  (forall e, diagnostic_rates combined_df = Raise e -> e <> ZeroDivisionError) /\
  (has_column combined_df "Result" = true ->
   exists report,
     diagnostic_rates combined_df = Ok report /\
     Hit_Count report = count_label "Result" "Hit" (rows combined_df) /\
     Miss_Count report = count_label "Result" "Miss" (rows combined_df) /\
     Surprise_Count report = count_label "Result" "Surprise" (rows combined_df) /\
     Hit_Rate report =
       (if Nat.eqb (Hit_Count report + Miss_Count report) 0 then 0
        else of_nat (Hit_Count report) / of_nat (Hit_Count report + Miss_Count report)) /\
     Surprise_Rate report =
       (if Nat.eqb (Hit_Count report + Surprise_Count report) 0 then 0
        else of_nat (Surprise_Count report)
             / of_nat (Hit_Count report + Surprise_Count report))).
Proof.
  split.
  - intros e H. unfold diagnostic_rates in H.
    destruct (has_column combined_df "Result") eqn:Hcol.
    + rewrite !count_result_Ok in H by exact Hcol. simpl in H.
      rewrite !guarded_rate in H. simpl in H. discriminate.
    + raise_inv H; [apply count_result_Raise in H; subst e; discriminate|].
      unfold count_result, column in E. rewrite Hcol in E. discriminate.
  - intros Hcol. unfold diagnostic_rates.
    rewrite !count_result_Ok by exact Hcol. simpl.
    rewrite !guarded_rate. simpl.
    eexists. split; [reflexivity|]. simpl. repeat split; reflexivity.
Qed.

Lemma diagnostic_rates_total_witness :
  (forall e, diagnostic_rates (DataFrame_of_records
               [[("Result", Str "Surprise")]; [("Result", Str "Surprise")]]) = Raise e ->
             e <> ZeroDivisionError) /\
  has_column (DataFrame_of_records
                [[("Result", Str "Surprise")]; [("Result", Str "Surprise")]])
             "Result" = true /\
  exists report,
    diagnostic_rates (DataFrame_of_records
                        [[("Result", Str "Surprise")]; [("Result", Str "Surprise")]])
    = Ok report /\
    Hit_Count report = 0%nat /\ Miss_Count report = 0%nat /\
    Surprise_Count report = 2%nat /\
    Hit_Rate report = 0 /\ Surprise_Rate report = 2 / 2.
Proof.
  destruct (diagnostic_rates_total (DataFrame_of_records
              [[("Result", Str "Surprise")]; [("Result", Str "Surprise")]])) as [H1 H2].
  split; [exact H1|]. split; [vm_compute; reflexivity|].
  destruct H2 as (report & Hr & Hh & Hm & Hs & Hhr & Hsr); [vm_compute; reflexivity|].
  exists report. split; [exact Hr|].
  rewrite Hhr, Hsr, Hh, Hm, Hs. vm_compute. repeat split; reflexivity.
Defined.

(** ** The daily batch on the sample data

    The four stages in the order of [run_daily_simulation]: 30 predictions
    and 15 parlay stacks, then 30 misses and 2 surprises against the sample
    outcomes, and a window whose two rates raise both alerts. *)
Example daily_batch_on_samples :
  let day := "2024-06-02" in
  let w1 := snd (sample_predictor day empty_world) in
  let w2 := snd (build_parlay_stacks day w1) in
  let w3 := snd (track_home_runs sample_feed day w2) in
  (exists top30, fst (sample_predictor day empty_world) = Ok top30
                 /\ len top30 = 30%nat) /\
  (exists stacks, fst (build_parlay_stacks day w1) = Ok (Some stacks)
                  /\ len stacks = 15%nat) /\
  (exists tracking, fst (track_home_runs sample_feed day w2) = Ok (Some tracking)
                    /\ len tracking = 32%nat) /\
  (exists window report,
      fst (diagnostic_window [day] w3) = Ok (Some window) /\
      diagnostic_rates window = Ok report /\
      Hit_Count report = 0%nat /\ Miss_Count report = 30%nat /\
      Surprise_Count report = 2%nat /\
      Hit_Rate_Alert report = true /\ Surprise_Rate_Alert report = true).
Proof.
  cbv zeta. repeat split.
  - destruct (fst (sample_predictor _ _)) as [top30|e] eqn:E;
      vm_compute in E; [|discriminate E].
    injection E as <-. eexists. split; reflexivity.
  - destruct (fst (build_parlay_stacks _ _)) as [[stacks|]|e] eqn:E;
      vm_compute in E; try discriminate E.
    injection E as <-. eexists. split; reflexivity.
  - destruct (fst (track_home_runs _ _ _)) as [[tracking|]|e] eqn:E;
      vm_compute in E; try discriminate E.
    injection E as <-. eexists. split; reflexivity.
  - destruct (fst (diagnostic_window _ _)) as [[window|]|e] eqn:E;
      vm_compute in E; try discriminate E.
    injection E as <-. do 2 eexists. split; [reflexivity|].
    split; [vm_compute; reflexivity|]. repeat split.
Qed.

(** * Further properties *)

(** ** The Predictor: what it needs and what it keeps *)

Lemma column_Ok df c col :
  column df c = Ok col -> has_column df c = true /\ col = map (cell_at c) (rows df).
Proof.
  unfold column. destruct (has_column df c); [|discriminate].
  intros [= <-]. split; reflexivity.
Qed.

Lemma float_mul_Ok_args a b c :
  float_mul a b = Ok c -> is_text a = false /\ is_text b = false.
Proof. destruct a, b; simpl; intros H; try discriminate; split; reflexivity. Qed.

Lemma float_add_Ok_args a b c :
  float_add a b = Ok c -> is_text a = false /\ is_text b = false.
Proof. destruct a, b; simpl; intros H; try discriminate; split; reflexivity. Qed.

Lemma scaled_Ok k col out :
  scaled k col = Ok out ->
  length out = length col /\ Forall (fun c => is_text c = false) col.
Proof.
  unfold scaled. intros H. split; [eapply mapM_Ok_length; exact H|].
  apply mapM_Ok_Forall2 in H. induction H as [|x y l l' Hxy _ IH]; constructor; auto.
  apply float_mul_Ok_args in Hxy. tauto.
Qed.

Lemma added_Ok a b out :
  added a b = Ok out -> length a = length b ->
  length out = length a /\ Forall (fun c => is_text c = false) b.
Proof.
  unfold added. revert b out. induction a as [|x a IH]; intros [|y b] out H Hlen;
    simpl in *; try discriminate.
  - injection H as <-. split; [reflexivity | constructor].
  - bind_inv H. bind_inv H. injection H as <-.
    destruct (IH b v0 E0) as [L F]; [lia|].
    split; [simpl; lia|]. constructor; [|exact F].
    apply float_add_Ok_args in E. tauto.
Qed.

Lemma hr_score_column_Ok df hr :
  hr_score_column df = Ok hr ->
  length hr = len df /\
  forall c, In c metric_columns ->
    has_column df c = true /\ Forall (fun r => is_text (cell_at c r) = false) (rows df).
Proof.
  unfold hr_score_column. intros H.
  do 16 bind_inv H.
  repeat match goal with
         | Hc : column _ _ = Ok _ |- _ => apply column_Ok in Hc as [? ->]
         end.
  repeat match goal with
         | Hs : scaled _ _ = Ok _ |- _ => apply scaled_Ok in Hs as [? ?]
         end.
  rewrite !length_map in *.
  repeat match goal with
         | Ha : added _ _ = Ok _ |- _ =>
             apply added_Ok in Ha as [? ?]; [|rewrite ?length_map; unfold len in *; congruence]
         end.
  rewrite ?length_map in *.
  split; [unfold len; congruence|].
  intros c Hc. simpl in Hc.
  repeat (destruct Hc as [<-|Hc];
          [split; [assumption|];
           match goal with
           | F : Forall _ (map (cell_at ?col) _) |- Forall _ _ =>
               apply Forall_map in F; exact F
           end|]).
  destruct Hc.
Qed.

Lemma top30_predictions_Ok player_df top30 :
  top30_predictions player_df = Ok top30 ->
  exists hr,
    hr_score_column player_df = Ok hr /\
    rank_and_tag (set_column player_df "HR_Score" hr) = Ok top30.
Proof.
  unfold top30_predictions, score_players. intros H.
  bind_inv H. bind_inv E. injection E as <-. eauto.
Qed.

(** X1. The Predictor returns a table only if each of the seven metric and
    boost columns is there and holds no text: a missing column or a text
    cell makes it raise. *)
Theorem predictor_needs_numbers (player_df top30 : DataFrame) :
  top30_predictions player_df = Ok top30 ->
  forall c, In c metric_columns ->
    has_column player_df c = true /\
    forall r, In r (rows player_df) -> is_text (cell_at c r) = false.
Proof.
  intros H c Hc. apply top30_predictions_Ok in H as (hr & Hhr & _).
  destruct (hr_score_column_Ok _ _ Hhr) as [_ Hcols].
  destruct (Hcols c Hc) as [Hcol Hnum]. split; [exact Hcol|].
  rewrite List.Forall_forall in Hnum. exact Hnum.
Qed.

Lemma predictor_needs_numbers_witness :
  exists top30,
    top30_predictions sample_players = Ok top30 /\
    forall c, In c metric_columns ->
      has_column sample_players c = true /\
      forall r, In r (rows sample_players) -> is_text (cell_at c r) = false.
Proof.
  destruct (top30_predictions sample_players) as [top30|e] eqn:E.
  - exists top30. split; [reflexivity|].
    exact (predictor_needs_numbers sample_players top30 E).
  - vm_compute in E. discriminate E.
Defined.

Lemma float_ge_trans a b c :
  float_ge a b = true -> float_ge b c = true -> float_ge a c = true.
Proof.
  destruct a, b, c; simpl; try discriminate.
  intros H1 H2. apply Qle_bool_iff in H1, H2. apply Qle_bool_iff.
  eapply Qle_trans; eassumption.
Qed.

Lemma tag_confidence_monotone c90 c75 c60 s1 s2 :
  float_ge s1 s2 = true ->
  (tier_rank (tag_confidence [c90; c75; c60] s1)
   <= tier_rank (tag_confidence [c90; c75; c60] s2))%nat.
Proof.
  intros H. unfold tag_confidence. simpl.
  destruct (float_ge s2 c90) eqn:E90.
  - rewrite (float_ge_trans _ _ _ H E90). simpl. lia.
  - destruct (float_ge s2 c75) eqn:E75.
    + rewrite (float_ge_trans _ _ _ H E75).
      destruct (float_ge s1 c90); simpl; lia.
    + destruct (float_ge s2 c60) eqn:E60.
      * rewrite (float_ge_trans _ _ _ H E60).
        destruct (float_ge s1 c90), (float_ge s1 c75); simpl; lia.
      * destruct (float_ge s1 c90), (float_ge s1 c75), (float_ge s1 c60); simpl; lia.
Qed.

(** X4. Among the rows the Predictor returns a higher score never gets a
    worse tier: when the HR_Score of one row is at least that of another,
    its Confidence is the same or a better one on the scale A+, A, A-,
    B+. *)
Theorem tier_follows_score (player_df top30 : DataFrame) (r1 r2 : Series) :
  top30_predictions player_df = Ok top30 ->
  In r1 (rows top30) -> In r2 (rows top30) ->
  float_ge (cell_at "HR_Score" r1) (cell_at "HR_Score" r2) = true ->
  (tier_rank (cell_at "Confidence" r1) <= tier_rank (cell_at "Confidence" r2))%nat.
Proof.
  intros H H1 H2 Hge.
  apply predictions_tagged in H as (scores & cutoffs & _ & _ & Hcut & Htag).
  destruct (percentile_three _ _ _ _ _ Hcut) as (c90 & c75 & c60 & ->).
  rewrite (Htag r1 H1), (Htag r2 H2). apply tag_confidence_monotone. exact Hge.
Qed.

Lemma tier_follows_score_witness :
  exists top30 r1 r2,
    top30_predictions sample_players = Ok top30 /\
    In r1 (rows top30) /\ In r2 (rows top30) /\
    float_ge (cell_at "HR_Score" r1) (cell_at "HR_Score" r2) = true /\
    cell_at "Confidence" r1 = Str "A+" /\ cell_at "Confidence" r2 = Str "B+" /\
    (tier_rank (cell_at "Confidence" r1) <= tier_rank (cell_at "Confidence" r2))%nat.
Proof.
  destruct (top30_predictions sample_players) as [top30|e] eqn:E;
    [|vm_compute in E; discriminate E].
  pose proof (tier_follows_score sample_players top30) as H.
  specialize (fun r1 r2 => H r1 r2 E).
  vm_compute in E. injection E as <-.
  eexists. eexists. eexists. split; [reflexivity|].
  split; [left; reflexivity|].
  split; [do 29 right; left; reflexivity|].
  split; [vm_compute; reflexivity|].
  split; [vm_compute; reflexivity|]. split; [vm_compute; reflexivity|].
  apply H; [left; reflexivity | do 29 right; left; reflexivity | vm_compute; reflexivity].
Defined.

(** The ranked rows and the rows left out, seen from any list that is
    related to the scored rows one by one. *)
Lemma ranked_selection {B : Type} (P : Series -> B -> Prop) scored (l : list B) :
  Forall2 P (rows scored) l ->
  exists picked rest,
    Permutation l (picked ++ rest) /\
    Forall2 P (ranked scored) picked /\
    Forall2 P (skipn 30 (sort_desc "HR_Score" (rows scored))) rest.
Proof.
  intros H.
  destruct (@Permutation_Forall2 _ _ P (rows scored)
              (sort_desc "HR_Score" (rows scored)) l)
    as (l' & Hperm & Hall); [symmetry; apply sort_desc_perm | exact H |].
  rewrite <- (firstn_skipn 30 (sort_desc "HR_Score" (rows scored))) in Hall.
  apply Forall2_app_inv_l in Hall as (picked & rest & Hp & Hr & ->).
  exists picked, rest. repeat split; assumption.
Qed.

Lemma Forall2_zip_with {A B C : Type} (f : A -> B -> C) (P : C -> B -> Prop)
    (l : list A) (k : list B) :
  length l = length k ->
  (forall x y, P (f x y) y) ->
  Forall2 P (zip_with f l k) k.
Proof.
  intros Hlen HP. revert k Hlen; induction l as [|x l IH]; intros [|y k] Hlen;
    simpl in *; try discriminate; constructor; auto.
Qed.

Lemma Forall2_In_r {A B : Type} (P : A -> B -> Prop) (l : list A) (k : list B) y :
  Forall2 P l k -> In y k -> exists x, In x l /\ P x y.
Proof.
  induction 1 as [|x y' l k Hxy _ IH]; intros Hy; [destruct Hy|].
  destruct Hy as [<-|Hy]; [exists x; split; [left; reflexivity | exact Hxy]|].
  destruct (IH Hy) as (x' & Hx' & HP). exists x'. split; [right|]; assumption.
Qed.

Lemma StronglySorted_app_cross {A : Type} (R : A -> A -> Prop) (l1 l2 : list A) x y :
  StronglySorted R (l1 ++ l2) -> In x l1 -> In y l2 -> R x y.
Proof.
  induction l1 as [|a l1 IH]; simpl; intros Hs Hx Hy; [destruct Hx|].
  apply StronglySorted_inv in Hs as [Hs Hall].
  destruct Hx as [<-|Hx]; [|exact (IH Hs Hx Hy)].
  rewrite List.Forall_forall in Hall. apply Hall, in_or_app. right. exact Hy.
Qed.

(** X2. The table the Predictor returns is made of min(30, N) different
    rows of the input, in the order of the ranking, each with its cells
    as they were except for HR_Score and Confidence; the other input rows
    are left out. *)
Theorem predictor_keeps_rows (player_df top30 : DataFrame) :
  top30_predictions player_df = Ok top30 ->
  exists picked rest,
    Permutation (rows player_df) (picked ++ rest) /\
    length picked = Nat.min 30 (len player_df) /\
    Forall2 (fun r r0 => forall c, c <> "HR_Score" -> c <> "Confidence" ->
                                   cell_at c r = cell_at c r0)
            (rows top30) picked.
Proof.
  intros H. apply top30_predictions_Ok in H as (hr & Hhr & Htop).
  destruct (hr_score_column_Ok _ _ Hhr) as [Hlen _].
  apply rank_and_tag_Ok in Htop as (cutoffs & _ & _ & Hrows & _).
  set (scored := set_column player_df "HR_Score" hr) in *.
  destruct (ranked_selection
              (fun r r0 => forall c, c <> "HR_Score" -> cell_at c r = cell_at c r0)
              scored (rows player_df)) as (picked & rest & Hperm & Hp & _).
  { unfold scored, set_column. simpl. apply Forall2_zip_with; [exact Hlen|].
    intros v r c Hc. apply cell_at_series_set_ne. exact Hc. }
  exists picked, rest. split; [exact Hperm|]. split.
  - rewrite <- (Forall2_length _ _ _ Hp), length_ranked.
    unfold len, scored, set_column. cbn [rows].
    rewrite length_zip_with. unfold len in Hlen. lia.
  - rewrite Hrows. clear -Hp. induction Hp as [|r r0 l k Hr _ IH]; simpl; constructor; auto.
    intros c H1 H2. unfold tagged. rewrite cell_at_series_set_ne by exact H2. auto.
Qed.

Lemma predictor_keeps_rows_witness :
  exists top30,
    top30_predictions sample_players = Ok top30 /\
    exists picked rest,
      Permutation (rows sample_players) (picked ++ rest) /\
      length picked = Nat.min 30 (len sample_players) /\
      Forall2 (fun r r0 => forall c, c <> "HR_Score" -> c <> "Confidence" ->
                                     cell_at c r = cell_at c r0)
              (rows top30) picked.
Proof.
  destruct (top30_predictions sample_players) as [top30|e] eqn:E.
  - exists top30. split; [reflexivity|].
    exact (predictor_keeps_rows sample_players top30 E).
  - vm_compute in E. discriminate E.
Defined.

(** X3. With numeric metric and boost columns the rows returned are the
    best ones: the input splits into the rows picked, whose weighted sums
    are the HR_Score cells of the table in its order, and the rows left
    out, none of which has a weighted sum above that of a picked row. *)
Theorem predictor_picks_the_best (player_df top30 : DataFrame) :
  numeric_inputs player_df = true ->
  top30_predictions player_df = Ok top30 ->
  exists picked rest,
    Permutation (rows player_df) (picked ++ rest) /\
    map (cell_at "HR_Score") (rows top30) = map (fun r => Num (weighted_sum r)) picked /\
    forall r r', In r picked -> In r' rest -> weighted_sum r' <= weighted_sum r.
Proof.
  intros Hnum H. unfold top30_predictions in H.
  rewrite (score_players_rows _ Hnum) in H. simpl in H.
  set (scored := {| columns := _; rows := _ |}) in H.
  set (g := fun r => series_set "HR_Score" (Num (weighted_sum r)) r).
  apply rank_and_tag_Ok in H as (cutoffs & _ & _ & Hrows & _).
  destruct (ranked_selection (fun r' r0 => r' = g r0) scored (rows player_df))
    as (picked & rest & Hperm & Hp & Hr).
  { unfold scored. simpl. clear. induction (rows player_df); simpl; constructor; auto. }
  assert (Hpick : ranked scored = map g picked).
  { clear -Hp. induction Hp as [|r r0 l k -> _ IH]; simpl; [reflexivity | f_equal; exact IH]. }
  assert (Hrest : skipn 30 (sort_desc "HR_Score" (rows scored)) = map g rest).
  { clear -Hr. induction Hr as [|r r0 l k -> _ IH]; simpl; [reflexivity | f_equal; exact IH]. }
  exists picked, rest. split; [exact Hperm|]. split.
  - rewrite Hrows, Hpick, !map_map. apply map_ext. intros r.
    unfold tagged, g. rewrite cell_at_series_set_ne by discriminate.
    apply cell_at_series_set_eq.
  - intros r r' Hin Hin'.
    assert (Hs : StronglySorted (not_smaller "HR_Score")
                   (sort_desc "HR_Score" (rows scored))).
    { apply sort_desc_sorted. apply List.Forall_forall. intros x Hx.
      eapply scored_rows_numbered. exact Hx. }
    rewrite <- (firstn_skipn 30 (sort_desc "HR_Score" (rows scored))) in Hs.
    fold (ranked scored) in Hs. rewrite Hpick, Hrest in Hs.
    pose proof (StronglySorted_app_cross _ _ _ (g r) (g r') Hs
                  (in_map g _ _ Hin) (in_map g _ _ Hin')) as Hcross.
    unfold not_smaller, number_at, g in Hcross.
    rewrite !cell_at_series_set_eq in Hcross. exact Hcross.
Qed.

Lemma predictor_picks_the_best_witness :
  numeric_inputs sample_players = true /\
  exists top30,
    top30_predictions sample_players = Ok top30 /\
    exists picked rest,
      Permutation (rows sample_players) (picked ++ rest) /\
      map (cell_at "HR_Score") (rows top30)
      = map (fun r => Num (weighted_sum r)) picked /\
      forall r r', In r picked -> In r' rest -> weighted_sum r' <= weighted_sum r.
Proof.
  split; [vm_compute; reflexivity|].
  destruct (top30_predictions sample_players) as [top30|e] eqn:E.
  - exists top30. split; [reflexivity|].
    apply (predictor_picks_the_best sample_players top30); [vm_compute; reflexivity | exact E].
  - vm_compute in E. discriminate E.
Defined.

(** ** Order of a sorted table, missing values included *)

Lemma in_descending_order_trans by_ r1 r2 r3 :
  in_descending_order by_ r1 r2 -> in_descending_order by_ r2 r3 ->
  in_descending_order by_ r1 r3.
Proof.
  unfold in_descending_order, sorts_before.
  destruct (cell_at by_ r1) as [x| | |], (cell_at by_ r2) as [y| | |],
    (cell_at by_ r3) as [z| | |]; try congruence.
  rewrite !negb_false_iff, !Qle_bool_iff. intros H1 H2. eapply Qle_trans; eassumption.
Qed.

Lemma sorts_before_asym a b : sorts_before a b = true -> sorts_before b a = false.
Proof.
  destruct a as [x| | |], b as [y| | |]; simpl; try congruence.
  rewrite negb_true_iff, negb_false_iff. intros H.
  apply Qle_bool_iff. apply Qlt_le_weak, Qnot_le_lt.
  intros Hle. apply Qle_bool_iff in Hle. congruence.
Qed.

Lemma insert_desc_in_order by_ r l :
  StronglySorted (in_descending_order by_) l ->
  StronglySorted (in_descending_order by_) (insert_desc by_ r l).
Proof.
  intros Hs. induction Hs as [|x l Hs IH Hx]; simpl.
  - repeat constructor.
  - destruct (sorts_before (cell_at by_ x) (cell_at by_ r)) eqn:E.
    + constructor; [exact IH|].
      eapply Permutation_Forall; [symmetry; apply insert_desc_perm|].
      constructor; [|exact Hx].
      unfold in_descending_order. apply sorts_before_asym. exact E.
    + constructor; [constructor; assumption|].
      constructor; [exact E|].
      eapply Forall_impl; [exact Hx|]. simpl.
      intros y Hy. apply (in_descending_order_trans by_ r x y); [exact E | exact Hy].
Qed.

Lemma sort_desc_in_order by_ l : StronglySorted (in_descending_order by_) (sort_desc by_ l).
Proof.
  induction l as [|x l IH]; simpl; [constructor|].
  apply insert_desc_in_order. exact IH.
Qed.

(** ** The Parlay Builder: what it pairs, in which order, and when it fails *)

Lemma lookup_head n df k r :
  rows (head n df) !! k = Some r -> rows df !! k = Some r /\ (k < n)%nat.
Proof. unfold head. simpl. intros H. apply lookup_take_Some in H. exact H. Qed.

Lemma stack_entry_cells cols r1 r2 score s :
  stack_entry (reindex cols r1) (reindex cols r2) score = Ok s ->
  s = [("Player1", cell_at "Player" r1); ("Team1", cell_at "Team" r1);
       ("Player2", cell_at "Player" r2); ("Team2", cell_at "Team" r2);
       ("Combined_Score", score);
       ("Player1_Confidence", cell_at "Confidence" r1);
       ("Player2_Confidence", cell_at "Confidence" r2)].
Proof.
  unfold stack_entry. intros H. do 6 bind_inv H. injection H as <-.
  repeat match goal with
         | Hg : getitem (reindex _ _) _ = Ok _ |- _ => apply getitem_reindex_Ok in Hg; subst
         end.
  reflexivity.
Qed.

(** X5. Every row of the table the Parlay Builder returns pairs two rows
    of the first twenty of the prediction table, the one that stands
    higher as player 1: names, teams and tiers are theirs. A player below
    the twentieth place is in no parlay. *)
Theorem parlay_rows_from_top20 (top30 out : DataFrame) (r : Series) :
  parlay_stacks top30 = Ok out -> In r (rows out) ->
  exists i j r1 r2,
    (i < j < 20)%nat /\
    rows top30 !! i = Some r1 /\ rows top30 !! j = Some r2 /\
    cell_at "Player1" r = cell_at "Player" r1 /\
    cell_at "Team1" r = cell_at "Team" r1 /\
    cell_at "Player1_Confidence" r = cell_at "Confidence" r1 /\
    cell_at "Player2" r = cell_at "Player" r2 /\
    cell_at "Team2" r = cell_at "Team" r2 /\
    cell_at "Player2_Confidence" r = cell_at "Confidence" r2.
Proof.
  intros Hout Hr.
  apply parlay_stacks_Ok in Hout as (stacks & Hst & _ & Hsub).
  destruct (collect_stacks_In _ _ _ _ Hst (Hsub r Hr)) as ([a b] & Hc & Hs).
  unfold player_combos in Hc. apply in_combinations2_seq in Hc.
  apply stack_of_Some in Hs as (p1 & p2 & score & H1 & H2 & _ & _ & Hentry).
  simpl in H1, H2.
  apply iloc_Ok in H1 as (r1 & L1 & ->). apply iloc_Ok in H2 as (r2 & L2 & ->).
  apply stack_entry_cells in Hentry. subst r.
  apply lookup_head in L1 as [L1 _]. apply lookup_head in L2 as [L2 Hb].
  exists a, b, r1, r2. split; [lia|]. repeat split; assumption.
Qed.

Lemma parlay_rows_from_top20_witness :
  exists out r,
    parlay_stacks sample_top30 = Ok out /\ In r (rows out) /\
    exists i j r1 r2,
      (i < j < 20)%nat /\
      rows sample_top30 !! i = Some r1 /\ rows sample_top30 !! j = Some r2 /\
      cell_at "Player1" r = cell_at "Player" r1 /\
      cell_at "Team1" r = cell_at "Team" r1 /\
      cell_at "Player1_Confidence" r = cell_at "Confidence" r1 /\
      cell_at "Player2" r = cell_at "Player" r2 /\
      cell_at "Team2" r = cell_at "Team" r2 /\
      cell_at "Player2_Confidence" r = cell_at "Confidence" r2.
Proof.
  destruct (parlay_stacks sample_top30) as [out|e] eqn:E;
    [|vm_compute in E; discriminate E].
  destruct (rows out) as [|r l] eqn:R;
    [vm_compute in E; injection E as <-; vm_compute in R; discriminate R|].
  exists out, r. split; [reflexivity|].
  assert (Hin : In r (rows out)) by (rewrite R; left; reflexivity).
  split; [exact Hin|].
  exact (parlay_rows_from_top20 sample_top30 out r E Hin).
Defined.

(** X6. The table the Parlay Builder returns has at most 15 rows, in the
    order of their Combined_Score from the largest to the smallest, rows
    with a missing score last; with scores that are numbers, no row has a
    larger score than a row above it. *)
Theorem parlay_table_sorted (top30 out : DataFrame) :
  parlay_stacks top30 = Ok out ->
  (len out <= 15)%nat /\
  StronglySorted (in_descending_order "Combined_Score") (rows out) /\
  forall i j r1 r2 x y,
    (i < j)%nat -> rows out !! i = Some r1 -> rows out !! j = Some r2 ->
    cell_at "Combined_Score" r1 = Num x -> cell_at "Combined_Score" r2 = Num y ->
    y <= x.
Proof.
  intros H. unfold parlay_stacks in H. bind_inv H. bind_inv H. injection H as <-.
  unfold sort_values_desc in E0. destruct (has_column _ _); [|discriminate].
  injection E0 as <-.
  assert (Hs : StronglySorted (in_descending_order "Combined_Score")
                 (firstn 15 (sort_desc "Combined_Score" v))).
  { apply StronglySorted_firstn, sort_desc_in_order. }
  unfold len. simpl. split; [rewrite length_firstn; lia|]. split; [exact Hs|].
  intros i j r1 r2 x y Hij L1 L2 C1 C2.
  pose proof (StronglySorted_lookup _ _ i j r1 r2 Hs L1 L2 Hij) as Hord.
  unfold in_descending_order in Hord. rewrite C1, C2 in Hord. simpl in Hord.
  apply negb_false_iff, Qle_bool_iff in Hord. exact Hord.
Qed.

Lemma parlay_table_sorted_witness :
  exists out,
    parlay_stacks sample_top30 = Ok out /\
    (len out <= 15)%nat /\
    StronglySorted (in_descending_order "Combined_Score") (rows out) /\
    forall i j r1 r2 x y,
      (i < j)%nat -> rows out !! i = Some r1 -> rows out !! j = Some r2 ->
      cell_at "Combined_Score" r1 = Num x -> cell_at "Combined_Score" r2 = Num y ->
      y <= x.
Proof.
  destruct (parlay_stacks sample_top30) as [out|e] eqn:E;
    [|vm_compute in E; discriminate E].
  exists out. split; [reflexivity|].
  exact (parlay_table_sorted sample_top30 out E).
Defined.

Lemma stack_of_skipped top20 a b ra rb :
  has_column top20 "Team" = true ->
  rows top20 !! a = Some ra -> rows top20 !! b = Some rb ->
  py_eq (cell_at "Team" ra) (cell_at "Team" rb) = true ->
  stack_of top20 (a, b) = Ok None.
Proof.
  intros Hcol La Lb Heq. unfold stack_of, iloc. simpl fst. simpl snd.
  rewrite La, Lb. simpl. rewrite same_team_reindex.
  unfold has_column in Hcol. rewrite Hcol. simpl. rewrite Heq. reflexivity.
Qed.

(** X7. A prediction table whose first twenty rows give no pair of two
    teams (fewer than two rows, or a Team column and one team only) makes
    the Parlay Builder raise KeyError('Combined_Score'): the empty list
    of stacks gives a table without columns, and the sort asks for one. *)
Theorem parlay_needs_two_teams (top30 : DataFrame) :
  (len top30 < 2)%nat \/ has_column top30 "Team" = true ->
  (forall i j r1 r2,
     (i < j < 20)%nat -> rows top30 !! i = Some r1 -> rows top30 !! j = Some r2 ->
     py_eq (cell_at "Team" r1) (cell_at "Team" r2) = true) ->
  parlay_stacks top30 = Raise (KeyError (Str "Combined_Score")).
Proof.
  intros Hcol Hsame. unfold parlay_stacks.
  set (top20 := head 20 top30).
  assert (Hst : collect_stacks top20 (player_combos top20) = Ok []).
  { apply collect_stacks_skipped. intros [a b] Hc.
    unfold player_combos in Hc. apply in_combinations2_seq in Hc.
    assert (Hlen : (len top20 <= len top30)%nat).
    { unfold len, top20. simpl. rewrite length_firstn. lia. }
    destruct Hcol as [Hshort|Hcol]; [lia|].
    destruct (lookup_lt_is_Some_2 (rows top20) a) as [ra La]; [unfold len in Hc; lia|].
    destruct (lookup_lt_is_Some_2 (rows top20) b) as [rb Lb]; [unfold len in Hc; lia|].
    apply (stack_of_skipped top20 a b ra rb); [exact Hcol | exact La | exact Lb |].
    apply lookup_head in La as [La _]. apply lookup_head in Lb as [Lb Hb].
    apply (Hsame a b); [lia | exact La | exact Lb]. }
  rewrite Hst. reflexivity.
Qed.

Lemma parlay_needs_two_teams_witness :
  parlay_stacks one_team_top30 = Raise (KeyError (Str "Combined_Score")).
Proof.
  apply parlay_needs_two_teams.
  - right. vm_compute. reflexivity.
  - intros i j r1 r2 Hij L1 L2.
    assert (Hj : (j < 3)%nat) by (apply lookup_lt_Some in L2; exact L2).
    destruct i as [|[|[|i]]]; destruct j as [|[|[|j]]]; try lia;
      vm_compute in L1, L2; injection L1 as <-; injection L2 as <-;
      vm_compute; reflexivity.
Defined.

Lemma float_mul_total a b :
  is_text a = false -> is_text b = false ->
  exists c, float_mul a b = Ok c /\ is_text c = false.
Proof.
  intros Ha Hb. destruct (float_mul a b) as [c|e] eqn:E.
  - exists c. split; [reflexivity|]. eapply float_mul_Ok. exact E.
  - destruct a, b; simpl in *; discriminate.
Qed.

Lemma valid_tier_reindex cols r :
  valid_tier (reindex cols r) = true ->
  exists t v, getitem (reindex cols r) "Confidence" = Ok (Str t) /\
              confidence_value !! t = Some v.
Proof.
  unfold valid_tier. destruct (getitem _ _) as [[| |t|]|]; try discriminate.
  intros H. apply bool_decide_eq_true in H as [v Hv]. eauto.
Qed.

Lemma combined_score_total cols r1 r2 :
  "HR_Score" ∈ cols ->
  is_text (cell_at "HR_Score" r1) = false -> is_text (cell_at "HR_Score" r2) = false ->
  valid_tier (reindex cols r1) = true -> valid_tier (reindex cols r2) = true ->
  exists score, combined_score (reindex cols r1) (reindex cols r2) = Ok score.
Proof.
  intros Hcol N1 N2 V1 V2.
  apply valid_tier_reindex in V1 as (t1 & v1 & C1 & L1).
  apply valid_tier_reindex in V2 as (t2 & v2 & C2 & L2).
  destruct (float_mul_total _ _ N1 N2) as (base & Hbase & Nbase).
  destruct (float_mul_total base (Num (1 + v1 + v2)) Nbase eq_refl) as (score & Hscore & _).
  exists score. unfold combined_score.
  rewrite !(getitem_reindex cols "HR_Score"), (bool_decide_eq_true_2 _ Hcol).
  simpl. rewrite Hbase. simpl. rewrite C1. simpl. rewrite L1. simpl.
  rewrite C2. simpl. rewrite L2. simpl. exact Hscore.
Qed.

Lemma stack_entry_total cols r1 r2 score :
  "Player" ∈ cols -> "Team" ∈ cols -> "Confidence" ∈ cols ->
  exists s, stack_entry (reindex cols r1) (reindex cols r2) score = Ok s.
Proof.
  intros HP HT HC. unfold stack_entry. rewrite !getitem_reindex.
  rewrite (bool_decide_eq_true_2 _ HP), (bool_decide_eq_true_2 _ HT),
    (bool_decide_eq_true_2 _ HC).
  simpl. eauto.
Qed.

(** A pair of rows of a table in good order is skipped when the teams are
    the same and gives a stack otherwise. *)
Lemma stack_of_total top20 c :
  has_column top20 "Player" = true -> has_column top20 "Team" = true ->
  has_column top20 "HR_Score" = true ->
  Forall (fun r => is_text (cell_at "HR_Score" r) = false /\
                   valid_tier (reindex (columns top20) r) = true) (rows top20) ->
  (fst c < len top20)%nat -> (snd c < len top20)%nat ->
  exists o, stack_of top20 c = Ok o /\
            (cross_team top20 c = match o with Some _ => true | None => false end).
Proof.
  intros HP HT HS Hrows Ha Hb. destruct c as [a b]. simpl in Ha, Hb.
  destruct (lookup_lt_is_Some_2 (rows top20) a Ha) as [ra La].
  destruct (lookup_lt_is_Some_2 (rows top20) b Hb) as [rb Lb].
  rewrite List.Forall_forall in Hrows.
  destruct (Hrows ra) as [Na Va]; [eapply list_elem_of_In, list_elem_of_lookup_2; exact La|].
  destruct (Hrows rb) as [Nb Vb]; [eapply list_elem_of_In, list_elem_of_lookup_2; exact Lb|].
  unfold cross_team. simpl fst. simpl snd. rewrite La, Lb.
  unfold stack_of, iloc. simpl fst. simpl snd. rewrite La, Lb. simpl.
  rewrite same_team_reindex.
  unfold has_column in HP, HT, HS. rewrite HT. simpl.
  apply bool_decide_eq_true in HP, HT, HS.
  assert (HC : "Confidence" ∈ columns top20).
  { apply valid_tier_reindex in Va as (t & v & Hg & _).
    rewrite getitem_reindex in Hg.
    destruct (decide ("Confidence" ∈ columns top20)) as [D|D]; [exact D|].
    rewrite (bool_decide_eq_false_2 _ D) in Hg. discriminate. }
  destruct (py_eq (cell_at "Team" ra) (cell_at "Team" rb)); simpl.
  - exists None. split; reflexivity.
  - destruct (combined_score_total _ ra rb HS Na Nb Va Vb) as (score & Hscore).
    rewrite Hscore. simpl.
    destruct (stack_entry_total (columns top20) ra rb score HP HT HC) as (s & Hs).
    rewrite Hs. simpl. exists (Some s). split; reflexivity.
Qed.

Lemma collect_stacks_total top20 (cross : nat * nat -> bool) combos :
  (forall c, In c combos ->
     exists o, stack_of top20 c = Ok o /\
               cross c = match o with Some _ => true | None => false end) ->
  exists stacks, collect_stacks top20 combos = Ok stacks /\
                 length stacks = length (List.filter cross combos).
Proof.
  induction combos as [|c combos IH]; intros H; simpl.
  - exists []. split; reflexivity.
  - destruct (H c) as (o & Ho & Hc); [left; reflexivity|].
    destruct IH as (stacks & Hst & Hlen); [intros c' Hc'; apply H; right; exact Hc'|].
    rewrite Ho, Hst. simpl. rewrite Hc.
    destruct o as [s|]; eexists; (split; [reflexivity|]); simpl; congruence.
Qed.

Lemma records_column (records : list Series) (r : Series) (c : string) :
  In r records -> In c (keys r) -> has_column (DataFrame_of_records records) c = true.
Proof.
  unfold has_column, DataFrame_of_records. simpl. intros Hr Hc.
  apply bool_decide_eq_true.
  assert (Hkeep : forall l acc, c ∈ acc ->
            c ∈ foldl (fun acc r => union_columns acc (keys r)) acc l).
  { induction l as [|x l IH]; intros acc Hacc; simpl; [exact Hacc|].
    apply IH. unfold union_columns. apply elem_of_app. left. exact Hacc. }
  generalize (@nil string) as acc. induction records as [|x records IH]; intros acc;
    [destruct Hr|]. simpl.
  destruct Hr as [->|Hr]; [|apply IH; exact Hr].
  apply Hkeep. unfold union_columns.
  destruct (decide (c ∈ acc)) as [D|D]; apply elem_of_app; [left; exact D|right].
  apply list_elem_of_In, filter_In. split; [exact Hc|].
  rewrite (bool_decide_eq_false_2 _ D). reflexivity.
Qed.

(** X8. On a prediction table with the columns Player, Team and HR_Score,
    whose first twenty rows carry a tier of the scale and a score that is
    no text, the Parlay Builder goes through as soon as one pair of the
    first twenty is of two teams: it returns the 15 best of the
    cross-team pairs, or all of them when they are fewer. *)
Theorem parlay_builder_succeeds (top30 : DataFrame) :
  has_column top30 "Player" = true -> has_column top30 "Team" = true ->
  has_column top30 "HR_Score" = true ->
  Forall (fun r => is_text (cell_at "HR_Score" r) = false /\
                   valid_tier (reindex (columns top30) r) = true)
         (rows (head 20 top30)) ->
  (0 < length (List.filter (cross_team (head 20 top30))
                 (player_combos (head 20 top30))))%nat ->
  exists out,
    parlay_stacks top30 = Ok out /\
    len out = Nat.min 15 (length (List.filter (cross_team (head 20 top30))
                                    (player_combos (head 20 top30)))).
Proof.
  intros HP HT HS Hrows Hsome. unfold parlay_stacks.
  set (top20 := head 20 top30) in *.
  destruct (collect_stacks_total top20 (cross_team top20) (player_combos top20))
    as (stacks & Hst & Hlen).
  { intros [a b] Hc. unfold player_combos in Hc. apply in_combinations2_seq in Hc.
    apply stack_of_total; try assumption; simpl; lia. }
  rewrite Hst. simpl.
  assert (Hs : exists s, In s stacks).
  { destruct stacks as [|s stacks]; [simpl in Hlen; lia|]. exists s. left. reflexivity. }
  destruct Hs as (s & Hs).
  assert (Hcol : has_column (DataFrame_of_records stacks) "Combined_Score" = true).
  { apply (records_column _ s); [exact Hs|].
    destruct (collect_stacks_In _ _ _ s Hst Hs) as (c & _ & Hc).
    apply stack_of_Some in Hc as (p1 & p2 & score & H1 & H2 & _ & _ & Hentry).
    apply iloc_Ok in H1 as (r1 & _ & ->). apply iloc_Ok in H2 as (r2 & _ & ->).
    apply stack_entry_cells in Hentry. subst s. simpl. tauto. }
  unfold sort_values_desc. rewrite Hcol.
  eexists. split; [reflexivity|].
  unfold len, head. cbn [rows DataFrame_of_records].
  rewrite length_firstn, (Permutation_length (sort_desc_perm _ _)), Hlen.
  reflexivity.
Qed.

Lemma parlay_builder_succeeds_witness :
  exists out,
    parlay_stacks sample_top30 = Ok out /\
    len out = Nat.min 15 (length (List.filter (cross_team (head 20 sample_top30))
                                    (player_combos (head 20 sample_top30)))).
Proof.
  apply parlay_builder_succeeds.
  - vm_compute. reflexivity.
  - vm_compute. reflexivity.
  - vm_compute. reflexivity.
  - apply List.Forall_forall. intros r Hr.
    vm_compute in Hr.
    repeat (destruct Hr as [<-|Hr]; [vm_compute; split; reflexivity|]).
    destruct Hr.
  - vm_compute. lia.
Defined.

(** X9. The Parlay Builder touches no file but its two own: when it
    returns a table, the file of the day and the latest copy both hold
    that table; when it returns none or raises, the files are as they
    were; and without the prediction file of the day it returns none. *)
Theorem parlay_builder_files (today : string) (w w' : World)
    (r : result (option DataFrame)) :
  build_parlay_stacks today w = (r, w') ->
  (forall p, p <> "data/output/apex_parlays_" ++ today ++ ".csv" ->
             p <> "data/output/apex_parlays_latest.csv" ->
             files w' !! p = files w !! p) /\
  (forall out, r = Ok (Some out) ->
     files w' !! ("data/output/apex_parlays_" ++ today ++ ".csv") = Some out /\
     files w' !! "data/output/apex_parlays_latest.csv" = Some out) /\
  ((forall out, r <> Ok (Some out)) -> files w' = files w) /\
  (available w ("data/output/apex_top30_full_" ++ today ++ ".csv") = false ->
   r = Ok None).
Proof.
  unfold build_parlay_stacks, mbind, IO_bind, mret, IO_ret, print, path_exists,
    read_csv, lift, makedirs, to_csv.
  cbn [fst snd files dirs stdout].
  change ("data/output" ++ "/apex_top30_full_" ++ today ++ ".csv")
    with ("data/output/apex_top30_full_" ++ today ++ ".csv").
  change ("data/output" ++ "/apex_parlays_" ++ today ++ ".csv")
    with ("data/output/apex_parlays_" ++ today ++ ".csv").
  change ("data/output" ++ "/apex_parlays_latest.csv")
    with ("data/output/apex_parlays_latest.csv").
  destruct (available _ _); cbn [negb fst snd files dirs stdout].
  - destruct (files w !! _) as [top30|].
    + destruct (parlay_stacks top30) as [out|e]; cbn [fst snd files dirs stdout].
      * intros [= <- <-]. cbn [files]. repeat split.
        -- intros p Hd Hl. rewrite !lookup_insert_ne by congruence. reflexivity.
        -- injection H as <-.
           destruct (decide ("data/output/apex_parlays_latest.csv"
                             = "data/output/apex_parlays_" ++ today ++ ".csv")) as [D|D].
           ++ rewrite <- D. apply lookup_insert_eq.
           ++ rewrite lookup_insert_ne by exact D. apply lookup_insert_eq.
        -- injection H as <-. apply lookup_insert_eq.
        -- intros H. exfalso. apply (H out). reflexivity.
        -- discriminate.
      * intros [= <- <-]. cbn [files]. repeat split; try discriminate.
    + intros [= <- <-]. cbn [files]. repeat split; try discriminate.
  - intros [= <- <-]. cbn [files]. repeat split; try discriminate.
Qed.

Lemma parlay_builder_files_witness :
  exists out w',
    build_parlay_stacks "2024-06-01" (snd (sample_predictor "2024-06-01" empty_world))
    = (Ok (Some out), w') /\
    files w' !! "data/output/apex_parlays_2024-06-01.csv" = Some out /\
    files w' !! "data/output/apex_parlays_latest.csv" = Some out.
Proof.
  destruct (build_parlay_stacks "2024-06-01"
              (snd (sample_predictor "2024-06-01" empty_world))) as [r w'] eqn:E.
  destruct r as [[out|]|e];
    [|vm_compute in E; discriminate E|vm_compute in E; discriminate E].
  exists out, w'. split; [reflexivity|].
  destruct (parlay_builder_files _ _ _ _ E) as (_ & H & _).
  exact (H out eq_refl).
Defined.

(** ** The Predictor and its files *)

Lemma length_append (s1 s2 : string) :
  String.length (s1 ++ s2) = (String.length s1 + String.length s2)%nat.
Proof. induction s1 as [|a s1 IH]; simpl; [reflexivity | rewrite IH; reflexivity]. Qed.

Lemma full_ne_dated today :
  "data/output/apex_top30_full_" ++ today ++ ".csv"
  <> "data/output/apex_top30_" ++ today ++ ".csv".
Proof.
  intros H. apply (f_equal String.length) in H. simpl in H.
  rewrite !length_append in H. lia.
Qed.

Lemma full_ne_latest today :
  "data/output/apex_top30_full_" ++ today ++ ".csv" <> "data/output/apex_top30_latest.csv".
Proof. simpl. discriminate. Qed.

Lemma generate_top30_predictions_Ok source o1 o2 o3 o4 today w top30 w' :
  generate_top30_predictions source o1 o2 o3 o4 today w = (Ok top30, w') ->
  exists simple,
    project top30 ["Player"; "Team"; "Opponent"; "HR_Score"; "Confidence"] = Ok simple /\
    files w' !! ("data/output/apex_top30_full_" ++ today ++ ".csv") = Some top30 /\
    files w' !! ("data/output/apex_top30_" ++ today ++ ".csv") = Some simple /\
    files w' !! "data/output/apex_top30_latest.csv" = Some simple.
Proof.
  unfold generate_top30_predictions. intros H. do 8 io_inv H.
  unfold lift in *.
  change ("data/output" ++ "/apex_top30_full_" ++ today ++ ".csv")
    with ("data/output/apex_top30_full_" ++ today ++ ".csv") in *.
  change ("data/output" ++ "/apex_top30_" ++ today ++ ".csv")
    with ("data/output/apex_top30_" ++ today ++ ".csv") in *.
  change ("data/output" ++ "/apex_top30_latest.csv")
    with ("data/output/apex_top30_latest.csv") in *.
  repeat match goal with
         | Hr : to_csv _ _ _ = (_, _) |- _ => unfold to_csv in Hr; injection Hr as _ <-
         | Hr : makedirs _ _ = (_, _) |- _ => unfold makedirs in Hr; injection Hr as _ <-
         end.
  do 4 io_inv H.
  repeat match goal with
         | Hr : to_csv _ _ _ = (_, _) |- _ => unfold to_csv in Hr; injection Hr as _ <-
         | Hr : print _ _ = (_, _) |- _ => unfold print in Hr; injection Hr as _ <-
         | Hr : (_, _) = (Ok _, _) |- _ => injection Hr as ? ?; subst
         end.
  unfold mret, IO_ret in H. injection H as <- <-. cbn [files].
  match goal with Hp : project _ _ = Ok ?s |- _ => exists s; split; [exact Hp|] end.
  split; [|split].
  - rewrite lookup_insert_ne by (intros E; symmetry in E; exact (full_ne_latest _ E)).
    rewrite lookup_insert_ne by (intros E; symmetry in E; exact (full_ne_dated _ E)).
    apply lookup_insert_eq.
  - destruct (decide ("data/output/apex_top30_latest.csv"
                      = "data/output/apex_top30_" ++ today ++ ".csv")) as [D|D].
    + rewrite <- D. rewrite lookup_insert_eq. congruence.
    + rewrite lookup_insert_ne by exact D. rewrite lookup_insert_eq. congruence.
  - rewrite lookup_insert_eq. congruence.
Qed.

Lemma project_Ok df cols d :
  project df cols = Ok d ->
  (forall c, In c cols -> has_column df c = true) /\
  d = {| columns := cols; rows := map (reindex cols) (rows df) |}.
Proof.
  unfold project. destruct (List.find _ cols) as [c|] eqn:E; [discriminate|].
  intros [= <-]. split; [|reflexivity].
  intros c Hc. pose proof (find_none _ _ E c Hc) as Hn. simpl in Hn.
  apply negb_false_iff in Hn. exact Hn.
Qed.

(** X10. When the Predictor returns its table, the full file of the day
    holds that table, and the file of the day and the latest copy hold
    one and the same table: its rows in their order, seen through the
    columns Player, Team, Opponent, HR_Score and Confidence, which the
    table all has. *)
Theorem predictor_publishes (source : IO DataFrame)
    (o1 o2 o3 o4 : DataFrame -> result DataFrame) (today : string)
    (w w' : World) (top30 : DataFrame) :
  generate_top30_predictions source o1 o2 o3 o4 today w = (Ok top30, w') ->
  let simple := {| columns := prediction_columns;
                   rows := map (reindex prediction_columns) (rows top30) |} in
  (forall c, In c prediction_columns -> has_column top30 c = true) /\
  files w' !! ("data/output/apex_top30_full_" ++ today ++ ".csv") = Some top30 /\
  files w' !! ("data/output/apex_top30_" ++ today ++ ".csv") = Some simple /\
  files w' !! "data/output/apex_top30_latest.csv" = Some simple.
Proof.
  intros H simple.
  apply generate_top30_predictions_Ok in H as (s & Hs & Hfull & Hdated & Hlatest).
  apply project_Ok in Hs as [Hcols ->].
  split; [exact Hcols|]. split; [exact Hfull|]. split; assumption.
Qed.

Lemma predictor_publishes_witness :
  exists top30 w',
    sample_predictor "2024-06-01" empty_world = (Ok top30, w') /\
    (forall c, In c prediction_columns -> has_column top30 c = true) /\
    files w' !! "data/output/apex_top30_full_2024-06-01.csv" = Some top30 /\
    files w' !! "data/output/apex_top30_2024-06-01.csv"
    = Some {| columns := prediction_columns;
              rows := map (reindex prediction_columns) (rows top30) |} /\
    files w' !! "data/output/apex_top30_latest.csv"
    = Some {| columns := prediction_columns;
              rows := map (reindex prediction_columns) (rows top30) |}.
Proof.
  destruct (sample_predictor "2024-06-01" empty_world) as [[top30|e] w'] eqn:E;
    [|vm_compute in E; discriminate E].
  exists top30, w'. split; [reflexivity|].
  exact (predictor_publishes sample_source Ok Ok Ok Ok "2024-06-01" empty_world w' top30 E).
Defined.

(** X11. The stages that follow work on what the Predictor wrote: the
    Parlay Builder of the same day returns the stacks of the very table
    the Predictor returned (or raises what they raise), and a table the
    Tracker returns for that day is the reconciliation of the five-column
    view of it with the outcomes. *)
Theorem stages_read_predictor_output (source : IO DataFrame)
    (o1 o2 o3 o4 : DataFrame -> result DataFrame) (today : string)
    (w w' : World) (top30 : DataFrame) :
  generate_top30_predictions source o1 o2 o3 o4 today w = (Ok top30, w') ->
  fst (build_parlay_stacks today w')
  = (top_stacks ← parlay_stacks top30; mret (Some top_stacks)) /\
  forall feed tracking_df w'',
    track_home_runs feed today w' = (Ok (Some tracking_df), w'') ->
    exists actual rec,
      reconciliation today
        {| columns := prediction_columns;
           rows := map (reindex prediction_columns) (rows top30) |} actual = Ok rec /\
      tracking_df = DataFrame_of_records (tracking_results rec).
Proof.
  intros H.
  apply generate_top30_predictions_Ok in H as (s & Hs & Hfull & Hdated & Hlatest).
  apply project_Ok in Hs as [_ ->]. split.
  - unfold build_parlay_stacks, mbind, IO_bind, mret, IO_ret, print, path_exists,
      read_csv, lift, makedirs, to_csv, available.
    cbn [fst snd files dirs stdout].
    change ("data/output" ++ "/apex_top30_full_" ++ today ++ ".csv")
      with ("data/output/apex_top30_full_" ++ today ++ ".csv").
    rewrite Hfull. cbn [fst snd files dirs stdout].
    rewrite bool_decide_eq_true_2 by eauto. cbn [orb negb fst snd files dirs stdout].
    rewrite Hfull.
    destruct (parlay_stacks top30); reflexivity.
  - intros feed tracking_df w'' Hrun.
    apply track_home_runs_Some in Hrun as (predictions & actual & rec & Hp & _ & Hrec & ->).
    exists actual, rec. split; [|reflexivity].
    destruct Hp as [Hp|Hp]; [rewrite Hdated in Hp | rewrite Hlatest in Hp];
      injection Hp as <-; exact Hrec.
Qed.

Lemma stages_read_predictor_output_witness :
  exists top30 w',
    sample_predictor "2024-06-01" empty_world = (Ok top30, w') /\
    fst (build_parlay_stacks "2024-06-01" w')
    = (top_stacks ← parlay_stacks top30; mret (Some top_stacks)) /\
    forall feed tracking_df w'',
      track_home_runs feed "2024-06-01" w' = (Ok (Some tracking_df), w'') ->
      exists actual rec,
        reconciliation "2024-06-01"
          {| columns := prediction_columns;
             rows := map (reindex prediction_columns) (rows top30) |} actual = Ok rec /\
        tracking_df = DataFrame_of_records (tracking_results rec).
Proof.
  destruct (sample_predictor "2024-06-01" empty_world) as [[top30|e] w'] eqn:E;
    [|vm_compute in E; discriminate E].
  exists top30, w'. split; [reflexivity|].
  exact (stages_read_predictor_output sample_source Ok Ok Ok Ok "2024-06-01"
           empty_world w' top30 E).
Defined.

(** ** The Outcome Tracker: who is a Hit, a Miss, a Surprise *)

Lemma ne_suffix_x_Player c : c ++ "_x" <> "Player".
Proof.
  destruct c as [|a0 [|a1 [|a2 [|a3 [|a4 [|a5 [|a6 c]]]]]]]; simpl; discriminate.
Qed.

Lemma merge_Ok_key left right key h indicator d :
  merge left right key h indicator = Ok d ->
  has_column left key = true /\ has_column right key = true.
Proof.
  unfold merge. destruct (has_column left key), (has_column right key);
    simpl; try discriminate. auto.
Qed.

Lemma merged_row_Player lc rc indicator l r :
  "Player" ∈ lc ->
  cell_at "Player" (merged_row lc rc "Player" indicator l r) = cell_at "Player" l.
Proof.
  intros Hin. unfold cell_at at 1. unfold merged_row. rewrite assoc_app.
  assert (H : assoc "Player" (map (fun c => (left_name rc "Player" c, cell_at c l)) lc)
              = Some (cell_at "Player" l)).
  { induction lc as [|c lc IH]; [apply elem_of_nil in Hin; destruct Hin|].
    cbn [map assoc]. destruct (String.eqb "Player" (left_name rc "Player" c)) eqn:E.
    - apply String.eqb_eq in E. unfold left_name in E.
      destruct (String.eqb c "Player") eqn:Ec.
      + apply String.eqb_eq in Ec. subst c. reflexivity.
      + destruct (bool_decide (c ∈ rc)).
        * symmetry in E. apply ne_suffix_x_Player in E. destruct E.
        * subst c. rewrite String.eqb_refl in Ec. discriminate.
    - apply IH. apply elem_of_cons in Hin as [Hc|Hin]; [|exact Hin].
      subst c. unfold left_name in E. rewrite !String.eqb_refl in E. discriminate. }
  rewrite H. reflexivity.
Qed.

Lemma merge_rows_In left right key h indicator d row :
  merge left right key h indicator = Ok d -> In row (rows d) ->
  exists l, In l (rows left) /\
    ((partners key l right = [] /\ h = Left /\
      row = merged_row (columns left) (columns right) key indicator l None) \/
     (exists r, In r (partners key l right) /\
        row = merged_row (columns left) (columns right) key indicator l (Some r))).
Proof.
  intros H Hrow. apply merge_Ok in H as (_ & _ & Hrows). rewrite Hrows in Hrow.
  apply in_flat_map in Hrow as (l & Hl & Hrow). exists l. split; [exact Hl|].
  destruct (partners key l right) as [|p ps] eqn:Ep.
  - destruct h; [destruct Hrow|]. destruct Hrow as [<-|[]]. left. auto.
  - right. assert (Hin : In row (map (fun r => merged_row (columns left) (columns right)
                                                key indicator l (Some r)) (p :: ps))).
    { destruct h; exact Hrow. }
    apply in_map_iff in Hin as (r & <- & Hr). exists r. split; [exact Hr | reflexivity].
Qed.

Lemma In_merge_rows left right key h indicator d l :
  merge left right key h indicator = Ok d -> In l (rows left) ->
  (partners key l right = [] -> h = Left ->
   In (merged_row (columns left) (columns right) key indicator l None) (rows d)) /\
  (forall r, In r (partners key l right) ->
   In (merged_row (columns left) (columns right) key indicator l (Some r)) (rows d)).
Proof.
  intros H Hl. apply merge_Ok in H as (_ & _ & Hrows). rewrite Hrows. split.
  - intros Hp ->. apply in_flat_map. exists l. split; [exact Hl|].
    rewrite Hp. left. reflexivity.
  - intros r Hr. apply in_flat_map. exists l. split; [exact Hl|].
    destruct (partners key l right) as [|p ps] eqn:Ep; [destruct Hr|].
    assert (Hin : In (merged_row (columns left) (columns right) key indicator l (Some r))
                     (map (fun r => merged_row (columns left) (columns right)
                                      key indicator l (Some r)) (p :: ps))).
    { apply in_map_iff. exists r. split; [reflexivity | exact Hr]. }
    destruct h; exact Hin.
Qed.

Lemma In_partners key l right r :
  In r (partners key l right) <->
  In r (rows right) /\ key_eq (cell_at key l) (cell_at key r) = true.
Proof. unfold partners. apply filter_In. Qed.

Lemma no_partners key l right :
  partners key l right = [] <->
  forall r, In r (rows right) -> key_eq (cell_at key l) (cell_at key r) = false.
Proof.
  split.
  - intros H r Hr. destruct (key_eq _ _) eqn:E; [|reflexivity].
    assert (Hin : In r (partners key l right)) by (apply In_partners; auto).
    rewrite H in Hin. destruct Hin.
  - intros H. destruct (partners key l right) as [|r ps] eqn:E; [reflexivity|].
    assert (Hin : In r (partners key l right)) by (rewrite E; left; reflexivity).
    apply In_partners in Hin as [Hr Hk]. rewrite (H r Hr) in Hk. discriminate.
Qed.

(** The rows a left join marks [left_only] are those of the left rows
    without a partner. *)
Lemma left_only_rows left right d row :
  merge left right "Player" Left true = Ok d ->
  (In row (rows (select_rows left_only d)) <->
   exists l, In l (rows left) /\ partners "Player" l right = [] /\
     row = merged_row (columns left) (columns right) "Player" true l None).
Proof.
  intros H. pose proof (merge_Ok _ _ _ _ _ _ H) as (Hm & _ & _).
  destruct (Hm eq_refl) as [Hl Hr].
  unfold select_rows. simpl. rewrite filter_In. split.
  - intros [Hin Hlo].
    destruct (merge_rows_In _ _ _ _ _ _ _ H Hin) as (l & Hll & [(Hp & _ & ->)|(r & _ & ->)]).
    + exists l. auto.
    + rewrite left_only_merged_row in Hlo by assumption. discriminate.
  - intros (l & Hll & Hp & ->). split.
    + apply (In_merge_rows _ _ _ _ _ _ _ H Hll); [exact Hp | reflexivity].
    + apply left_only_merged_row; assumption.
Qed.

Lemma hit_record_Player yesterday hit r :
  hit_record yesterday hit = Ok r -> getitem hit "Player" = Ok (cell_at "Player" r).
Proof. unfold hit_record. intros H. do 7 bind_inv H. injection H as <-. exact E. Qed.

Lemma miss_record_Player yesterday miss r :
  miss_record yesterday miss = Ok r -> getitem miss "Player" = Ok (cell_at "Player" r).
Proof. unfold miss_record. intros H. do 4 bind_inv H. injection H as <-. exact E. Qed.

Lemma surprise_record_Player yesterday surprise r :
  surprise_record yesterday surprise = Ok r ->
  getitem surprise "Player" = Ok (cell_at "Player" r).
Proof. unfold surprise_record. intros H. do 4 bind_inv H. injection H as <-. exact E. Qed.

(** The record of a row of a joined table names the player of that row. *)
Lemma records_of_rows (f : Series -> result Series) d records r :
  (forall x y, f x = Ok y -> getitem x "Player" = Ok (cell_at "Player" y)) ->
  mapM f (iterrows d) = Ok records -> In r records ->
  exists row, In row (rows d) /\ cell_at "Player" r = cell_at "Player" row.
Proof.
  intros Hf Hm Hr. destruct (mapM_Ok_In _ _ _ _ Hm Hr) as (x & Hx & Hfx).
  unfold iterrows in Hx. apply in_map_iff in Hx as (row & <- & Hrow).
  exists row. split; [exact Hrow|].
  apply Hf in Hfx. apply getitem_reindex_Ok in Hfx. exact Hfx.
Qed.

Lemma Forall2_In_l {A B : Type} (P : A -> B -> Prop) (l : list A) (k : list B) x :
  Forall2 P l k -> In x l -> exists y, In y k /\ P x y.
Proof.
  induction 1 as [|x' y l k Hxy _ IH]; intros Hx; [destruct Hx|].
  destruct Hx as [<-|Hx]; [exists y; split; [left; reflexivity | exact Hxy]|].
  destruct (IH Hx) as (y' & Hy' & HP). exists y'. split; [right|]; assumption.
Qed.

Lemma rows_of_records (f : Series -> result Series) d records row :
  (forall x y, f x = Ok y -> getitem x "Player" = Ok (cell_at "Player" y)) ->
  mapM f (iterrows d) = Ok records -> In row (rows d) ->
  exists r, In r records /\ cell_at "Player" r = cell_at "Player" row /\
            f (reindex (columns d) row) = Ok r.
Proof.
  intros Hf Hm Hrow. apply mapM_Ok_Forall2 in Hm.
  destruct (Forall2_In_l _ _ _ (reindex (columns d) row) Hm) as (r & Hr & Hfx).
  { unfold iterrows. apply in_map. exact Hrow. }
  exists r. split; [exact Hr|]. split; [|exact Hfx].
  apply Hf in Hfx. apply getitem_reindex_Ok in Hfx. exact Hfx.
Qed.

(** The three classes of records, by the players they name. *)
Lemma tracker_classes yesterday predictions actual rec :
  reconciliation yesterday predictions actual = Ok rec ->
  exists hit_records miss_records surprise_records,
    tracking_results rec = (hit_records ++ miss_records ++ surprise_records)%list /\
    (forall r, In r hit_records ->
       cell_at "Result" r = Str "Hit" /\
       exists l o, In l (rows predictions) /\ In o (rows actual) /\
         key_eq (cell_at "Player" l) (cell_at "Player" o) = true /\
         cell_at "Player" r = cell_at "Player" l) /\
    (forall r, In r miss_records ->
       cell_at "Result" r = Str "Miss" /\
       exists l, In l (rows predictions) /\
         (forall o, In o (rows actual) ->
            key_eq (cell_at "Player" l) (cell_at "Player" o) = false) /\
         cell_at "Player" r = cell_at "Player" l) /\
    (forall r, In r surprise_records ->
       cell_at "Result" r = Str "Surprise" /\
       exists o, In o (rows actual) /\
         (forall l, In l (rows predictions) ->
            key_eq (cell_at "Player" o) (cell_at "Player" l) = false) /\
         cell_at "Player" r = cell_at "Player" o).
Proof.
  intros H.
  apply reconciliation_Ok in H as (hr & mr & sr & Hh & Hm & Hs & Mh & Mm & Ms & Hall).
  exists hr, mr, sr. split; [exact Hall|].
  pose proof (merge_Ok_key _ _ _ _ _ _ Hh) as [KP KA].
  unfold has_column in KP, KA. apply bool_decide_eq_true in KP, KA.
  unfold misses_of in Hm. bind_inv Hm. injection Hm as Hm.
  unfold surprises_of in Hs. bind_inv Hs. injection Hs as Hs.
  split; [|split].
  - intros r Hr. split.
    { destruct (mapM_Ok_In _ _ _ _ Mh Hr) as (x & _ & Hx).
      eapply hit_record_Result. exact Hx. }
    destruct (records_of_rows _ _ _ r (hit_record_Player yesterday) Mh Hr)
      as (row & Hrow & ->).
    destruct (merge_rows_In _ _ _ _ _ _ _ Hh Hrow)
      as (l & Hl & [(_ & Hleft & _)|(o & Ho & ->)]); [discriminate|].
    apply In_partners in Ho as [Ho Hk].
    exists l, o. repeat split; try assumption.
    apply merged_row_Player. exact KP.
  - intros r Hr. split.
    { destruct (mapM_Ok_In _ _ _ _ Mm Hr) as (x & _ & Hx).
      eapply miss_record_Ok. exact Hx. }
    destruct (records_of_rows _ _ _ r (miss_record_Player yesterday) Mm Hr)
      as (row & Hrow & ->).
    rewrite <- Hm in Hrow. apply (left_only_rows _ _ _ _ E) in Hrow as (l & Hl & Hp & ->).
    exists l. split; [exact Hl|]. split; [apply no_partners; exact Hp|].
    apply merged_row_Player. exact KP.
  - intros r Hr. split.
    { destruct (mapM_Ok_In _ _ _ _ Ms Hr) as (x & _ & Hx).
      eapply surprise_record_Result. exact Hx. }
    destruct (records_of_rows _ _ _ r (surprise_record_Player yesterday) Ms Hr)
      as (row & Hrow & ->).
    rewrite <- Hs in Hrow. apply (left_only_rows _ _ _ _ E0) in Hrow as (o & Ho & Hp & ->).
    exists o. split; [exact Ho|]. split; [apply no_partners; exact Hp|].
    apply merged_row_Player. exact KA.
Qed.

(** X12. Two records of a reconciliation with different results never
    name the same player: nobody is a Hit and a Miss, a Hit and a
    Surprise, or a Miss and a Surprise of one day, whatever the two
    tables hold. *)
Theorem tracker_classes_disjoint (yesterday : string) (predictions actual : DataFrame)
    (rec : Reconciliation) (r1 r2 : Series) :
  reconciliation yesterday predictions actual = Ok rec ->
  In r1 (tracking_results rec) -> In r2 (tracking_results rec) ->
  cell_at "Result" r1 <> cell_at "Result" r2 ->
  key_eq (cell_at "Player" r1) (cell_at "Player" r2) = false.
Proof.
  intros H.
  destruct (tracker_classes _ _ _ _ H) as (hr & mr & sr & -> & Hh & Hm & Hs).
  assert (HM : forall a b, In a hr -> In b mr ->
            key_eq (cell_at "Player" a) (cell_at "Player" b) = false).
  { intros a b Ha Hb.
    destruct (Hh a Ha) as (_ & l & o & _ & Ho & Hk & ->).
    destruct (Hm b Hb) as (_ & l' & _ & Hnone & ->).
    destruct (key_eq (cell_at "Player" l) (cell_at "Player" l')) eqn:E; [|reflexivity].
    rewrite <- (Hnone o Ho). symmetry.
    apply (key_eq_trans _ (cell_at "Player" l)); [apply key_eq_sym; exact E | exact Hk]. }
  assert (HS : forall a b, In a hr -> In b sr ->
            key_eq (cell_at "Player" a) (cell_at "Player" b) = false).
  { intros a b Ha Hb.
    destruct (Hh a Ha) as (_ & l & o & Hl & _ & _ & ->).
    destruct (Hs b Hb) as (_ & o' & _ & Hnone & ->).
    rewrite key_eq_comm. apply Hnone. exact Hl. }
  assert (MS : forall a b, In a mr -> In b sr ->
            key_eq (cell_at "Player" a) (cell_at "Player" b) = false).
  { intros a b Ha Hb.
    destruct (Hm a Ha) as (_ & l & _ & Hnone & ->).
    destruct (Hs b Hb) as (_ & o & Ho & _ & ->).
    apply Hnone. exact Ho. }
  intros H1 H2 Hne.
  apply in_app_or in H1 as [H1|H1]; [|apply in_app_or in H1 as [H1|H1]];
    (apply in_app_or in H2 as [H2|H2]; [|apply in_app_or in H2 as [H2|H2]]).
  - exfalso. apply Hne. rewrite (proj1 (Hh _ H1)), (proj1 (Hh _ H2)). reflexivity.
  - apply HM; assumption.
  - apply HS; assumption.
  - rewrite key_eq_comm. apply HM; assumption.
  - exfalso. apply Hne. rewrite (proj1 (Hm _ H1)), (proj1 (Hm _ H2)). reflexivity.
  - apply MS; assumption.
  - rewrite key_eq_comm. apply HS; assumption.
  - rewrite key_eq_comm. apply MS; assumption.
  - exfalso. apply Hne. rewrite (proj1 (Hs _ H1)), (proj1 (Hs _ H2)). reflexivity.
Qed.

Lemma tracker_classes_disjoint_witness :
  exists rec r1 r2,
    reconciliation "2024-06-01" sample_predictions sample_outcomes = Ok rec /\
    In r1 (tracking_results rec) /\ In r2 (tracking_results rec) /\
    cell_at "Result" r1 <> cell_at "Result" r2 /\
    key_eq (cell_at "Player" r1) (cell_at "Player" r2) = false.
Proof.
  destruct (reconciliation "2024-06-01" sample_predictions sample_outcomes)
    as [rec|e] eqn:E; [|vm_compute in E; discriminate E].
  pose proof (tracker_classes_disjoint "2024-06-01" sample_predictions sample_outcomes rec)
    as H.
  specialize (fun r1 r2 => H r1 r2 E).
  vm_compute in E. injection E as <-.
  eexists. eexists. eexists. split; [reflexivity|].
  split; [left; reflexivity|].
  split; [right; left; reflexivity|].
  split; [vm_compute; discriminate|].
  apply H; [left; reflexivity | right; left; reflexivity | vm_compute; discriminate].
Defined.

Lemma key_eq_refl a : key_eq a a = true.
Proof.
  destruct a as [q| |s|b]; simpl; try reflexivity.
  - apply Qeq_bool_iff. reflexivity.
  - apply String.eqb_refl.
  - destruct b; reflexivity.
Qed.

Lemma reconciliation_covers yesterday predictions actual rec :
  reconciliation yesterday predictions actual = Ok rec ->
  (forall l, In l (rows predictions) ->
     exists r, In r (tracking_results rec) /\
       cell_at "Player" r = cell_at "Player" l /\
       (cell_at "Result" r = Str "Hit" \/ cell_at "Result" r = Str "Miss")) /\
  (forall o, In o (rows actual) ->
     exists r, In r (tracking_results rec) /\
       key_eq (cell_at "Player" r) (cell_at "Player" o) = true /\
       (cell_at "Result" r = Str "Hit" \/ cell_at "Result" r = Str "Surprise")).
Proof.
  intros H.
  apply reconciliation_Ok in H as (hr & mr & sr & Hh & Hm & Hs & Mh & Mm & Ms & ->).
  pose proof (merge_Ok_key _ _ _ _ _ _ Hh) as [KP KA].
  unfold has_column in KP, KA. apply bool_decide_eq_true in KP, KA.
  unfold misses_of in Hm. bind_inv Hm. injection Hm as Hm.
  unfold surprises_of in Hs. bind_inv Hs. injection Hs as Hs.
  assert (Hhit : forall l o, In l (rows predictions) -> In o (rows actual) ->
            key_eq (cell_at "Player" l) (cell_at "Player" o) = true ->
            exists r, In r hr /\ cell_at "Player" r = cell_at "Player" l /\
                      cell_at "Result" r = Str "Hit").
  { intros l o Hl Ho Hk.
    assert (Hrow : In (merged_row (columns predictions) (columns actual) "Player" false
                         l (Some o)) (rows (hits rec))).
    { apply (In_merge_rows _ _ _ _ _ _ _ Hh Hl). apply In_partners. auto. }
    destruct (rows_of_records _ _ _ _ (hit_record_Player yesterday) Mh Hrow)
      as (r & Hr & Hp & Hf).
    exists r. split; [exact Hr|]. split.
    - rewrite Hp. apply merged_row_Player. exact KP.
    - eapply hit_record_Result. exact Hf. }
  split.
  - intros l Hl. destruct (partners "Player" l actual) as [|o ps] eqn:Ep.
    + assert (Hrow : In (merged_row (columns predictions) (columns actual) "Player" true
                           l None) (rows (misses rec))).
      { rewrite <- Hm. apply (left_only_rows _ _ _ _ E). exists l. auto. }
      destruct (rows_of_records _ _ _ _ (miss_record_Player yesterday) Mm Hrow)
        as (r & Hr & Hp & Hf).
      exists r. split; [apply in_or_app; right; apply in_or_app; left; exact Hr|]. split.
      * rewrite Hp. apply merged_row_Player. exact KP.
      * right. eapply miss_record_Ok. exact Hf.
    + assert (Ho : In o (partners "Player" l actual)) by (rewrite Ep; left; reflexivity).
      apply In_partners in Ho as [Ho Hk].
      destruct (Hhit l o Hl Ho Hk) as (r & Hr & Hp & Hres).
      exists r. split; [apply in_or_app; left; exact Hr|]. split; [exact Hp | left; exact Hres].
  - intros o Ho. destruct (partners "Player" o predictions) as [|l ps] eqn:Ep.
    + assert (Hrow : In (merged_row (columns actual) (columns predictions) "Player" true
                           o None) (rows (surprises rec))).
      { rewrite <- Hs. apply (left_only_rows _ _ _ _ E0). exists o. auto. }
      destruct (rows_of_records _ _ _ _ (surprise_record_Player yesterday) Ms Hrow)
        as (r & Hr & Hp & Hf).
      exists r. split; [apply in_or_app; right; apply in_or_app; right; exact Hr|]. split.
      * rewrite Hp, merged_row_Player by exact KA. apply key_eq_refl.
      * right. eapply surprise_record_Result. exact Hf.
    + assert (Hl : In l (partners "Player" o predictions)) by (rewrite Ep; left; reflexivity).
      apply In_partners in Hl as [Hl Hk]. apply key_eq_sym in Hk.
      destruct (Hhit l o Hl Ho Hk) as (r & Hr & Hp & Hres).
      exists r. split; [apply in_or_app; left; exact Hr|]. split; [|left; exact Hres].
      rewrite Hp. exact Hk.
Qed.

(** X13. A reconciliation accounts for everyone: each row of the
    predictions has a record of its player that is a Hit or a Miss, and
    each row of the outcomes has a record of a player of its name that is
    a Hit or a Surprise. *)
Theorem tracker_accounts_for_everyone (yesterday : string)
    (predictions actual : DataFrame) (rec : Reconciliation) :
  reconciliation yesterday predictions actual = Ok rec ->
  (forall l, In l (rows predictions) ->
     exists r, In r (tracking_results rec) /\
       cell_at "Player" r = cell_at "Player" l /\
       (cell_at "Result" r = Str "Hit" \/ cell_at "Result" r = Str "Miss")) /\
  (forall o, In o (rows actual) ->
     exists r, In r (tracking_results rec) /\
       key_eq (cell_at "Player" r) (cell_at "Player" o) = true /\
       (cell_at "Result" r = Str "Hit" \/ cell_at "Result" r = Str "Surprise")).
Proof. apply reconciliation_covers. Qed.

Lemma tracker_accounts_for_everyone_witness :
  exists rec,
    reconciliation "2024-06-01" sample_predictions sample_outcomes = Ok rec /\
    (forall l, In l (rows sample_predictions) ->
       exists r, In r (tracking_results rec) /\
         cell_at "Player" r = cell_at "Player" l /\
         (cell_at "Result" r = Str "Hit" \/ cell_at "Result" r = Str "Miss")) /\
    (forall o, In o (rows sample_outcomes) ->
       exists r, In r (tracking_results rec) /\
         key_eq (cell_at "Player" r) (cell_at "Player" o) = true /\
         (cell_at "Result" r = Str "Hit" \/ cell_at "Result" r = Str "Surprise")).
Proof.
  destruct (reconciliation "2024-06-01" sample_predictions sample_outcomes)
    as [rec|e] eqn:E; [|vm_compute in E; discriminate E].
  exists rec. split; [reflexivity|].
  exact (tracker_accounts_for_everyone _ _ _ rec E).
Defined.

(** ** The Outcome Tracker on tables of the documented columns *)










(** ** The outcome feed *)

Lemma fetch_attempts_spec feed target_date data_path attempt remaining w r w' :
  fetch_attempts feed target_date data_path attempt remaining w = (r, w') ->
  match r with
  | Ok (Some hr_df) =>
      exists k, (attempt <= k < attempt + remaining)%nat /\
        feed target_date k = inr hr_df /\
        (forall j, (attempt <= j < k)%nat -> exists e, feed target_date j = inl e) /\
        files w' = <[data_path := hr_df]> (files w)
  | Ok None =>
      (forall k, (attempt <= k < attempt + remaining)%nat ->
                 exists e, feed target_date k = inl e) /\
      files w' = files w
  | Raise _ => False
  end.
Proof.
  revert attempt w. induction remaining as [|n IH]; intros attempt w; simpl.
  - intros [= <- <-]. split; [intros k Hk; lia | reflexivity].
  - destruct (feed target_date attempt) as [e|hr_df] eqn:Hfeed.
    + unfold mbind, IO_bind, print at 1. cbn [fst snd].
      set (w1 := {| files := files w; dirs := dirs w; stdout := _ |}).
      assert (Hw2 : exists w2,
                (if bool_decide (attempt < 2)%nat
                 then print (Text "Retrying in 5 seconds...") else mret tt) w1 = (Ok tt, w2)
                /\ files w2 = files w).
      { destruct (bool_decide _); eexists; split; reflexivity. }
      destruct Hw2 as (w2 & -> & Hfiles).
      intros Hrec. apply IH in Hrec.
      destruct r as [[df|]|x]; [| |exact Hrec].
      * destruct Hrec as (k & Hk & Hdf & Hbefore & Hw').
        exists k. split; [lia|]. split; [exact Hdf|]. split; [|congruence].
        intros j Hj. destruct (Nat.eq_dec j attempt) as [->|Hne]; [eauto|].
        apply Hbefore. lia.
      * destruct Hrec as (Hall & Hw'). split; [|congruence].
        intros k Hk. destruct (Nat.eq_dec k attempt) as [->|Hne]; [eauto|].
        apply Hall. lia.
    + unfold mbind, IO_bind, mret, IO_ret, to_csv, print. cbn [fst snd files].
      intros [= <- <-]. exists attempt. split; [lia|]. split; [exact Hfeed|].
      split; [intros j Hj; lia | reflexivity].
Qed.

Lemma actual_path_ne_dir target_date :
  "data/actual/actual_hr_" ++ target_date ++ ".csv" <> "data/actual".
Proof. simpl. discriminate. Qed.

Lemma get_actual_hr_data_cached feed target_date w hr_df :
  files w !! ("data/actual/actual_hr_" ++ target_date ++ ".csv") = Some hr_df ->
  exists w', get_actual_hr_data feed target_date w = (Ok (Some hr_df), w') /\
             files w' = files w.
Proof.
  intros Hfile.
  unfold get_actual_hr_data, mbind, IO_bind, mret, IO_ret, print, makedirs,
    path_exists, read_csv, available.
  cbn [fst snd files dirs stdout].
  change ("data/actual" ++ "/actual_hr_" ++ target_date ++ ".csv")
    with ("data/actual/actual_hr_" ++ target_date ++ ".csv").
  rewrite Hfile. rewrite bool_decide_eq_true_2 by eauto.
  cbn [orb fst snd files dirs stdout]. rewrite Hfile.
  eexists. split; reflexivity.
Qed.

Lemma get_actual_hr_data_fetch feed target_date w :
  available w ("data/actual/actual_hr_" ++ target_date ++ ".csv") = false ->
  exists w1, files w1 = files w /\
    get_actual_hr_data feed target_date w
    = (let (found, w2) := fetch_attempts feed target_date
                            ("data/actual/actual_hr_" ++ target_date ++ ".csv") 0 3 w1 in
       match found with
       | Ok (Some hr_df) => (Ok (Some hr_df), w2)
       | Ok None =>
           (Ok None,
            {| files := files w2; dirs := dirs w2;
               stdout := (stdout w2 ++
                 [Text "ERROR: Failed to fetch actual HR data after multiple attempts"])%list |})
       | Raise e => (Raise e, w2)
       end).
Proof.
  intros Hnone.
  unfold get_actual_hr_data.
  unfold mbind at 1 2 3 4 5. unfold IO_bind at 1 2 3 4 5.
  unfold print at 1 2. unfold makedirs, path_exists.
  cbn [fst snd files dirs stdout].
  change ("data/actual" ++ "/actual_hr_" ++ target_date ++ ".csv")
    with ("data/actual/actual_hr_" ++ target_date ++ ".csv").
  rewrite available_makedirs by apply actual_path_ne_dir.
  rewrite Hnone.
  unfold mbind, IO_bind, mret, IO_ret, print. cbn [fst snd files dirs stdout].
  exists {| files := files w; dirs := {["data/actual"]} ∪ dirs w;
            stdout := ((stdout w ++ [Text (">> Fetching Actual HR Data for "
                                           ++ target_date ++ "...")])
                       ++ [Text ">> No cached HR data found. Attempting to fetch from MLB API..."])%list |}.
  split; [reflexivity|].
  destruct (fetch_attempts _ _ _ _ _ _) as [[[df|]|e] w2]; reflexivity.
Qed.

Lemma get_actual_hr_data_fetched feed target_date w w' r :
  available w ("data/actual/actual_hr_" ++ target_date ++ ".csv") = false ->
  get_actual_hr_data feed target_date w = (r, w') ->
  match r with
  | Ok (Some hr_df) =>
      exists k, (k < 3)%nat /\ feed target_date k = inr hr_df /\
        (forall j, (j < k)%nat -> exists e, feed target_date j = inl e) /\
        files w' = <["data/actual/actual_hr_" ++ target_date ++ ".csv" := hr_df]> (files w)
  | Ok None =>
      (forall k, (k < 3)%nat -> exists e, feed target_date k = inl e) /\
      files w' = files w
  | Raise _ => False
  end.
Proof.
  intros Hnone Hrun.
  destruct (get_actual_hr_data_fetch feed target_date w Hnone) as (w1 & Hw1 & Heq).
  rewrite Heq in Hrun. clear Heq.
  destruct (fetch_attempts _ _ _ _ _ _) as [found w2] eqn:Hfetch.
  apply fetch_attempts_spec in Hfetch.
  destruct found as [[df|]|e]; [| |destruct Hfetch].
  - injection Hrun as <- <-.
    destruct Hfetch as (k & Hk & Hdf & Hbefore & Hfiles).
    exists k. split; [lia|]. split; [exact Hdf|]. split.
    + intros j Hj. apply Hbefore. lia.
    + rewrite Hfiles, Hw1. reflexivity.
  - injection Hrun as <- <-. destruct Hfetch as (Hall & Hfiles). split.
    + intros k Hk. apply Hall. lia.
    + cbn [files]. rewrite Hfiles, Hw1. reflexivity.
Qed.

(** X15. Without a cached file of the date the feed is asked at most
    three times and the first answer is taken: the table returned is that
    of the first attempt that did not fail, and it is written to the cache
    file; when the three attempts fail, nothing is returned and no file is
    written. The failures of the feed never reach the caller. *)
Theorem outcomes_three_attempts (feed : string -> nat -> string + DataFrame)
    (target_date : string) (w w' : World) (r : result (option DataFrame)) :
  available w ("data/actual/actual_hr_" ++ target_date ++ ".csv") = false ->
  get_actual_hr_data feed target_date w = (r, w') ->
  match r with
  | Ok (Some hr_df) =>
      exists k, (k < 3)%nat /\ feed target_date k = inr hr_df /\
        (forall j, (j < k)%nat -> exists e, feed target_date j = inl e) /\
        files w' = <["data/actual/actual_hr_" ++ target_date ++ ".csv" := hr_df]> (files w)
  | Ok None =>
      (forall k, (k < 3)%nat -> exists e, feed target_date k = inl e) /\
      files w' = files w
  | Raise _ => False
  end.
Proof. apply get_actual_hr_data_fetched. Qed.

Lemma outcomes_three_attempts_witness :
  exists w',
    get_actual_hr_data flaky_feed "2024-06-01" empty_world = (Ok (Some grouped_outcomes), w') /\
    exists k, (k < 3)%nat /\ flaky_feed "2024-06-01" k = inr grouped_outcomes /\
      (forall j, (j < k)%nat -> exists e, flaky_feed "2024-06-01" j = inl e) /\
      files w' = <["data/actual/actual_hr_" ++ "2024-06-01" ++ ".csv" := grouped_outcomes]>
                   (files empty_world).
Proof.
  destruct (get_actual_hr_data flaky_feed "2024-06-01" empty_world) as [r w'] eqn:E.
  pose proof (outcomes_three_attempts flaky_feed "2024-06-01" empty_world w' r) as H.
  assert (Hr : r = Ok (Some grouped_outcomes)).
  { vm_compute in E. injection E as <- _. reflexivity. }
  subst r. exists w'. split; [reflexivity|].
  apply H; [vm_compute; reflexivity | exact E].
Defined.

(** X16. What the feed function returns for a date is in the cache file
    of that date afterwards, and a second call for the date returns the
    same table without asking the feed and without writing anything. *)
Theorem outcomes_fetched_once (feed : string -> nat -> string + DataFrame)
    (target_date : string) (w w' : World) (hr_df : DataFrame) :
  get_actual_hr_data feed target_date w = (Ok (Some hr_df), w') ->
  files w' !! ("data/actual/actual_hr_" ++ target_date ++ ".csv") = Some hr_df /\
  forall feed', exists w'',
    get_actual_hr_data feed' target_date w' = (Ok (Some hr_df), w'') /\
    files w'' = files w'.
Proof.
  intros Hrun.
  assert (Hfile : files w' !! ("data/actual/actual_hr_" ++ target_date ++ ".csv")
                  = Some hr_df).
  { destruct (files w !! ("data/actual/actual_hr_" ++ target_date ++ ".csv"))
      as [cached|] eqn:Hc.
    - destruct (get_actual_hr_data_cached feed target_date w cached Hc)
        as (w0 & Hrun0 & Hw0).
      rewrite Hrun0 in Hrun. injection Hrun as <- <-. rewrite Hw0. exact Hc.
    - destruct (available w ("data/actual/actual_hr_" ++ target_date ++ ".csv")) eqn:Ha.
      + exfalso. revert Hrun.
        unfold get_actual_hr_data, mbind, IO_bind, mret, IO_ret, print, makedirs,
          path_exists, read_csv.
        cbn [fst snd files dirs stdout].
        change ("data/actual" ++ "/actual_hr_" ++ target_date ++ ".csv")
          with ("data/actual/actual_hr_" ++ target_date ++ ".csv").
        rewrite available_makedirs by apply actual_path_ne_dir.
        rewrite Ha. cbn [fst snd files dirs stdout]. rewrite Hc. discriminate.
      + pose proof (get_actual_hr_data_fetched feed target_date w w' _ Ha Hrun) as H.
        destruct H as (k & _ & _ & _ & ->). apply lookup_insert_eq. }
  split; [exact Hfile|].
  intros feed'. apply get_actual_hr_data_cached. exact Hfile.
Qed.

Lemma outcomes_fetched_once_witness :
  exists w',
    get_actual_hr_data flaky_feed "2024-06-01" empty_world
    = (Ok (Some grouped_outcomes), w') /\
    files w' !! ("data/actual/actual_hr_" ++ "2024-06-01" ++ ".csv")
    = Some grouped_outcomes /\
    forall feed', exists w'',
      get_actual_hr_data feed' "2024-06-01" w' = (Ok (Some grouped_outcomes), w'') /\
      files w'' = files w'.
Proof.
  destruct (get_actual_hr_data flaky_feed "2024-06-01" empty_world) as [r w'] eqn:E.
  assert (Hr : r = Ok (Some grouped_outcomes)).
  { vm_compute in E. injection E as <- _. reflexivity. }
  subst r. exists w'. split; [reflexivity|].
  exact (outcomes_fetched_once flaky_feed "2024-06-01" empty_world w' grouped_outcomes E).
Defined.

(** ** The Outcome Tracker and its files *)

Lemma get_actual_hr_data_files feed target_date w r w' p :
  get_actual_hr_data feed target_date w = (r, w') ->
  p <> "data/actual/actual_hr_" ++ target_date ++ ".csv" ->
  files w' !! p = files w !! p.
Proof.
  intros Hrun Hp.
  destruct (available w ("data/actual/actual_hr_" ++ target_date ++ ".csv")) eqn:Ha.
  - revert Hrun.
    unfold get_actual_hr_data, mbind, IO_bind, mret, IO_ret, print, makedirs,
      path_exists, read_csv.
    cbn [fst snd files dirs stdout].
    change ("data/actual" ++ "/actual_hr_" ++ target_date ++ ".csv")
      with ("data/actual/actual_hr_" ++ target_date ++ ".csv").
    rewrite available_makedirs by apply actual_path_ne_dir.
    rewrite Ha. cbn [fst snd files dirs stdout].
    destruct (files w !! _) as [hr_df|]; intros [= <- <-]; reflexivity.
  - pose proof (get_actual_hr_data_fetched feed target_date w w' r Ha Hrun) as H.
    destruct r as [[hr_df|]|e]; [| |destruct H].
    + destruct H as (k & _ & _ & _ & ->).
      apply lookup_insert_ne. congruence.
    + destruct H as (_ & ->). reflexivity.
Qed.





(** ** Diagnostics: the rates, the alerts, the window *)

Lemma diagnostic_rates_value combined_df :
  has_column combined_df "Result" = true ->
  diagnostic_rates combined_df =
  let hit_count := count_label "Result" "Hit" (rows combined_df) in
  let miss_count := count_label "Result" "Miss" (rows combined_df) in
  let surprise_count := count_label "Result" "Surprise" (rows combined_df) in
  let hit_rate := if Nat.eqb (hit_count + miss_count) 0 then 0
                  else of_nat hit_count / of_nat (hit_count + miss_count) in
  let surprise_rate := if Nat.eqb (hit_count + surprise_count) 0 then 0
                       else of_nat surprise_count / of_nat (hit_count + surprise_count) in
  Ok {| Total_Predictions := hit_count + miss_count;
        Hit_Count := hit_count;
        Miss_Count := miss_count;
        Surprise_Count := surprise_count;
        Hit_Rate := hit_rate;
        Surprise_Rate := surprise_rate;
        Hit_Rate_Alert := negb (Qle_bool hit_rate_threshold hit_rate);
        Surprise_Rate_Alert := negb (Qle_bool surprise_rate surprise_rate_threshold) |}.
Proof.
  intros Hcol. unfold diagnostic_rates.
  rewrite !count_result_Ok by exact Hcol. simpl.
  rewrite !guarded_rate. reflexivity.
Qed.

Lemma diagnostic_rates_Ok combined_df report :
  diagnostic_rates combined_df = Ok report -> has_column combined_df "Result" = true.
Proof.
  unfold diagnostic_rates, count_result, column.
  destruct (has_column combined_df "Result"); [reflexivity | discriminate].
Qed.

Lemma Zpos_of_nat (b : nat) : (0 < b)%nat -> Zpos (Pos.of_nat b) = Z.of_nat b.
Proof.
  intros Hb. rewrite <- (Nat2Pos.id b) at 2 by lia. symmetry. apply positive_nat_Z.
Qed.

Lemma rate_fraction (a b : nat) :
  (0 < b)%nat -> of_nat a / of_nat b == Z.of_nat a # Pos.of_nat b.
Proof.
  intros Hb. unfold of_nat. rewrite <- (Zpos_of_nat b Hb). symmetry. apply Qmake_Qdiv.
Qed.

Lemma fraction_le (a b : nat) (p : Z) (q : positive) :
  (0 < b)%nat ->
  (p # q <= of_nat a / of_nat b <-> (p * Z.of_nat b <= Z.of_nat a * Zpos q)%Z) /\
  (of_nat a / of_nat b <= p # q <-> (Z.of_nat a * Zpos q <= p * Z.of_nat b)%Z).
Proof.
  intros Hb. rewrite (rate_fraction a b Hb). unfold Qle. cbn [Qnum Qden].
  rewrite (Zpos_of_nat b Hb). split; reflexivity.
Qed.

(** X18. The rates of a diagnostic report are fractions between 0 and 1.
    The hit-rate alert is raised exactly when fewer than one prediction in
    five was a Hit, or when the window holds no prediction at all; the
    surprise-rate alert exactly when the Surprises outnumber the Hits. *)
Theorem diagnostic_alerts (combined_df : DataFrame) (report : DiagnosticRates) :
  diagnostic_rates combined_df = Ok report ->
  Total_Predictions report = (Hit_Count report + Miss_Count report)%nat /\
  0 <= Hit_Rate report <= 1 /\
  0 <= Surprise_Rate report <= 1 /\
  (Hit_Rate_Alert report = true <->
   (5 * Hit_Count report < Total_Predictions report)%nat \/
   Total_Predictions report = 0%nat) /\
  (Surprise_Rate_Alert report = true <->
   (Hit_Count report < Surprise_Count report)%nat).
Proof.
  intros H. pose proof (diagnostic_rates_Ok _ _ H) as Hcol.
  rewrite (diagnostic_rates_value _ Hcol) in H. cbv zeta in H. injection H as <-.
  cbn [Total_Predictions Hit_Count Miss_Count Surprise_Count Hit_Rate Surprise_Rate
       Hit_Rate_Alert Surprise_Rate_Alert].
  set (h := count_label "Result" "Hit" (rows combined_df)).
  set (m := count_label "Result" "Miss" (rows combined_df)).
  set (s := count_label "Result" "Surprise" (rows combined_df)).
  unfold hit_rate_threshold, surprise_rate_threshold.
  split; [reflexivity|].
  split; [|split; [|split]].
  - destruct (Nat.eqb (h + m) 0) eqn:E; [split; discriminate|].
    apply Nat.eqb_neq in E.
    destruct (fraction_le h (h + m) 0 1) as [H0 _]; [lia|].
    destruct (fraction_le h (h + m) 1 1) as [_ H1]; [lia|].
    split; [apply H0 | apply H1]; lia.
  - destruct (Nat.eqb (h + s) 0) eqn:E; [split; discriminate|].
    apply Nat.eqb_neq in E.
    destruct (fraction_le s (h + s) 0 1) as [H0 _]; [lia|].
    destruct (fraction_le s (h + s) 1 1) as [_ H1]; [lia|].
    split; [apply H0 | apply H1]; lia.
  - rewrite negb_true_iff, <- not_true_iff_false, Qle_bool_iff.
    destruct (Nat.eqb (h + m) 0) eqn:E.
    + apply Nat.eqb_eq in E. split; [intros _; right; exact E|].
      intros _ Hle. revert Hle. unfold Qle. simpl. lia.
    + apply Nat.eqb_neq in E.
      destruct (fraction_le h (h + m) 20 100) as [H0 _]; [lia|].
      rewrite H0. lia.
  - rewrite negb_true_iff, <- not_true_iff_false, Qle_bool_iff.
    destruct (Nat.eqb (h + s) 0) eqn:E.
    + apply Nat.eqb_eq in E. split; [|lia].
      intros Hn. exfalso. apply Hn. unfold Qle. simpl. lia.
    + apply Nat.eqb_neq in E.
      destruct (fraction_le s (h + s) 50 100) as [_ H1]; [lia|].
      rewrite H1. lia.
Qed.

Lemma diagnostic_alerts_witness :
  exists report,
    diagnostic_rates (DataFrame_of_records
                        [[("Result", Str "Surprise")]; [("Result", Str "Surprise")]])
    = Ok report /\
    Hit_Rate_Alert report = true /\ Surprise_Rate_Alert report = true /\
    Total_Predictions report = 0%nat /\
    (Hit_Count report < Surprise_Count report)%nat.
Proof.
  destruct (diagnostic_rates (DataFrame_of_records
              [[("Result", Str "Surprise")]; [("Result", Str "Surprise")]]))
    as [report|e] eqn:E; [|vm_compute in E; discriminate E].
  exists report. split; [reflexivity|].
  destruct (diagnostic_alerts _ report E) as (_ & _ & _ & Hh & Hs).
  assert (Ht : Total_Predictions report = 0%nat).
  { vm_compute in E. injection E as <-. reflexivity. }
  assert (Hc : (Hit_Count report < Surprise_Count report)%nat).
  { vm_compute in E. injection E as <-. simpl. lia. }
  split; [apply Hh; right; exact Ht|]. split; [apply Hs; exact Hc|].
  split; assumption.
Defined.

Lemma cell_at_text_key c r s : cell_at c r = Str s -> In c (keys r).
Proof.
  unfold cell_at, keys. induction r as [|[k v] r IH]; simpl; [discriminate|].
  destruct (String.eqb c k) eqn:E.
  - apply String.eqb_eq in E. auto.
  - intros H. right. apply IH. exact H.
Qed.

(** X19. The diagnostics count in the table of a day what the Tracker
    counted: on the records of a reconciliation with at least one outcome
    the report has as many Hits, Misses and Surprises as the three joined
    tables have rows, its surprise rate is the one the Tracker prints, and
    so is its hit rate when no player name comes twice in the outcomes. *)
Theorem diagnostics_agree_with_tracker (yesterday : string)
    (predictions actual : DataFrame) (rec : Reconciliation) :
  reconciliation yesterday predictions actual = Ok rec ->
  (0 < len actual)%nat ->
  exists report rates,
    diagnostic_rates (DataFrame_of_records (tracking_results rec)) = Ok report /\
    tracker_rates predictions (hits rec) (surprises rec) = Ok rates /\
    Hit_Count report = len (hits rec) /\
    Miss_Count report = len (misses rec) /\
    Surprise_Count report = len (surprises rec) /\
    Surprise_Rate report = snd rates /\
    (is_unique (map (cell_at "Player") (rows actual)) = true ->
     Hit_Rate report = fst rates).
Proof.
  intros H Hlen.
  assert (Hcol : has_column (DataFrame_of_records (tracking_results rec)) "Result" = true).
  { destruct (rows actual) as [|o os] eqn:Ho; [unfold len in Hlen; rewrite Ho in Hlen;
                                                simpl in Hlen; lia|].
    destruct (proj2 (reconciliation_covers _ _ _ _ H) o) as (r & Hr & _ & Hres).
    { rewrite Ho. left. reflexivity. }
    apply (records_column _ r); [exact Hr|].
    destruct Hres as [Hres|Hres]; eapply cell_at_text_key; exact Hres. }
  rewrite (diagnostic_rates_value _ Hcol). cbv zeta.
  cbn [rows DataFrame_of_records].
  destruct (reconciliation_counts _ _ _ _ H) as (-> & -> & ->).
  unfold tracker_rates. rewrite !guarded_rate.
  eexists. eexists. split; [reflexivity|]. split; [reflexivity|].
  cbn [Hit_Count Miss_Count Surprise_Count Hit_Rate Surprise_Rate fst snd].
  repeat split.
  intros Hu. apply reconciliation_Ok in H as (_ & _ & _ & Hh & Hm & _).
  rewrite (predicted_split _ _ _ _ Hh Hm Hu). reflexivity.
Qed.

Lemma diagnostics_agree_with_tracker_witness :
  exists rec report rates,
    reconciliation "2024-06-01" sample_predictions sample_outcomes = Ok rec /\
    diagnostic_rates (DataFrame_of_records (tracking_results rec)) = Ok report /\
    tracker_rates sample_predictions (hits rec) (surprises rec) = Ok rates /\
    Hit_Count report = len (hits rec) /\
    Miss_Count report = len (misses rec) /\
    Surprise_Count report = len (surprises rec) /\
    Surprise_Rate report = snd rates /\
    Hit_Rate report = fst rates.
Proof.
  destruct (reconciliation "2024-06-01" sample_predictions sample_outcomes)
    as [rec|e] eqn:E; [|vm_compute in E; discriminate E].
  destruct (diagnostics_agree_with_tracker _ _ _ rec E)
    as (report & rates & H1 & H2 & H3 & H4 & H5 & H6 & H7); [vm_compute; lia|].
  exists rec, report, rates. split; [reflexivity|]. repeat (split; [assumption|]).
  apply H7. vm_compute. reflexivity.
Defined.

Lemma load_tracking_Ok tracking_files w dfs w' :
  load_tracking tracking_files w = (Ok dfs, w') ->
  w' = w /\ dfs = omap (fun file => files w !! file) tracking_files.
Proof.
  revert dfs w'. induction tracking_files as [|file rest IH]; intros dfs w'; simpl.
  - intros [= <- <-]. split; reflexivity.
  - unfold mbind at 1. unfold IO_bind at 1. unfold path_exists at 1. cbn [fst snd].
    destruct (available w file) eqn:Ha.
    + unfold mbind at 1. unfold IO_bind at 1. unfold read_csv at 1.
      destruct (files w !! file) as [df|] eqn:Hf; [|discriminate].
      unfold mbind, IO_bind.
      destruct (load_tracking rest w) as [[rest_dfs|e] w1] eqn:Hrest; [|discriminate].
      destruct (IH rest_dfs w1 eq_refl) as [-> ->].
      intros [= <- <-]. split; reflexivity.
    + assert (Hf : files w !! file = None).
      { unfold available in Ha. apply orb_false_iff in Ha as [Ha _].
        apply bool_decide_eq_false in Ha.
        destruct (files w !! file); [exfalso; apply Ha; eauto | reflexivity]. }
      rewrite Hf. apply IH.
Qed.

Lemma rows_concat_all first others :
  rows (concat_all first others) = (rows first ++ flat_map rows others)%list.
Proof.
  unfold concat_all. revert first. induction others as [|df others IH]; intros first; simpl.
  - rewrite app_nil_r. reflexivity.
  - rewrite IH. simpl. rewrite <- app_assoc. reflexivity.
Qed.

Lemma flat_map_rows_omap (w : World) (path : string -> string) (days : list string) :
  flat_map rows (omap (fun file => files w !! file) (map path days))
  = flat_map (fun day => match files w !! path day with
                         | Some df => rows df
                         | None => []
                         end) days.
Proof.
  induction days as [|day days IH]; simpl; [reflexivity|].
  destruct (files w !! path day) as [df|]; simpl; [f_equal|]; exact IH.
Qed.

(** X20. The window of the diagnostics is the tracking files of the days
    asked for that exist, one after the other in the order of the days:
    its rows are their rows in that order, a day without a file
    contributes nothing, and no file is written. No window is returned
    only when the tracking directory is missing or none of the days has a
    file. *)
Theorem diagnostic_window_rows (last_week : list string) (w w' : World)
    (window : option DataFrame) :
  diagnostic_window last_week w = (Ok window, w') ->
  files w' = files w /\
  match window with
  | Some combined_df =>
      rows combined_df =
      flat_map (fun day =>
                  match files w !! ("data/output/tracking/tracking_" ++ day ++ ".csv") with
                  | Some df => rows df
                  | None => []
                  end) last_week /\
      exists day, In day last_week /\
        is_Some (files w !! ("data/output/tracking/tracking_" ++ day ++ ".csv"))
  | None =>
      available w "data/output/tracking" = false \/
      forall day, In day last_week ->
        files w !! ("data/output/tracking/tracking_" ++ day ++ ".csv") = None
  end.
Proof.
  unfold diagnostic_window.
  unfold mbind at 1 2. unfold IO_bind at 1 2. unfold print at 1. unfold path_exists at 1.
  cbn [fst snd].
  set (w0 := {| files := files w; dirs := dirs w; stdout := _ |}).
  assert (Ha : available w0 "data/output/tracking" = available w "data/output/tracking")
    by reflexivity.
  rewrite Ha. destruct (available w "data/output/tracking") eqn:Hdir; cbn [negb].
  - unfold mbind at 1. unfold IO_bind at 1.
    destruct (load_tracking _ w0) as [[dfs|e] w1] eqn:Hload; [|discriminate].
    apply load_tracking_Ok in Hload as [-> ->].
    change (fun day => "data/output/tracking" ++ "/tracking_" ++ day ++ ".csv")
      with (fun day => "data/output/tracking/tracking_" ++ day ++ ".csv").
    pose proof (flat_map_rows_omap w0
                  (fun day => "data/output/tracking/tracking_" ++ day ++ ".csv") last_week)
      as Hrows.
    destruct (omap _ _) as [|df dfs] eqn:Hdfs.
    + unfold mbind, IO_bind, mret, IO_ret, print. cbn [fst snd].
      intros [= <- <-]. split; [reflexivity|]. right.
      intros day Hday.
      destruct (files w !! ("data/output/tracking/tracking_" ++ day ++ ".csv"))
        as [df|] eqn:Hf; [|reflexivity].
      assert (Hin : df ∈ omap (fun file => files w0 !! file)
                      (map (fun day => "data/output/tracking/tracking_" ++ day ++ ".csv")
                           last_week)).
      { apply list_elem_of_omap.
        exists ("data/output/tracking/tracking_" ++ day ++ ".csv"). split; [|exact Hf].
        apply list_elem_of_In.
        apply (in_map (fun day => "data/output/tracking/tracking_" ++ day ++ ".csv")).
        exact Hday. }
      rewrite Hdfs in Hin. apply elem_of_nil in Hin. destruct Hin.
    + unfold mret, IO_ret. intros [= <- <-]. split; [reflexivity|]. split.
      * rewrite rows_concat_all. exact Hrows.
      * assert (Hin : df ∈ omap (fun file => files w0 !! file)
                        (map (fun day => "data/output/tracking/tracking_" ++ day ++ ".csv")
                             last_week)) by (rewrite Hdfs; apply list_elem_of_here).
        apply list_elem_of_omap in Hin as (file & Hfile & Hf).
        apply list_elem_of_In, in_map_iff in Hfile as (day & <- & Hday).
        exists day. split; [exact Hday|]. eexists. exact Hf.
  - unfold mbind, IO_bind, mret, IO_ret, print. cbn [fst snd].
    intros [= <- <-]. split; [reflexivity|]. left. reflexivity.
Qed.

Lemma diagnostic_window_rows_witness :
  exists combined_df w',
    diagnostic_window ["2024-06-02"; "2024-06-01"; "2024-05-31"]
      (snd (track_home_runs sample_feed "2024-06-01" latest_only))
    = (Ok (Some combined_df), w') /\
    files w' = files (snd (track_home_runs sample_feed "2024-06-01" latest_only)) /\
    rows combined_df =
      flat_map (fun day =>
                  match files (snd (track_home_runs sample_feed "2024-06-01" latest_only))
                        !! ("data/output/tracking/tracking_" ++ day ++ ".csv") with
                  | Some df => rows df
                  | None => []
                  end) ["2024-06-02"; "2024-06-01"; "2024-05-31"].
Proof.
  destruct (diagnostic_window ["2024-06-02"; "2024-06-01"; "2024-05-31"]
              (snd (track_home_runs sample_feed "2024-06-01" latest_only)))
    as [r w'] eqn:E.
  destruct r as [[combined_df|]|e];
    [|vm_compute in E; discriminate E|vm_compute in E; discriminate E].
  exists combined_df, w'. split; [reflexivity|].
  destruct (diagnostic_window_rows _ _ _ _ E) as (Hfiles & Hrows & _).
  split; assumption.
Defined.

(** ** The player data source *)

Lemma default_values_length draw col n values :
  default_values draw col n = Some values -> length values = n.
Proof.
  unfold default_values, counted, numbered_names, drawn.
  repeat match goal with
         | |- (if ?b then _ else _) = _ -> _ => destruct b
         end;
    intros [= <-]; rewrite length_map, length_seq; reflexivity.
Qed.

Lemma default_values_required draw col n :
  In col required_columns -> exists values, default_values draw col n = Some values.
Proof.
  intros H. unfold required_columns in H. simpl in H.
  repeat (destruct H as [<-|H]; [eexists; reflexivity|]). destruct H.
Qed.

Lemma set_column_new df c values :
  has_column df c = false -> length values = len df ->
  len (set_column df c values) = len df /\
  has_column (set_column df c values) c = true /\
  forall c', has_column df c' = true ->
    has_column (set_column df c values) c' = true /\
    map (cell_at c') (rows (set_column df c values)) = map (cell_at c') (rows df).
Proof.
  intros Hnew Hlen. unfold set_column, has_column in *. simpl. rewrite Hnew.
  apply bool_decide_eq_false in Hnew.
  split; [unfold len in *; simpl; rewrite length_zip_with; lia|]. split.
  - apply bool_decide_eq_true. apply elem_of_app. right. apply list_elem_of_here.
  - intros c' Hc'. apply bool_decide_eq_true in Hc'. split.
    + apply bool_decide_eq_true. apply elem_of_app. left. exact Hc'.
    + assert (Hne : c' <> c) by (intros ->; contradiction).
      unfold len in Hlen. clear -Hne Hlen. revert values Hlen.
      induction (rows df) as [|r l IH]; intros [|v values] Hlen; simpl in *;
        try discriminate; [reflexivity|].
      rewrite cell_at_series_set_ne by exact Hne. f_equal. apply IH. lia.
Qed.

Lemma add_missing_spec draw cols player_df w r w' :
  add_missing draw cols player_df w = (r, w') ->
  exists out,
    r = Ok out /\ files w' = files w /\ len out = len player_df /\
    (forall c, has_column player_df c = true ->
       has_column out c = true /\
       map (cell_at c) (rows out) = map (cell_at c) (rows player_df)) /\
    (forall c, In c cols -> In c required_columns -> has_column out c = true) /\
    ((forall c, In c cols -> has_column player_df c = true) ->
     out = player_df /\ w' = w).
Proof.
  revert player_df w. induction cols as [|col rest IH]; intros player_df w; simpl.
  - intros [= <- <-]. exists player_df.
    split; [reflexivity|]. split; [reflexivity|]. split; [reflexivity|].
    split; [intros c Hc; split; [exact Hc | reflexivity]|].
    split; [intros c []|]. intros _. split; reflexivity.
  - destruct (has_column player_df col) eqn:Hcol.
    + intros H. destruct (IH _ _ H) as (out & -> & Hf & Hl & Hkeep & Hall & Hsame).
      exists out.
      split; [reflexivity|]. split; [exact Hf|]. split; [exact Hl|].
      split; [exact Hkeep|]. split.
      * intros c [<-|Hc] Hreq; [apply Hkeep; exact Hcol | apply Hall; assumption].
      * intros Hhave. apply Hsame. intros c Hc. apply Hhave. right. exact Hc.
    + unfold mbind at 1. unfold IO_bind at 1. unfold print at 1. cbn [fst snd].
      set (w1 := {| files := files w; dirs := dirs w; stdout := _ |}).
      intros H. destruct (IH _ _ H) as (out & -> & Hf & Hl & Hkeep & Hall & _).
      exists out.
      split; [reflexivity|]. split; [exact Hf|].
      assert (Hlast : (forall c, In c (col :: rest) -> has_column player_df c = true) ->
                      out = player_df /\ w' = w).
      { intros Hhave. rewrite Hhave in Hcol by (left; reflexivity). discriminate. }
      destruct (default_values draw col (len player_df)) as [values|] eqn:Hd.
      * destruct (set_column_new player_df col values Hcol
                    (default_values_length _ _ _ _ Hd)) as (Hlen & Hnew & Hold).
        split; [lia|]. split; [|split; [|exact Hlast]].
        -- intros c Hc. destruct (Hold c Hc) as [Hc1 Hc2].
           destruct (Hkeep c Hc1) as [Hc3 Hc4].
           split; [exact Hc3 | congruence].
        -- intros c [<-|Hc] Hreq; [apply Hkeep; exact Hnew | apply Hall; assumption].
      * split; [exact Hl|]. split; [exact Hkeep|]. split; [|exact Hlast].
        intros c [<-|Hc] Hreq; [|apply Hall; assumption].
        destruct (default_values_required draw col (len player_df) Hreq) as (v & Hv).
        congruence.
Qed.

Lemma minimal_player_data_columns draw c :
  In c required_columns -> has_column (minimal_player_data draw) c = true.
Proof.
  intros H. unfold required_columns in H. simpl in H.
  repeat (destruct H as [<-|H]; [reflexivity|]). destruct H.
Qed.

Lemma get_raw_player_data_inv draw w player_df w' :
  get_raw_player_data draw w = (Ok player_df, w') ->
  exists loaded w1,
    add_missing draw required_columns loaded w1 = (Ok player_df, w') /\
    match files w !! "data/raw_player_stats.csv" with
    | Some file => loaded = file /\ files w1 = files w
    | None =>
        available w "data/raw_player_stats.csv" = false /\
        loaded = minimal_player_data draw /\
        files w1 = <["data/raw_player_stats.csv" := minimal_player_data draw]> (files w)
    end.
Proof.
  unfold get_raw_player_data.
  unfold mbind at 1 2 3. unfold IO_bind at 1 2 3. unfold print at 1. unfold path_exists.
  cbn [fst snd].
  change (available _ "data/raw_player_stats.csv")
    with (available w "data/raw_player_stats.csv").
  destruct (available w "data/raw_player_stats.csv") eqn:Hav.
  - unfold mbind at 1 2. unfold IO_bind at 1 2. unfold read_csv, print, mret, IO_ret.
    cbn [fst snd files].
    destruct (files w !! "data/raw_player_stats.csv") as [file|] eqn:Hf;
      cbn [fst snd files]; [|discriminate].
    intros H. eexists. eexists. split; [exact H|]. split; reflexivity.
  - assert (Hf : files w !! "data/raw_player_stats.csv" = None).
    { unfold available in Hav. apply orb_false_iff in Hav as [Hav _].
      apply bool_decide_eq_false in Hav.
      destruct (files w !! _); [exfalso; apply Hav; eauto | reflexivity]. }
    rewrite Hf.
    unfold mbind at 1 2 3 4. unfold IO_bind at 1 2 3 4.
    unfold makedirs, print, to_csv, mret, IO_ret. cbn [fst snd files dirs stdout].
    intros H. eexists. eexists. split; [exact H|].
    split; [reflexivity|]. split; reflexivity.
Qed.

(** X21. The player table the data source returns has every one of the
    seventeen required columns. When the player file is there, the table
    has its rows, every column of the file is kept with its values, and
    no file is written; when it is not, the table is the generated one of
    fifty players, which is written to the player file. *)
Theorem player_data_required_columns (draw : string -> nat -> cell) (w w' : World)
    (player_df : DataFrame) :
  get_raw_player_data draw w = (Ok player_df, w') ->
  (forall c, In c required_columns -> has_column player_df c = true) /\
  match files w !! "data/raw_player_stats.csv" with
  | Some file =>
      len player_df = len file /\ files w' = files w /\
      forall c, has_column file c = true ->
        has_column player_df c = true /\
        map (cell_at c) (rows player_df) = map (cell_at c) (rows file)
  | None =>
      player_df = minimal_player_data draw /\ len player_df = 50%nat /\
      files w' = <["data/raw_player_stats.csv" := player_df]> (files w)
  end.
Proof.
  intros H. apply get_raw_player_data_inv in H as (loaded & w1 & Hadd & Hload).
  apply add_missing_spec in Hadd as (out & [= <-] & Hf & Hl & Hkeep & Hall & Hsame).
  split; [intros c Hc; apply Hall; exact Hc|].
  destruct (files w !! "data/raw_player_stats.csv") as [file|].
  - destruct Hload as [-> Hw1]. split; [exact Hl|]. split; [congruence|]. exact Hkeep.
  - destruct Hload as (_ & -> & Hw1).
    destruct Hsame as [-> ->]; [intros c Hc; apply minimal_player_data_columns; exact Hc|].
    split; [reflexivity|]. split; [reflexivity|]. exact Hw1.
Qed.

Lemma player_data_required_columns_witness :
  exists player_df w',
    get_raw_player_data sample_draw partial_world = (Ok player_df, w') /\
    (forall c, In c required_columns -> has_column player_df c = true) /\
    len player_df = len partial_player_file /\ files w' = files partial_world /\
    forall c, has_column partial_player_file c = true ->
      has_column player_df c = true /\
      map (cell_at c) (rows player_df) = map (cell_at c) (rows partial_player_file).
Proof.
  destruct (get_raw_player_data sample_draw partial_world) as [[player_df|e] w'] eqn:E;
    [|vm_compute in E; discriminate E].
  exists player_df, w'. split; [reflexivity|].
  pose proof (player_data_required_columns sample_draw partial_world w' player_df E)
    as [Hall Hfile].
  split; [exact Hall|]. exact Hfile.
Defined.

(** X22. The generated player table is generated once: a call without a
    player file returns the table of fifty players made from the draws
    and writes it, and a later call returns that same table whatever the
    generator would draw, adds no column and writes nothing. *)
Theorem player_data_generated_once (draw : string -> nat -> cell) (w : World) :
  available w "data/raw_player_stats.csv" = false ->
  exists w1,
    get_raw_player_data draw w = (Ok (minimal_player_data draw), w1) /\
    forall draw', exists w2,
      get_raw_player_data draw' w1 = (Ok (minimal_player_data draw), w2) /\
      files w2 = files w1.
Proof.
  intros Hav.
  assert (Hadd : forall d w0, add_missing d required_columns (minimal_player_data draw) w0
                              = (Ok (minimal_player_data draw), w0)).
  { intros d w0.
    destruct (add_missing d required_columns (minimal_player_data draw) w0)
      as [r w0'] eqn:E.
    apply add_missing_spec in E as (out & -> & _ & _ & _ & _ & Hsame).
    destruct Hsame as [-> ->]; [|reflexivity].
    intros c Hc. apply minimal_player_data_columns. exact Hc. }
  eexists. split.
  - unfold get_raw_player_data.
    unfold mbind at 1 2 3. unfold IO_bind at 1 2 3. unfold print at 1. unfold path_exists.
    cbn [fst snd].
    change (available _ "data/raw_player_stats.csv")
      with (available w "data/raw_player_stats.csv").
    rewrite Hav.
    unfold mbind at 1 2 3 4. unfold IO_bind at 1 2 3 4.
    unfold makedirs, print, to_csv, mret, IO_ret. cbn [fst snd files dirs stdout].
    apply Hadd.
  - intros draw'. unfold get_raw_player_data.
    unfold mbind at 1 2 3. unfold IO_bind at 1 2 3. unfold print at 1. unfold path_exists.
    cbn [fst snd]. unfold available. cbn [files dirs].
    rewrite lookup_insert_eq. rewrite bool_decide_eq_true_2 by eauto. cbn [orb].
    unfold mbind at 1 2. unfold IO_bind at 1 2. unfold read_csv, print, mret, IO_ret.
    cbn [fst snd files]. rewrite lookup_insert_eq.
    rewrite Hadd. eexists. split; reflexivity.
Qed.

Lemma player_data_generated_once_witness :
  exists w1,
    get_raw_player_data sample_draw empty_world
    = (Ok (minimal_player_data sample_draw), w1) /\
    forall draw', exists w2,
      get_raw_player_data draw' w1 = (Ok (minimal_player_data sample_draw), w2) /\
      files w2 = files w1.
Proof.
  apply (player_data_generated_once sample_draw empty_world).
  vm_compute. reflexivity.
Defined.

(** ** The best score and the best tier *)

Lemma In_insert_asc x y l : In y (insert_asc x l) -> y = x \/ In y l.
Proof.
  induction l as [|z l IH]; simpl.
  - intros [<-|[]]. left. reflexivity.
  - destruct (Qle_bool x z); simpl.
    + intros [<-|H]; [left; reflexivity | right; exact H].
    + intros [<-|H]; [right; left; reflexivity|].
      destruct (IH H) as [->|Hl]; [left; reflexivity | right; right; exact Hl].
Qed.

Lemma In_sort_asc y l : In y (sort_asc l) -> In y l.
Proof.
  induction l as [|x l IH]; simpl; [tauto|].
  intros H. apply In_insert_asc in H as [->|H]; [left; reflexivity | right; apply IH, H].
Qed.

Lemma length_insert_asc x l : length (insert_asc x l) = S (length l).
Proof.
  induction l as [|z l IH]; simpl; [reflexivity|].
  destruct (Qle_bool x z); simpl; [reflexivity | rewrite IH; reflexivity].
Qed.

Lemma length_sort_asc l : length (sort_asc l) = length l.
Proof.
  induction l as [|x l IH]; simpl; [reflexivity|].
  rewrite length_insert_asc, IH. reflexivity.
Qed.

Lemma lerp_le a b t M : a <= M -> b <= M -> 0 <= t -> t <= 1 -> lerp a b t <= M.
Proof.
  intros Ha Hb H0 H1. unfold lerp.
  assert (Hu : 0 <= 1 - t) by lra.
  destruct (Qlt_le_dec b a) as [Hlt|Hle].
  - assert (P1 : 0 <= (a - b) * t) by (apply Qmult_le_0_compat; lra).
    assert (P2 : 0 <= (a - b) * (1 - t)) by (apply Qmult_le_0_compat; lra).
    destruct (Qle_bool (1 # 2) t); lra.
  - assert (P1 : 0 <= (b - a) * t) by (apply Qmult_le_0_compat; lra).
    assert (P2 : 0 <= (b - a) * (1 - t)) by (apply Qmult_le_0_compat; lra).
    destruct (Qle_bool (1 # 2) t); lra.
Qed.

Lemma percentile_sorted_le (s : list Q) (q M : Q) :
  s <> [] -> 0 <= q -> q <= 100 -> (forall y, In y s -> y <= M) ->
  percentile_sorted s q <= M.
Proof.
  intros Hne Hq0 Hq1 Hall. unfold percentile_sorted.
  set (n := length s).
  assert (Hn : (0 < n)%nat) by (unfold n; destruct s; [congruence | simpl; lia]).
  set (vi := inject_Z (Z.of_nat (n - 1)) * (q / 100)).
  assert (Hn1 : 0 <= inject_Z (Z.of_nat (n - 1))).
  { change 0 with (inject_Z 0). rewrite <- Zle_Qle. lia. }
  assert (Hvi0 : 0 <= vi).
  { unfold vi. apply Qmult_le_0_compat; [exact Hn1|].
    apply Qle_shift_div_l; [reflexivity | lra]. }
  assert (Hvi1 : vi <= inject_Z (Z.of_nat (n - 1))).
  { unfold vi. assert (Hq : q / 100 <= 1) by (apply Qle_shift_div_r; [reflexivity | lra]).
    assert (P : 0 <= inject_Z (Z.of_nat (n - 1)) * (1 - q / 100))
      by (apply Qmult_le_0_compat; lra).
    lra. }
  assert (Hf0 : (0 <= Qfloor vi)%Z).
  { change 0%Z with (Qfloor 0). apply Qfloor_resp_le. exact Hvi0. }
  assert (Hf1 : (Qfloor vi <= Z.of_nat (n - 1))%Z).
  { rewrite <- (Qfloor_Z (Z.of_nat (n - 1))). apply Qfloor_resp_le. exact Hvi1. }
  set (previous := Z.to_nat (Qfloor vi)).
  assert (Hprev : (previous <= n - 1)%nat) by (unfold previous; lia).
  assert (Hinj : inject_Z (Z.of_nat previous) = inject_Z (Qfloor vi)).
  { unfold previous. rewrite Z2Nat.id by exact Hf0. reflexivity. }
  apply lerp_le.
  - apply Hall. apply nth_In. fold n. lia.
  - apply Hall. apply nth_In. fold n. lia.
  - rewrite Hinj. pose proof (Qfloor_le vi). lra.
  - rewrite Hinj. pose proof (Qlt_floor vi) as Hlt.
    rewrite inject_Z_plus in Hlt. change (inject_Z 1) with 1 in Hlt. lra.
Qed.

Lemma all_numbers_bounded (scores : list cell) (x : Q) :
  (forall c, In c scores -> float_ge (Num x) c = true) ->
  exists xs, all_numbers scores = Some xs /\ length xs = length scores /\
             forall y, In y xs -> y <= x.
Proof.
  induction scores as [|c scores IH]; intros H; simpl.
  - exists []. repeat split. intros y [].
  - destruct IH as (xs & -> & Hlen & Hle); [intros c' Hc'; apply H; right; exact Hc'|].
    pose proof (H c (or_introl eq_refl)) as Hc.
    destruct c as [y| | |]; simpl in Hc; try discriminate.
    exists (y :: xs). split; [reflexivity|]. split; [simpl; lia|].
    intros z [<-|Hz]; [apply Qle_bool_iff; exact Hc | apply Hle; exact Hz].
Qed.

(** X23. The best score carries the best tier: a row of the returned
    table whose HR_Score is at least that of every row of the table is
    tagged A+, whatever the number of rows and of equal scores. *)
Theorem best_score_is_A_plus (player_df top30 : DataFrame) (r : Series) :
  top30_predictions player_df = Ok top30 ->
  In r (rows top30) ->
  (forall r', In r' (rows top30) ->
     float_ge (cell_at "HR_Score" r) (cell_at "HR_Score" r') = true) ->
  cell_at "Confidence" r = Str "A+".
Proof.
  intros H Hr Hbest.
  apply predictions_tagged in H as (scores & cutoffs & _ & Hscores & Hcut & Htag).
  rewrite (Htag r Hr).
  apply column_Ok in Hscores as [_ ->].
  pose proof (Hbest r Hr) as Hself.
  destruct (cell_at "HR_Score" r) as [x| | |] eqn:Hx; try discriminate.
  destruct (all_numbers_bounded (map (cell_at "HR_Score") (rows top30)) x)
    as (xs & Hxs & Hlen & Hle).
  { intros c Hc. apply in_map_iff in Hc as (r' & <- & Hr'). apply Hbest. exact Hr'. }
  unfold percentile in Hcut. rewrite Hxs in Hcut.
  destruct (map (cell_at "HR_Score") (rows top30)) as [|c0 cs] eqn:Hmap.
  { destruct (rows top30); [destruct Hr | discriminate]. }
  injection Hcut as <-. cbn [map]. apply tag_confidence_top.
  simpl. apply Qle_bool_iff. apply percentile_sorted_le.
  - intros Hnil. apply (f_equal (@length Q)) in Hnil.
    rewrite length_sort_asc, Hlen in Hnil. discriminate.
  - discriminate.
  - discriminate.
  - intros y Hy. apply Hle. apply In_sort_asc. exact Hy.
Qed.

Lemma best_score_is_A_plus_witness :
  exists top30 r,
    top30_predictions sample_players = Ok top30 /\
    rows top30 !! 0%nat = Some r /\
    cell_at "Confidence" r = Str "A+".
Proof.
  destruct (top30_predictions sample_players) as [top30|e] eqn:E;
    [|vm_compute in E; discriminate E].
  pose proof (best_score_is_A_plus sample_players top30) as H.
  specialize (fun r => H r E).
  vm_compute in E. injection E as <-.
  eexists. eexists. split; [reflexivity|]. split; [reflexivity|].
  apply H; [left; reflexivity|].
  intros r' Hr'. vm_compute in Hr'.
  repeat (destruct Hr' as [<-|Hr']; [vm_compute; reflexivity|]). destruct Hr'.
Defined.

(** ** The Outcome Tracker without a result *)

Lemma reconcile_not_None yesterday tracking_dir predictions actual w w' :
  reconcile yesterday tracking_dir predictions actual w <> (Ok None, w').
Proof.
  unfold reconcile. intros H. do 8 io_inv H. discriminate.
Qed.

(** X24. When the Tracker returns None (no prediction file, no answer of
    the feed after three attempts, or an empty outcome table), it has
    written no tracking file and has not touched the cumulative file: the
    only file that may be new is the outcome cache of the day. *)
Theorem tracker_none_writes_nothing (feed : string -> nat -> string + DataFrame)
    (yesterday : string) (w w' : World) (p : string) :
  track_home_runs feed yesterday w = (Ok None, w') ->
  p <> "data/actual/actual_hr_" ++ yesterday ++ ".csv" ->
  files w' !! p = files w !! p.
Proof.
  unfold track_home_runs. intros H Hp. do 4 io_inv H.
  unfold print in Hrun. injection Hrun as _ <-.
  unfold makedirs in Hrun0. injection Hrun0 as _ <-.
  unfold path_exists in Hrun1. injection Hrun1 as <- <-.
  assert (Hfiles : files w3 = files w).
  { destruct (available _ _).
    - injection Hrun2 as _ <-. reflexivity.
    - do 2 io_inv Hrun2.
      unfold print in Hrun. injection Hrun as _ <-.
      unfold path_exists in Hrun0. injection Hrun0 as <- <-.
      destruct (available _ _).
      + injection Hrun2 as _ <-. reflexivity.
      + io_inv Hrun2. unfold print in Hrun. injection Hrun as _ <-.
        injection Hrun2 as _ <-. reflexivity. }
  match type of H with
  | match ?chosen with _ => _ end _ = _ => destruct chosen as [prediction_file|]
  end; [|injection H as <-; rewrite Hfiles; reflexivity].
  do 2 io_inv H.
  match goal with Hr : read_csv _ _ = _ |- _ => rename Hr into Hread end.
  match goal with Hr : get_actual_hr_data _ _ _ = _ |- _ => rename Hr into Hfetch end.
  unfold read_csv in Hread.
  destruct (files w3 !! prediction_file) as [df|]; [|discriminate].
  injection Hread as _ <-.
  pose proof (get_actual_hr_data_files _ _ _ _ _ p Hfetch Hp) as Hkeep.
  rewrite Hfiles in Hkeep.
  match type of H with
  | match ?found with _ => _ end _ = _ => destruct found as [actual|]
  end.
  - destruct (bool_decide _).
    + io_inv H. unfold print in Hrun. injection Hrun as _ <-.
      injection H as <-. exact Hkeep.
    + exfalso. exact (reconcile_not_None _ _ _ _ _ _ H).
  - io_inv H. unfold print in Hrun. injection Hrun as _ <-.
    injection H as <-. exact Hkeep.
Qed.

Lemma tracker_none_writes_nothing_witness :
  exists w',
    track_home_runs (fun _ _ => inl "timed out") "2024-06-01" latest_only = (Ok None, w') /\
    files w' !! "data/output/tracking/tracking_2024-06-01.csv" = None /\
    files w' !! "data/output/tracking/cumulative_tracking.csv" = None.
Proof.
  destruct (track_home_runs (fun _ _ => inl "timed out") "2024-06-01" latest_only)
    as [r w'] eqn:E.
  assert (Hr : r = Ok None) by (vm_compute in E; injection E as <- _; reflexivity).
  subst r. exists w'. split; [reflexivity|].
  split.
  - rewrite (tracker_none_writes_nothing _ _ _ _
               "data/output/tracking/tracking_2024-06-01.csv" E) by (simpl; discriminate).
    vm_compute. reflexivity.
  - rewrite (tracker_none_writes_nothing _ _ _ _
               "data/output/tracking/cumulative_tracking.csv" E) by (simpl; discriminate).
    vm_compute. reflexivity.
Defined.
